(** * The PSP operating-system abstraction layer of pthreads-embedded

    A shallow embedding of [psp_osal.c]: every OSAL primitive is a program
    of the monad [prog], whose effects are the calls the C code makes into
    the PSP kernel, the C library and the TLS helper, plus reads and writes
    of the C variables the file owns.  The kernel is never fixed: results
    are stated for an arbitrary [handler], and a small reference kernel
    ([Psp]) serves to run the programs on concrete inputs. *)

From Stdlib Require Import ZArith List String Ascii Bool Lia.
From stdpp Require Import base option gmap strings.
Import ListNotations.
Local Open Scope Z_scope.

(** ** Status codes and constants *)

(** [pte_osResult], restricted to the members [psp_osal.c] uses. *)
Inductive pte_osResult : Type :=
| PTE_OS_OK
| PTE_OS_NO_RESOURCES
| PTE_OS_GENERAL_FAILURE
| PTE_OS_TIMEOUT
| PTE_OS_INTERRUPTED.

#[global] Instance pte_osResult_eq_dec : EqDecision pte_osResult.
Proof. solve_decision. Defined.

Definition MAX_PSP_UID : Z := 2048.
Definition DEFAULT_STACK_SIZE_BYTES : Z := 4096.
Definition PSP_MAX_TLS : Z := 32.
Definition NULL : Z := 0.

(** Constants of the PSP SDK headers ([pspkerror.h], [pspthreadman.h]),
    with the values those headers give them. *)
Definition SCE_KERNEL_ERROR_OK : Z := 0.
Definition SCE_KERNEL_ERROR_NO_MEMORY : Z := 0x80020190.
Definition SCE_KERNEL_ERROR_UNKNOWN_SEMID : Z := 0x80020199.
Definition SCE_KERNEL_ERROR_UNKNOWN_THID : Z := 0x80020198.
Definition SCE_KERNEL_ERROR_ILLEGAL_PRIORITY : Z := 0x80020193.
Definition SCE_KERNEL_ERROR_WAIT_TIMEOUT : Z := 0x800201a8.
Definition SCE_KERNEL_ERROR_SEMA_OVF : Z := 0x800201ae.
Definition PSP_THREAD_STOPPED : Z := 16.
Definition PSP_THREAD_READY : Z := 2.

(** Modelled from the spec: the fixed polling delay of the cancellable
    waits and the platform's largest semaphore count.  Both macros are
    declared in headers that are not among the sources; only their being
    constants matters below. *)
Definition POLLING_DELAY_IN_us : Z := 100.
Definition SEM_VALUE_MAX : Z := 2 ^ 31 - 1.

(** ** Machine integers *)

(** Conversion to [unsigned int] and to [int] (32 bits). *)
Definition to_uint32 (z : Z) : Z := z mod 2 ^ 32.
Definition to_int32 (z : Z) : Z := (z + 2 ^ 31) mod 2 ^ 32 - 2 ^ 31.

(** ** Calls out of the file *)

(** The functions [psp_osal.c] calls and does not define: the PSP kernel,
    the C library, and the TLS helper of the library. *)
Inductive kcall : Type :=
| sceKernelGetThreadId
| sceKernelCreateSema (name : string) (attr initVal maxVal option : Z)
| sceKernelDeleteSema (semaid : Z)
| sceKernelSignalSema (semaid signal : Z)
| sceKernelWaitSema (semaid need : Z) (timeout : option Z)
| sceKernelReferSemaStatus (semaid : Z)
| sceKernelCreateThread (name : string) (entry initPriority stackSize attr option : Z)
| sceKernelStartThread (thid arglen argp : Z)
| sceKernelDeleteThread (thid : Z)
| sceKernelReferThreadStatus (thid : Z)
| sceKernelReferThreadRunStatus (thid : Z)
| sceKernelDelayThread (delay : Z)
| pspSdkDisableInterrupts
| pspSdkEnableInterrupts (flags : Z)
| clock
| printf (s : string)
| sscanf (s format : string)
| malloc
| free (p : Z)
| pteTlsGlobalInit (maxEntries : Z)
| pteTlsAlloc
| pteTlsThreadInit
| pteTlsThreadDestroy (pTls : Z)
| pteTlsSetValue (pTls key value : Z)
| pteTlsGetValue (pTls key : Z).

(** What [sscanf] with two conversions hands back: its return value and
    the variables it assigned. *)
Inductive scan_result : Type :=
| ScanEOF
| Scan0
| Scan1 (first : Z)
| Scan2 (first second : Z).

Definition numMatches (r : scan_result) : Z :=
  match r with
  | ScanEOF => -1
  | Scan0 => 0
  | Scan1 _ => 1
  | Scan2 _ _ => 2
  end.

(** What each call hands back: its return value and, where the C code
    passes an out-parameter and reads it afterwards, the field it reads
    ([semInfo.currentCount], [thinfo.name], [info.status], [*pKey]). *)
Definition kresp (c : kcall) : Type :=
  match c with
  | sscanf _ _ => scan_result
  | sceKernelReferSemaStatus _ => (Z * Z)%type
  | sceKernelReferThreadStatus _ => (Z * string)%type
  | sceKernelReferThreadRunStatus _ => (Z * Z)%type
  | pspSdkEnableInterrupts _ | free _ | pteTlsThreadDestroy _ => unit
  | pteTlsGlobalInit _ | pteTlsSetValue _ _ _ => pte_osResult
  | pteTlsAlloc => (pte_osResult * option Z)%type
  | _ => Z
  end.

Record event : Type := Ev { ev_call : kcall; ev_resp : kresp ev_call }.

(** ** The C variables of the file *)

(** [struct pspThreadData]; a field is [None] until it is assigned. *)
Record pspThreadData : Type := mkThreadData {
  entryPoint : option Z;
  argv : option Z;
  cancelSem : option Z
}.

Definition fresh_block : pspThreadData := mkThreadData None None None.

(** The file's statics ([threadDataKey], [globalTls], the three name
    counters), the control blocks it allocates, keyed by address, and the
    plain [int] locations the atomics work on. *)
Record memory : Type := mkMemory {
  threadDataKey : Z;
  globalTls : Z;
  threadNum : Z;
  mutexCtr : Z;
  semCtr : Z;
  heap : gmap Z pspThreadData;
  cells : gmap Z Z
}.

Definition set_threadDataKey (v : Z) (m : memory) : memory :=
  mkMemory v (globalTls m) (threadNum m) (mutexCtr m) (semCtr m) (heap m) (cells m).
Definition set_globalTls (v : Z) (m : memory) : memory :=
  mkMemory (threadDataKey m) v (threadNum m) (mutexCtr m) (semCtr m) (heap m) (cells m).
Definition set_threadNum (v : Z) (m : memory) : memory :=
  mkMemory (threadDataKey m) (globalTls m) v (mutexCtr m) (semCtr m) (heap m) (cells m).
Definition set_mutexCtr (v : Z) (m : memory) : memory :=
  mkMemory (threadDataKey m) (globalTls m) (threadNum m) v (semCtr m) (heap m) (cells m).
Definition set_semCtr (v : Z) (m : memory) : memory :=
  mkMemory (threadDataKey m) (globalTls m) (threadNum m) (mutexCtr m) v (heap m) (cells m).
Definition set_heap (f : gmap Z pspThreadData -> gmap Z pspThreadData) (m : memory) : memory :=
  mkMemory (threadDataKey m) (globalTls m) (threadNum m) (mutexCtr m) (semCtr m) (f (heap m)) (cells m).
Definition set_cells (f : gmap Z Z -> gmap Z Z) (m : memory) : memory :=
  mkMemory (threadDataKey m) (globalTls m) (threadNum m) (mutexCtr m) (semCtr m) (heap m) (f (cells m)).

Definition initial_memory : memory :=
  mkMemory 0 NULL 1 0 0 ∅ ∅.

(** ** Programs *)

(** A C function body: it returns, calls out and continues with the
    answer, reads or updates the file's variables, has undefined behaviour
    ([Undefined]: a wild pointer is dereferenced), or is still inside a
    polling loop when the fuel of the model ends ([Spinning]). *)
Inductive prog (R : Type) : Type :=
| Ret (r : R)
| Call (c : kcall) (k : kresp c -> prog R)
| Load (k : memory -> prog R)
| Modify (f : memory -> memory) (k : prog R)
| Undefined
| Spinning.

Arguments Ret {R} r.
Arguments Call {R} c k.
Arguments Load {R} k.
Arguments Modify {R} f k.
Arguments Undefined {R}.
Arguments Spinning {R}.

Fixpoint bind {A B : Type} (p : prog A) (f : A -> prog B) : prog B :=
  match p with
  | Ret a => f a
  | Call c k => Call c (fun x => bind (k x) f)
  | Load k => Load (fun m => bind (k m) f)
  | Modify g k => Modify g (bind k f)
  | Undefined => Undefined
  | Spinning => Spinning
  end.

Definition call (c : kcall) : prog (kresp c) := Call c Ret.
Definition load : prog memory := Load Ret.
Definition modify (f : memory -> memory) : prog unit := Modify f (Ret tt).

Declare Scope prog_scope.
Delimit Scope prog_scope with prog.
Notation "x <- p ;; q" := (bind p (fun x => q))
  (at level 100, p at next level, right associativity) : prog_scope.
Notation "p ;;; q" := (bind p (fun _ => q))
  (at level 100, right associativity) : prog_scope.
Local Open Scope prog_scope.

(** [while (1) { body }], unrolled [fuel] times: the body answers
    [Some r] where the C loop breaks with [result = r]. *)
Fixpoint while1 {R : Type} (fuel : nat) (body : prog (option R)) : prog R :=
  match fuel with
  | O => Spinning
  | S n => r <- body ;;
           match r with
           | Some v => Ret v
           | None => while1 n body
           end
  end.

(** ** Running a program against a kernel *)

Inductive outcome (R : Type) : Type :=
| Returned (r : R)
| Undef
| Spin.

Arguments Returned {R} r.
Arguments Undef {R}.
Arguments Spin {R}.

(** A kernel: a state of its own and an answer to every call. *)
Definition handler (S : Type) : Type := forall c : kcall, S -> kresp c * S.

Record result (S R : Type) : Type := Result {
  outcome_of : outcome R;
  memory_of : memory;
  kernel_of : S;
  trace_of : list event
}.

Arguments Result {S R} _ _ _ _.
Arguments outcome_of {S R} _.
Arguments memory_of {S R} _.
Arguments kernel_of {S R} _.
Arguments trace_of {S R} _.

Definition log {S R : Type} (e : event) (r : result S R) : result S R :=
  Result (outcome_of r) (memory_of r) (kernel_of r) (e :: trace_of r).

Fixpoint run {S R : Type} (h : handler S) (p : prog R) (m : memory) (s : S)
  : result S R :=
  match p with
  | Ret r => Result (Returned r) m s []
  | Call c k => log (Ev c (fst (h c s))) (run h (k (fst (h c s))) m (snd (h c s)))
  | Load k => run h (k m) m s
  | Modify f k => run h k (f m) s
  | Undefined => Result Undef m s []
  | Spinning => Result Spin m s []
  end.

(** The calls of a trace, answers dropped. *)
Definition calls (t : list event) : list kcall := map ev_call t.

(** ** Formatting: [snprintf] *)

Definition digit_char (d : Z) : ascii :=
  ascii_of_nat (Z.to_nat (if d <? 10 then 48 + d else 87 + d)).

(** The digits of [n >= 0] in base [base], most significant first, put in
    front of [acc]. *)
Fixpoint digits_of (fuel : nat) (base n : Z) (acc : string) : string :=
  match fuel with
  | O => acc
  | S f =>
      let acc' := String (digit_char (n mod base)) acc in
      if n / base =? 0 then acc' else digits_of f base (n / base) acc'
  end.

Fixpoint zeros (n : nat) : string :=
  match n with
  | O => EmptyString
  | S k => String "0"%char (zeros k)
  end.

(** [%d], [%04d] and [%x]. *)
Definition fmt_d (n : Z) : string :=
  if n <? 0 then String "-"%char (digits_of 40 10 (- n) EmptyString)
  else digits_of 40 10 n EmptyString.

Definition fmt_04d (n : Z) : string :=
  let ds := digits_of 40 10 (Z.abs n) EmptyString in
  let sign := if n <? 0 then "-"%string else EmptyString in
  let used := (String.length sign + String.length ds)%nat in
  (sign ++ zeros (4 - used) ++ ds)%string.

Definition fmt_x (n : Z) : string := digits_of 40 16 (to_uint32 n) EmptyString.

(** [snprintf(buf, size, ...)] keeps at most [size - 1] characters. *)
Definition snprintf (size : nat) (s : string) : string :=
  String.substring 0 (size - 1) s.

(** The address of [pspStubThreadEntry], as the kernel receives it. *)
Definition pspStubThreadEntry : Z := 0x08804000.

(** ** Reads and writes through pointers *)

(** [malloc(sizeof(pspThreadData))]: a successful allocation adds a block
    with no field assigned. *)
Definition malloc_pspThreadData : prog Z :=
  p <- call malloc ;;
  (if p =? NULL then Ret tt else modify (set_heap (insert p fresh_block))) ;;;
  Ret p.

Definition free_pspThreadData (p : Z) : prog unit :=
  call (free p) ;;;
  modify (set_heap (delete p)).

(** [p->field = v]; undefined where [p] is not a live control block. *)
Definition store_field (p : Z) (upd : pspThreadData -> pspThreadData) : prog unit :=
  m <- load ;;
  match heap m !! p with
  | Some d => modify (set_heap (insert p (upd d)))
  | None => Undefined
  end.

Definition with_entryPoint (v : Z) (d : pspThreadData) : pspThreadData :=
  mkThreadData (Some v) (argv d) (cancelSem d).
Definition with_argv (v : Z) (d : pspThreadData) : pspThreadData :=
  mkThreadData (entryPoint d) (Some v) (cancelSem d).
Definition with_cancelSem (v : Z) (d : pspThreadData) : pspThreadData :=
  mkThreadData (entryPoint d) (argv d) (Some v).

(** [p->cancelSem]; undefined where [p] is not a live control block or
    the field was never assigned. *)
Definition load_cancelSem (p : Z) : prog Z :=
  m <- load ;;
  match heap m !! p with
  | Some d => match cancelSem d with
              | Some v => Ret v
              | None => Undefined
              end
  | None => Undefined
  end.

(** [*p] and [*p = v] on a plain [int]. *)
Definition read_cell (p : Z) : prog Z :=
  m <- load ;;
  match cells m !! p with
  | Some v => Ret v
  | None => Undefined
  end.

Definition write_cell (p v : Z) : prog unit :=
  m <- load ;;
  match cells m !! p with
  | Some _ => modify (set_cells (insert p v))
  | None => Undefined
  end.

(** ** Helper functions *)

Definition getTlsStructFromThread (thid : Z) : prog Z :=
  thinfo <- call (sceKernelReferThreadStatus thid) ;;
  r <- call (sscanf (snd thinfo) "pthread%04d__%x") ;;
  match r with
  | Scan2 thrNum ptr => Ret ptr
  | _ => m <- load ;; Ret (globalTls m)
  end.

Definition getThreadData (threadHandle : Z) : prog Z :=
  pTls <- getTlsStructFromThread threadHandle ;;
  m <- load ;;
  call (pteTlsGetValue pTls (threadDataKey m)).

(** ** Initialization *)

Definition pte_osInit : prog pte_osResult :=
  result <- call (pteTlsGlobalInit PSP_MAX_TLS) ;;
  match result with
  | PTE_OS_OK =>
      r <- call pteTlsAlloc ;;
      match snd r with
      | Some key => modify (set_threadDataKey key)
      | None => Ret tt
      end ;;;
      match fst r with
      | PTE_OS_OK =>
          t <- call pteTlsThreadInit ;;
          modify (set_globalTls t) ;;;
          pThreadData <- malloc_pspThreadData ;;
          if pThreadData =? NULL then Ret PTE_OS_NO_RESOURCES
          else
            m <- load ;;
            call (pteTlsSetValue (globalTls m) (threadDataKey m) pThreadData) ;;;
            let cancelSemName := snprintf 64 "pthread_cancelSemGlobal" in
            sem <- call (sceKernelCreateSema cancelSemName 0 0 255 0) ;;
            store_field pThreadData (with_cancelSem sem) ;;;
            Ret PTE_OS_OK
      | result => Ret result
      end
  | result => Ret result
  end.

(** ** Threads *)

(** [threadNum++ > MAX_PSP_UID ? 0 : threadNum], for each of the three
    name counters. *)
Definition next_counter (old : Z) : Z :=
  if old >? MAX_PSP_UID then 0 else old + 1.

(** The second component is what the call stores in
    [*ppte_osThreadHandle], if anything. *)
Definition pte_osThreadCreate (entry stackSize initialPriority arg : Z)
  : prog (pte_osResult * option Z) :=
  m <- load ;;
  let num := next_counter (threadNum m) in
  modify (set_threadNum num) ;;;
  let stackSize :=
    if stackSize <? DEFAULT_STACK_SIZE_BYTES then DEFAULT_STACK_SIZE_BYTES
    else stackSize in
  pTls <- call pteTlsThreadInit ;;
  if pTls =? NULL then
    call (printf "pteTlsThreadInit: PTE_OS_NO_RESOURCES
") ;;;
    Ret (PTE_OS_NO_RESOURCES, None)
  else
    pThreadData <- malloc_pspThreadData ;;
    if pThreadData =? NULL then
      call (pteTlsThreadDestroy pTls) ;;;
      call (printf "malloc(pspThreadData): PTE_OS_NO_RESOURCES
") ;;;
      Ret (PTE_OS_NO_RESOURCES, None)
    else
      call (pteTlsSetValue pTls (threadDataKey m) pThreadData) ;;;
      store_field pThreadData (with_entryPoint entry) ;;;
      store_field pThreadData (with_argv arg) ;;;
      let cancelSemName := snprintf 64 ("pthread_cancelSem" ++ fmt_04d num) in
      sem <- call (sceKernelCreateSema cancelSemName 0 0 255 0) ;;
      store_field pThreadData (with_cancelSem sem) ;;;
      let threadName :=
        snprintf 64 ("pthread" ++ fmt_04d num ++ "__" ++ fmt_x pTls) in
      let pspAttr := 0 in
      threadId <- call (sceKernelCreateThread threadName pspStubThreadEntry
                          initialPriority stackSize pspAttr NULL) ;;
      if threadId =? to_int32 SCE_KERNEL_ERROR_NO_MEMORY then
        free_pspThreadData pThreadData ;;;
        call (pteTlsThreadDestroy pTls) ;;;
        call (printf "sceKernelCreateThread: PTE_OS_NO_RESOURCES
") ;;;
        Ret (PTE_OS_NO_RESOURCES, None)
      else if threadId <? 0 then
        free_pspThreadData pThreadData ;;;
        call (pteTlsThreadDestroy pTls) ;;;
        call (printf "sceKernelCreateThread: PTE_OS_GENERAL_FAILURE
") ;;;
        Ret (PTE_OS_GENERAL_FAILURE, None)
      else
        Ret (PTE_OS_OK, Some threadId).


Definition pte_osThreadDelete (handle : Z) : prog pte_osResult :=
  pTls <- getTlsStructFromThread handle ;;
  pThreadData <- getThreadData handle ;;
  sem <- load_cancelSem pThreadData ;;
  call (sceKernelDeleteSema sem) ;;;
  free_pspThreadData pThreadData ;;;
  call (pteTlsThreadDestroy pTls) ;;;
  call (sceKernelDeleteThread handle) ;;;
  Ret PTE_OS_OK.

(** The part of a polling iteration the two cancellable waits share: the
    probe of the caller's cancellation semaphore.  [None]: go round
    again. *)
Definition poll_cancel (pThreadData : Z) : prog (option pte_osResult) :=
  if pThreadData =? NULL then Ret None
  else
    sem <- load_cancelSem pThreadData ;;
    semInfo <- call (sceKernelReferSemaStatus sem) ;;
    let osResult := fst semInfo in
    let currentCount := snd semInfo in
    if osResult =? SCE_KERNEL_ERROR_OK then
      if currentCount >? 0 then Ret (Some PTE_OS_INTERRUPTED)
      else
        call (sceKernelDelayThread POLLING_DELAY_IN_us) ;;;
        Ret None
    else Ret (Some PTE_OS_GENERAL_FAILURE).

(** One round of the loop of [pte_osThreadWaitForEnd]. *)
Definition pte_osThreadWaitForEnd_iter (pThreadData threadHandle : Z)
  : prog (option pte_osResult) :=
  info <- call (sceKernelReferThreadRunStatus threadHandle) ;;
  if snd info =? PSP_THREAD_STOPPED then Ret (Some PTE_OS_OK)
  else poll_cancel pThreadData.

Definition pte_osThreadWaitForEnd (fuel : nat) (threadHandle : Z)
  : prog pte_osResult :=
  self <- call sceKernelGetThreadId ;;
  pThreadData <- getThreadData self ;;
  while1 fuel (pte_osThreadWaitForEnd_iter pThreadData threadHandle).

Definition pte_osThreadCancel (threadHandle : Z) : prog pte_osResult :=
  pThreadData <- getThreadData threadHandle ;;
  sem <- load_cancelSem pThreadData ;;
  osResult <- call (sceKernelSignalSema sem 1) ;;
  if osResult =? SCE_KERNEL_ERROR_OK then Ret PTE_OS_OK
  else Ret PTE_OS_GENERAL_FAILURE.

Definition pte_osThreadCheckCancel (threadHandle : Z) : prog pte_osResult :=
  pThreadData <- getThreadData threadHandle ;;
  if pThreadData =? NULL then Ret PTE_OS_GENERAL_FAILURE
  else
    sem <- load_cancelSem pThreadData ;;
    semInfo <- call (sceKernelReferSemaStatus sem) ;;
    if fst semInfo =? SCE_KERNEL_ERROR_OK then
      if snd semInfo >? 0 then Ret PTE_OS_INTERRUPTED
      else Ret PTE_OS_OK
    else Ret PTE_OS_GENERAL_FAILURE.

(** ** Mutexes *)

(** The second component is what the call stores in [*pHandle]. *)
Definition pte_osMutexCreate : prog (pte_osResult * Z) :=
  m <- load ;;
  let ctr := next_counter (mutexCtr m) in
  modify (set_mutexCtr ctr) ;;;
  let mutexName := snprintf 32 ("mutex" ++ fmt_d ctr) in
  handle <- call (sceKernelCreateSema mutexName 0 1 1 0) ;;
  Ret ((PTE_OS_OK, handle) : pte_osResult * Z).


Definition pte_osMutexLock (handle : Z) : prog pte_osResult :=
  call (sceKernelWaitSema handle 1 None) ;;;
  Ret PTE_OS_OK.

Definition pte_osMutexTimedLock (handle timeoutMsecs : Z) : prog pte_osResult :=
  let timeoutUsecs := to_uint32 (timeoutMsecs * 1000) in
  status <- call (sceKernelWaitSema handle 1 (Some timeoutUsecs)) ;;
  if status <? 0 then Ret PTE_OS_TIMEOUT
  else Ret PTE_OS_OK.

Definition pte_osMutexUnlock (handle : Z) : prog pte_osResult :=
  call (sceKernelSignalSema handle 1) ;;;
  Ret PTE_OS_OK.

(** ** Semaphores *)

Definition pte_osSemaphoreCreate (initialValue : Z) : prog (pte_osResult * Z) :=
  m <- load ;;
  let ctr := next_counter (semCtr m) in
  modify (set_semCtr ctr) ;;;
  let semName := snprintf 32 ("pthread_sem" ++ fmt_d ctr) in
  handle <- call (sceKernelCreateSema semName 0 initialValue SEM_VALUE_MAX 0) ;;
  Ret ((PTE_OS_OK, handle) : pte_osResult * Z).

Definition pte_osSemaphoreDelete (handle : Z) : prog pte_osResult :=
  call (sceKernelDeleteSema handle) ;;;
  Ret PTE_OS_OK.

Definition pte_osSemaphorePost (handle count : Z) : prog pte_osResult :=
  call (sceKernelSignalSema handle count) ;;;
  Ret PTE_OS_OK.

(** [pTimeoutMsecs] is [None] for a null pointer.  The kernel's answer is
    kept in a [SceUInt]. *)
Definition pte_osSemaphorePend (handle : Z) (pTimeoutMsecs : option Z)
  : prog pte_osResult :=
  let pTimeoutUsecs :=
    match pTimeoutMsecs with
    | None => None
    | Some ms => Some (to_uint32 (ms * 1000))
    end in
  status <- call (sceKernelWaitSema handle 1 pTimeoutUsecs) ;;
  let result := to_uint32 status in
  if result =? SCE_KERNEL_ERROR_OK then Ret PTE_OS_OK
  else if result =? SCE_KERNEL_ERROR_WAIT_TIMEOUT then Ret PTE_OS_TIMEOUT
  else Ret PTE_OS_GENERAL_FAILURE.

(** [(clock() - start_time) > timeout], on 32-bit unsigned operands. *)
Definition elapsed_exceeds (now start_time timeout : Z) : bool :=
  to_uint32 (now - start_time) >? timeout.

(** One round of the loop of [pte_osSemaphoreCancellablePend]. *)
Definition pte_osSemaphoreCancellablePend_iter
  (pThreadData semHandle start_time timeout : Z) (timeoutEnabled : bool)
  : prog (option pte_osResult) :=
  let semTimeout := 0 in
  status <- call (sceKernelWaitSema semHandle 1 (Some semTimeout)) ;;
  if status =? SCE_KERNEL_ERROR_OK then Ret (Some PTE_OS_OK)
  else
    expired <- (if timeoutEnabled
                then now <- call clock ;;
                     Ret (elapsed_exceeds now start_time timeout)
                else Ret false) ;;
    if (expired : bool) then Ret (Some PTE_OS_TIMEOUT)
    else poll_cancel pThreadData.

Definition pte_osSemaphoreCancellablePend (fuel : nat) (semHandle : Z)
  (pTimeout : option Z) : prog pte_osResult :=
  self <- call sceKernelGetThreadId ;;
  pThreadData <- getThreadData self ;;
  start_time <- call clock ;;
  let timeout :=
    match pTimeout with
    | None => 0
    | Some ms => to_uint32 (ms * 1000)
    end in
  let timeoutEnabled :=
    match pTimeout with
    | None => false
    | Some _ => true
    end in
  while1 fuel (pte_osSemaphoreCancellablePend_iter pThreadData semHandle
                 start_time timeout timeoutEnabled).

(** ** Atomic operations *)

Definition pte_osAtomicExchange (ptarg val : Z) : prog Z :=
  intc <- call pspSdkDisableInterrupts ;;
  origVal <- read_cell ptarg ;;
  write_cell ptarg val ;;;
  call (pspSdkEnableInterrupts intc) ;;;
  Ret origVal.

Definition pte_osAtomicCompareExchange (pdest exchange comp : Z) : prog Z :=
  intc <- call pspSdkDisableInterrupts ;;
  origVal <- read_cell pdest ;;
  cur <- read_cell pdest ;;
  (if cur =? comp then write_cell pdest exchange else Ret tt) ;;;
  call (pspSdkEnableInterrupts intc) ;;;
  Ret origVal.

Definition pte_osAtomicExchangeAdd (pAddend value : Z) : prog Z :=
  intc <- call pspSdkDisableInterrupts ;;
  origVal <- read_cell pAddend ;;
  cur <- read_cell pAddend ;;
  write_cell pAddend (to_int32 (cur + value)) ;;;
  call (pspSdkEnableInterrupts intc) ;;;
  Ret origVal.

Definition pte_osAtomicDecrement (pdest : Z) : prog Z :=
  intc <- call pspSdkDisableInterrupts ;;
  cur <- read_cell pdest ;;
  write_cell pdest (to_int32 (cur - 1)) ;;;
  val <- read_cell pdest ;;
  call (pspSdkEnableInterrupts intc) ;;;
  Ret val.

Definition pte_osAtomicIncrement (pdest : Z) : prog Z :=
  intc <- call pspSdkDisableInterrupts ;;
  cur <- read_cell pdest ;;
  write_cell pdest (to_int32 (cur + 1)) ;;;
  val <- read_cell pdest ;;
  call (pspSdkEnableInterrupts intc) ;;;
  Ret val.

(** ** Thread-local storage *)

Definition pte_osTlsSetValue (key value : Z) : prog pte_osResult :=
  self <- call sceKernelGetThreadId ;;
  pTls <- getTlsStructFromThread self ;;
  call (pteTlsSetValue pTls key value).

Definition pte_osTlsGetValue (index : Z) : prog Z :=
  self <- call sceKernelGetThreadId ;;
  pTls <- getTlsStructFromThread self ;;
  call (pteTlsGetValue pTls index).

(** ** A reference kernel

    A small single-core model of what the calls above answer, used to run
    the primitives on concrete inputs.  Other threads act through a
    [script] of timed events, applied when the caller lets time pass (a
    delay or a blocking wait); a spinning caller is never preempted. *)
Module Psp.

Record sema : Type := mkSema { count : Z; maxCount : Z }.

Record thread : Type := mkThread { name : string; status : Z }.

Inductive env_event : Type :=
| EnvSignal (semaid signal : Z)
| EnvStop (thid : Z).

Record world : Type := mkWorld {
  semas : gmap Z sema;
  threads : gmap Z thread;
  current : Z;
  now : Z;
  interrupts : Z;
  blocks : gset Z;
  tables : gmap Z (gmap Z Z);
  keys : gset Z;
  maxKeys : Z;
  next_uid : Z;
  next_addr : Z;
  kernel_free : nat;
  heap_free : Z;
  script : list (Z * env_event);
  stdout : list string
}.

Definition set_semas (f : gmap Z sema -> gmap Z sema) (w : world) : world :=
  mkWorld (f (semas w)) (threads w) (current w) (now w) (interrupts w)
    (blocks w) (tables w) (keys w) (maxKeys w) (next_uid w) (next_addr w)
    (kernel_free w) (heap_free w) (script w) (stdout w).
Definition set_threads (f : gmap Z thread -> gmap Z thread) (w : world) : world :=
  mkWorld (semas w) (f (threads w)) (current w) (now w) (interrupts w)
    (blocks w) (tables w) (keys w) (maxKeys w) (next_uid w) (next_addr w)
    (kernel_free w) (heap_free w) (script w) (stdout w).
Definition set_now (t : Z) (w : world) : world :=
  mkWorld (semas w) (threads w) (current w) t (interrupts w)
    (blocks w) (tables w) (keys w) (maxKeys w) (next_uid w) (next_addr w)
    (kernel_free w) (heap_free w) (script w) (stdout w).
Definition set_interrupts (v : Z) (w : world) : world :=
  mkWorld (semas w) (threads w) (current w) (now w) v
    (blocks w) (tables w) (keys w) (maxKeys w) (next_uid w) (next_addr w)
    (kernel_free w) (heap_free w) (script w) (stdout w).
Definition set_blocks (f : gset Z -> gset Z) (w : world) : world :=
  mkWorld (semas w) (threads w) (current w) (now w) (interrupts w)
    (f (blocks w)) (tables w) (keys w) (maxKeys w) (next_uid w) (next_addr w)
    (kernel_free w) (heap_free w) (script w) (stdout w).
Definition set_tables (f : gmap Z (gmap Z Z) -> gmap Z (gmap Z Z)) (w : world) : world :=
  mkWorld (semas w) (threads w) (current w) (now w) (interrupts w)
    (blocks w) (f (tables w)) (keys w) (maxKeys w) (next_uid w) (next_addr w)
    (kernel_free w) (heap_free w) (script w) (stdout w).
Definition set_keys (ks : gset Z) (n : Z) (w : world) : world :=
  mkWorld (semas w) (threads w) (current w) (now w) (interrupts w)
    (blocks w) (tables w) ks n (next_uid w) (next_addr w)
    (kernel_free w) (heap_free w) (script w) (stdout w).
Definition take_uid (w : world) : world :=
  mkWorld (semas w) (threads w) (current w) (now w) (interrupts w)
    (blocks w) (tables w) (keys w) (maxKeys w) (next_uid w + 1) (next_addr w)
    (Nat.pred (kernel_free w)) (heap_free w) (script w) (stdout w).
Definition take_addr (size : Z) (w : world) : world :=
  mkWorld (semas w) (threads w) (current w) (now w) (interrupts w)
    (blocks w) (tables w) (keys w) (maxKeys w) (next_uid w) (next_addr w + size)
    (kernel_free w) (heap_free w - size) (script w) (stdout w).
Definition set_script (l : list (Z * env_event)) (w : world) : world :=
  mkWorld (semas w) (threads w) (current w) (now w) (interrupts w)
    (blocks w) (tables w) (keys w) (maxKeys w) (next_uid w) (next_addr w)
    (kernel_free w) (heap_free w) l (stdout w).
Definition put_stdout (s : string) (w : world) : world :=
  mkWorld (semas w) (threads w) (current w) (now w) (interrupts w)
    (blocks w) (tables w) (keys w) (maxKeys w) (next_uid w) (next_addr w)
    (kernel_free w) (heap_free w) (script w) (stdout w ++ [s]).

(** What another thread does to the kernel objects. *)
Definition apply_env (e : env_event) (w : world) : world :=
  match e with
  | EnvSignal id n =>
      match semas w !! id with
      | Some sm =>
          if count sm + n <=? maxCount sm
          then set_semas (insert id (mkSema (count sm + n) (maxCount sm))) w
          else w
      | None => w
      end
  | EnvStop id =>
      match threads w !! id with
      | Some th => set_threads (insert id (mkThread (name th) PSP_THREAD_STOPPED)) w
      | None => w
      end
  end.

(** The events of the script that are due at time [t], applied in order;
    the others stay. *)
Fixpoint play (t : Z) (l : list (Z * env_event)) (w : world) : world :=
  match l with
  | [] => set_script [] w
  | (at_, e) :: rest =>
      if at_ <=? t then play t rest (apply_env e w)
      else
        let w' := play t rest w in
        set_script ((at_, e) :: script w') w'
  end.

(** The caller lets [dt] microseconds pass. *)
Definition advance (dt : Z) (w : world) : world :=
  let t := now w + dt in
  play t (script w) (set_now t w).

Definition acquire (id need : Z) (w : world) : option world :=
  match semas w !! id with
  | Some sm =>
      if need <=? count sm
      then Some (set_semas (insert id (mkSema (count sm - need) (maxCount sm))) w)
      else None
  | None => None
  end.

(** The smallest key of [0 .. n-1] that is not in [ks]. *)
Fixpoint first_free (n : nat) (k : Z) (ks : gset Z) : option Z :=
  match n with
  | O => None
  | S n' => if decide (k ∈ ks) then first_free n' (k + 1) ks else Some k
  end.

(** *** The C library's [sscanf], for the one format the file uses *)

Definition is_space (c : ascii) : bool :=
  let n := nat_of_ascii c in
  ((n =? 32) || ((9 <=? n) && (n <=? 13)))%nat.

Fixpoint skip_spaces (s : string) : string :=
  match s with
  | String c rest => if is_space c then skip_spaces rest else s
  | EmptyString => s
  end.

Definition digit_val (base : Z) (c : ascii) : option Z :=
  let n := Z.of_nat (nat_of_ascii c) in
  let v := if (48 <=? n) && (n <=? 57) then n - 48
           else if (97 <=? n) && (n <=? 102) then n - 87
           else if (65 <=? n) && (n <=? 70) then n - 55
           else 16 in
  if v <? base then Some v else None.

(** At most [width] digits of [s]: their value after [acc], how many
    there were, and the rest of the input. *)
Fixpoint scan_digits (base : Z) (width : nat) (s : string) (acc : Z) (seen : nat)
  : Z * nat * string :=
  match width, s with
  | S w, String c rest =>
      match digit_val base c with
      | Some v => scan_digits base w rest (acc * base + v) (S seen)
      | None => (acc, seen, s)
      end
  | _, _ => (acc, seen, s)
  end.

Inductive item : Type :=
| ItemEOF
| ItemFail
| Item (v : Z) (rest : string).

Definition is_x (c : ascii) : bool :=
  (Ascii.eqb c "x" || Ascii.eqb c "X")%char.

(** A [0x] in front of a hex digit is skipped, within the width. *)
Definition skip_prefix (base : Z) (width : nat) (s : string) : nat * string :=
  match width, s with
  | S (S (S w)), String "0"%char (String x (String d rest)) =>
      if (base =? 16) && is_x x && bool_decide (is_Some (digit_val 16 d))
      then (S w, String d rest)
      else (width, s)
  | _, _ => (width, s)
  end.

(** One integer conversion: white space, a sign, digits. *)
Definition scan_int (base : Z) (width : nat) (s : string) : item :=
  match skip_spaces s with
  | EmptyString => ItemEOF
  | String c rest as s1 =>
      let '(neg, width1, s2) :=
        if Ascii.eqb c "-" then (true, Nat.pred width, rest)
        else if Ascii.eqb c "+" then (false, Nat.pred width, rest)
        else (false, width, s1) in
      let '(width2, s3) := skip_prefix base width1 s2 in
      let '(v, seen, s4) := scan_digits base width2 s3 0 0 in
      match seen with
      | O => ItemFail
      | _ => Item (if (neg : bool) then - v else v) s4
      end
  end.

Inductive literal : Type :=
| LitEOF
| LitFail
| LitOk (rest : string).

Fixpoint scan_literal (lit s : string) : literal :=
  match lit, s with
  | EmptyString, _ => LitOk s
  | String _ _, EmptyString => LitEOF
  | String a lit', String b s' =>
      if Ascii.eqb a b then scan_literal lit' s' else LitFail
  end.

(** [sscanf(s, "pthread%04d__%x", &thrNum, &ptr)]; both variables are
    [unsigned int]. *)
Definition scan_pthread (s : string) : scan_result :=
  match scan_literal "pthread" s with
  | LitEOF => ScanEOF
  | LitFail => Scan0
  | LitOk s1 =>
      match scan_int 10 4 s1 with
      | ItemEOF => ScanEOF
      | ItemFail => Scan0
      | Item thrNum s2 =>
          match scan_literal "__" s2 with
          | LitOk s3 =>
              match scan_int 16 (String.length s3) s3 with
              | Item ptr _ =>
                  Scan2 (to_uint32 thrNum)
                    (if 2 ^ 32 <=? Z.abs ptr then 2 ^ 32 - 1 else to_uint32 ptr)
              | _ => Scan1 (to_uint32 thrNum)
              end
          | _ => Scan1 (to_uint32 thrNum)
          end
      end
  end.

(** *** The answers *)

Definition error (code : Z) : Z := to_int32 code.

(** Twelve bytes for a control block, a pointer for each TLS slot. *)
Definition sizeof_pspThreadData : Z := 12.
Definition sizeof_table (w : world) : Z := 4 * maxKeys w.

(** Modelled from the spec: the TLS helper of the library
    ([pteTlsGlobalInit], [pteTlsAlloc], [pteTlsThreadInit],
    [pteTlsThreadDestroy], [pteTlsSetValue], [pteTlsGetValue]), whose
    source is not among the files.  A pool of slot keys shared by all
    tables; a table per thread, allocated with all slots empty; reading a
    slot that was never set gives the empty value, not an error. *)
Definition tls_global_init (maxEntries : Z) (w : world) : pte_osResult * world :=
  (PTE_OS_OK, set_keys ∅ maxEntries w).

Definition tls_alloc (w : world) : pte_osResult * option Z * world :=
  match first_free (Z.to_nat (maxKeys w)) 0 (keys w) with
  | Some k => ((PTE_OS_OK, Some k), set_keys ({[k]} ∪ keys w) (maxKeys w) w)
  | None => ((PTE_OS_NO_RESOURCES, None), w)
  end.

Definition tls_thread_init (w : world) : Z * world :=
  if heap_free w <? sizeof_table w then (NULL, w)
  else (next_addr w,
        take_addr (sizeof_table w) (set_tables (insert (next_addr w) ∅) w)).

Definition tls_thread_destroy (p : Z) (w : world) : unit * world :=
  (tt, set_tables (delete p) w).

Definition tls_set_value (p key v : Z) (w : world) : pte_osResult * world :=
  match tables w !! p with
  | Some t => (PTE_OS_OK, set_tables (insert p (<[key := v]> t)) w)
  | None => (PTE_OS_GENERAL_FAILURE, w)
  end.

Definition tls_get_value (p key : Z) (w : world) : Z * world :=
  (match tables w !! p with
   | Some t => default NULL (t !! key)
   | None => NULL
   end, w).

Definition kernel : handler world := fun c w =>
  match c return kresp c * world with
  | sceKernelGetThreadId => (current w, w)
  | sceKernelCreateSema _ _ initVal maxVal _ =>
      match kernel_free w with
      | O => (error SCE_KERNEL_ERROR_NO_MEMORY, w)
      | S _ =>
          let id := next_uid w in
          (id, take_uid (set_semas (insert id (mkSema initVal maxVal)) w))
      end
  | sceKernelDeleteSema id =>
      match semas w !! id with
      | Some _ => (SCE_KERNEL_ERROR_OK, set_semas (delete id) w)
      | None => (error SCE_KERNEL_ERROR_UNKNOWN_SEMID, w)
      end
  | sceKernelSignalSema id n =>
      match semas w !! id with
      | Some sm =>
          if count sm + n <=? maxCount sm
          then (SCE_KERNEL_ERROR_OK,
                set_semas (insert id (mkSema (count sm + n) (maxCount sm))) w)
          else (error SCE_KERNEL_ERROR_SEMA_OVF, w)
      | None => (error SCE_KERNEL_ERROR_UNKNOWN_SEMID, w)
      end
  | sceKernelWaitSema id need timeout =>
      match semas w !! id with
      | None => (error SCE_KERNEL_ERROR_UNKNOWN_SEMID, w)
      | Some _ =>
          match acquire id need w with
          | Some w' => (SCE_KERNEL_ERROR_OK, w')
          | None =>
              let w1 := match timeout with
                        | Some t => advance t w
                        | None => play (now w) (map (fun e => (now w, snd e)) (script w)) w
                        end in
              match acquire id need w1 with
              | Some w' => (SCE_KERNEL_ERROR_OK, w')
              | None => (error SCE_KERNEL_ERROR_WAIT_TIMEOUT, w1)
              end
          end
      end
  | sceKernelReferSemaStatus id =>
      match semas w !! id with
      | Some sm => ((SCE_KERNEL_ERROR_OK, count sm), w)
      | None => ((error SCE_KERNEL_ERROR_UNKNOWN_SEMID, 0), w)
      end
  | sceKernelCreateThread nm _ prio _ _ _ =>
      if (prio <? 1) || (126 <? prio)
      then (error SCE_KERNEL_ERROR_ILLEGAL_PRIORITY, w)
      else
        match kernel_free w with
        | O => (error SCE_KERNEL_ERROR_NO_MEMORY, w)
        | S _ =>
            let id := next_uid w in
            (id, take_uid (set_threads (insert id (mkThread nm PSP_THREAD_STOPPED)) w))
        end
  | sceKernelStartThread id _ _ =>
      match threads w !! id with
      | Some th =>
          (SCE_KERNEL_ERROR_OK,
           set_threads (insert id (mkThread (name th) PSP_THREAD_READY)) w)
      | None => (error SCE_KERNEL_ERROR_UNKNOWN_THID, w)
      end
  | sceKernelDeleteThread id =>
      match threads w !! id with
      | Some _ => (SCE_KERNEL_ERROR_OK, set_threads (delete id) w)
      | None => (error SCE_KERNEL_ERROR_UNKNOWN_THID, w)
      end
  | sceKernelReferThreadStatus id =>
      match threads w !! id with
      | Some th => ((SCE_KERNEL_ERROR_OK, name th), w)
      | None => ((error SCE_KERNEL_ERROR_UNKNOWN_THID, EmptyString), w)
      end
  | sceKernelReferThreadRunStatus id =>
      match threads w !! id with
      | Some th => ((SCE_KERNEL_ERROR_OK, status th), w)
      | None => ((error SCE_KERNEL_ERROR_UNKNOWN_THID, 0), w)
      end
  | sceKernelDelayThread dt => (SCE_KERNEL_ERROR_OK, advance dt w)
  | pspSdkDisableInterrupts => (interrupts w, set_interrupts 0 w)
  | pspSdkEnableInterrupts flags => (tt, set_interrupts flags w)
  | clock => (now w, w)
  | printf s => (Z.of_nat (String.length s), put_stdout s w)
  | sscanf s format =>
      (if String.eqb format "pthread%04d__%x" then scan_pthread s else ScanEOF, w)
  | malloc =>
      if heap_free w <? sizeof_pspThreadData then (NULL, w)
      else (next_addr w,
            take_addr sizeof_pspThreadData (set_blocks (union {[next_addr w]}) w))
  | free p => (tt, set_blocks (fun b => b ∖ {[p]}) w)
  | pteTlsGlobalInit n => tls_global_init n w
  | pteTlsAlloc => tls_alloc w
  | pteTlsThreadInit => tls_thread_init w
  | pteTlsThreadDestroy p => tls_thread_destroy p w
  | pteTlsSetValue p key v => tls_set_value p key v w
  | pteTlsGetValue p key => tls_get_value p key w
  end.

(** A PSP with room for [k] kernel objects and [n] bytes of heap, one
    thread (the caller, not made by this library), nothing else. *)
Definition boot (k : nat) (n : Z) : world :=
  mkWorld ∅ {[ 1 := mkThread "user_main" PSP_THREAD_READY ]} 1 0 1 ∅ ∅ ∅ 0
    2 0x08900000 k n [] [].

End Psp.

(** ** Reading a trace *)

(** The answers, in order, that the calls selected by [pick] received. *)
Definition answers {A : Type} (pick : forall c : kcall, kresp c -> option A)
  (t : list event) : list A :=
  omap (fun e => pick (ev_call e) (ev_resp e)) t.

Definition on_sceKernelCreateThread (c : kcall) : kresp c -> option Z :=
  match c return kresp c -> option Z with
  | sceKernelCreateThread _ _ _ _ _ _ => Some
  | _ => fun _ => None
  end.

Definition on_sceKernelCreateSema (c : kcall) : kresp c -> option Z :=
  match c return kresp c -> option Z with
  | sceKernelCreateSema _ _ _ _ _ => Some
  | _ => fun _ => None
  end.

Definition on_sceKernelWaitSema (c : kcall) : kresp c -> option Z :=
  match c return kresp c -> option Z with
  | sceKernelWaitSema _ _ _ => Some
  | _ => fun _ => None
  end.


Definition on_sceKernelReferSemaStatus (c : kcall) : kresp c -> option (Z * Z) :=
  match c return kresp c -> option (Z * Z) with
  | sceKernelReferSemaStatus _ => Some
  | _ => fun _ => None
  end.

Definition on_sceKernelReferThreadRunStatus (c : kcall) : kresp c -> option (Z * Z) :=
  match c return kresp c -> option (Z * Z) with
  | sceKernelReferThreadRunStatus _ => Some
  | _ => fun _ => None
  end.

Definition on_sscanf (c : kcall) : kresp c -> option scan_result :=
  match c return kresp c -> option scan_result with
  | sscanf _ _ => Some
  | _ => fun _ => None
  end.

Definition on_clock (c : kcall) : kresp c -> option Z :=
  match c return kresp c -> option Z with
  | clock => Some
  | _ => fun _ => None
  end.

Definition on_malloc (c : kcall) : kresp c -> option Z :=
  match c return kresp c -> option Z with
  | malloc => Some
  | _ => fun _ => None
  end.

Definition on_pteTlsThreadInit (c : kcall) : kresp c -> option Z :=
  match c return kresp c -> option Z with
  | pteTlsThreadInit => Some
  | _ => fun _ => None
  end.

Definition on_pteTlsGetValue (c : kcall) : kresp c -> option Z :=
  match c return kresp c -> option Z with
  | pteTlsGetValue _ _ => Some
  | _ => fun _ => None
  end.

Definition on_pteTlsGlobalInit (c : kcall) : kresp c -> option pte_osResult :=
  match c return kresp c -> option pte_osResult with
  | pteTlsGlobalInit _ => Some
  | _ => fun _ => None
  end.

Definition on_pteTlsAlloc (c : kcall) : kresp c -> option pte_osResult :=
  match c return kresp c -> option pte_osResult with
  | pteTlsAlloc => fun x => Some (fst x)
  | _ => fun _ => None
  end.

Definition on_pspSdkDisableInterrupts (c : kcall) : kresp c -> option Z :=
  match c return kresp c -> option Z with
  | pspSdkDisableInterrupts => Some
  | _ => fun _ => None
  end.

Definition is_sceKernelSignalSema (c : kcall) : bool :=
  match c with sceKernelSignalSema _ _ => true | _ => false end.
Definition is_sceKernelReferSemaStatus (c : kcall) : bool :=
  match c with sceKernelReferSemaStatus _ => true | _ => false end.
Definition is_sceKernelDelayThread (c : kcall) : bool :=
  match c with sceKernelDelayThread _ => true | _ => false end.
(** The PSP convention for a kernel answer: negative values are errors. *)
Definition kernel_failed (status : Z) : bool := status <? 0.

Arguments fmt_04d : simpl never.
Arguments fmt_d : simpl never.
Arguments fmt_x : simpl never.
Arguments snprintf : simpl never.
Arguments to_int32 : simpl never.
Arguments to_uint32 : simpl never.
Arguments next_counter : simpl never.

(** The trace a kernel produces when it is asked the calls [cs] in turn,
    and the state it ends in. *)
Fixpoint replay {S : Type} (h : handler S) (cs : list kcall) (s : S) : list event :=
  match cs with
  | [] => []
  | c :: rest => Ev c (fst (h c s)) :: replay h rest (snd (h c s))
  end.

Fixpoint after {S : Type} (h : handler S) (cs : list kcall) (s : S) : S :=
  match cs with
  | [] => s
  | c :: rest => after h rest (snd (h c s))
  end.


(** The table [getTlsStructFromThread] settles on, by the result of the
    scan of the thread's name. *)
Definition table_of (scanned : scan_result) (m : memory) : Z :=
  match scanned with
  | Scan2 _ ptr => ptr
  | _ => globalTls m
  end.

(** The calls of [getThreadData]. *)
Definition lookup_calls (thid : Z) (name : string) (scanned : scan_result)
  (m : memory) : list kcall :=
  [ sceKernelReferThreadStatus thid;
    sscanf name "pthread%04d__%x";
    pteTlsGetValue (table_of scanned m) (threadDataKey m) ].

(** [p->cancelSem] as a value: [None] where the C expression is
    undefined. *)
Definition cancelSem_at (m : memory) (p : Z) : option Z :=
  match heap m !! p with
  | Some d => cancelSem d
  | None => None
  end.

(** The status the code derives from a query of the cancellation
    semaphore. *)
Definition cancel_status (semInfo : Z * Z) : pte_osResult :=
  if fst semInfo =? SCE_KERNEL_ERROR_OK then
    if snd semInfo >? 0 then PTE_OS_INTERRUPTED else PTE_OS_OK
  else PTE_OS_GENERAL_FAILURE.

(** The calls a cancellable wait on [semHandle] and a cancellation check
    are made of: queries, the clock, the delay, and the zero-timeout wait
    on the target semaphore. *)
Definition polls (semHandle : Z) (c : kcall) : bool :=
  match c with
  | sceKernelGetThreadId | sceKernelReferThreadStatus _ | sscanf _ _
  | pteTlsGetValue _ _ | clock | sceKernelReferSemaStatus _
  | sceKernelReferThreadRunStatus _ | sceKernelDelayThread _ => true
  | sceKernelWaitSema id _ (Some _) => id =? semHandle
  | _ => false
  end.

(** The calls that take from the semaphore [sem], or destroy it. *)
Definition consumes (sem : Z) (c : kcall) : bool :=
  match c with
  | sceKernelWaitSema id _ _ | sceKernelDeleteSema id => id =? sem
  | _ => false
  end.

(** One round of [pte_osSemaphoreCancellablePend] as a decision on the
    answers it gets, for a caller whose control block holds [sem]: the
    status to break with, if any, and the calls made. *)
Definition pend_round (semHandle start_time timeout : Z) (timeoutEnabled : bool)
  (sem status now : Z) (semInfo : Z * Z) : option pte_osResult * list kcall :=
  let probe := [sceKernelWaitSema semHandle 1 (Some 0)] in
  let timing := if timeoutEnabled then [clock] else [] in
  let query := [sceKernelReferSemaStatus sem] in
  if status =? SCE_KERNEL_ERROR_OK then (Some PTE_OS_OK, probe)
  else if timeoutEnabled && elapsed_exceeds now start_time timeout then
    (Some PTE_OS_TIMEOUT, probe ++ timing)
  else if fst semInfo =? SCE_KERNEL_ERROR_OK then
    if snd semInfo >? 0 then (Some PTE_OS_INTERRUPTED, probe ++ timing ++ query)
    else (None, probe ++ timing ++ query ++ [sceKernelDelayThread POLLING_DELAY_IN_us])
  else (Some PTE_OS_GENERAL_FAILURE, probe ++ timing ++ query).

(** The same round as C1 words it, with no way out on a failed query:
    acquired, timed out, interrupted on a positive count, or else asleep
    for the polling delay. *)
Definition pend_round_as_claimed (semHandle start_time timeout : Z)
  (timeoutEnabled : bool) (sem status now : Z) (count_positive : bool)
  : option pte_osResult * list kcall :=
  let probe := [sceKernelWaitSema semHandle 1 (Some 0)] in
  let timing := if timeoutEnabled then [clock] else [] in
  let query := [sceKernelReferSemaStatus sem] in
  if status =? SCE_KERNEL_ERROR_OK then (Some PTE_OS_OK, probe)
  else if timeoutEnabled && elapsed_exceeds now start_time timeout then
    (Some PTE_OS_TIMEOUT, probe ++ timing)
  else if count_positive then (Some PTE_OS_INTERRUPTED, probe ++ timing ++ query)
  else (None, probe ++ timing ++ query ++ [sceKernelDelayThread POLLING_DELAY_IN_us]).

(** An answer of [sceKernelReferThreadRunStatus] that reports a thread
    still running. *)
Definition not_stopped (info : Z * Z) : Prop := snd info <> PSP_THREAD_STOPPED.

(** On the reference kernel: a cancellation is pending on [sem], no other
    thread is scheduled to act, and threads and TLS tables are those of
    [w0]. *)
Definition psp_cancel_pending (w0 : Psp.world) (sem : Z) (w : Psp.world) : Prop :=
  Psp.script w = [] /\
  (exists cnt mx, Psp.semas w !! sem = Some (Psp.mkSema cnt mx) /\ 0 < cnt) /\
  Psp.threads w = Psp.threads w0 /\
  Psp.tables w = Psp.tables w0 /\
  Psp.current w = Psp.current w0.

(** The status of a [pte_osSemaphoreCancellablePend] that finds a
    cancellation pending, by the answer of its first probe and the two
    readings of the clock. *)
Definition pend_status_when_cancelled (pTimeout : option Z)
  (status start_time now : Z) : pte_osResult :=
  if status =? SCE_KERNEL_ERROR_OK then PTE_OS_OK
  else match pTimeout with
       | Some ms =>
           if elapsed_exceeds now start_time (to_uint32 (ms * 1000))
           then PTE_OS_TIMEOUT else PTE_OS_INTERRUPTED
       | None => PTE_OS_INTERRUPTED
       end.

(** The name [pte_osThreadCreate] gives the thread number [num] with the
    TLS table at [pTls]. *)
Definition thread_name (num pTls : Z) : string :=
  snprintf 64 ("pthread" ++ fmt_04d num ++ "__" ++ fmt_x pTls).

(** A character that is neither white space, nor a sign, nor the [x] of
    a hexadecimal prefix. *)
Definition plain_char (c : ascii) : Prop :=
  Psp.is_space c = false /\ Psp.is_x c = false /\
  Ascii.eqb c "-" = false /\ Ascii.eqb c "+" = false.

Fixpoint string_forall (P : ascii -> Prop) (s : string) : Prop :=
  match s with
  | EmptyString => True
  | String c rest => P c /\ string_forall P rest
  end.

(** [fmt_04d] on the thread numbers, digit by digit. *)
Definition four_digits (n : Z) : string :=
  String (digit_char (n / 1000))
    (String (digit_char (n / 100 mod 10))
       (String (digit_char (n / 10 mod 10))
          (String (digit_char (n mod 10)) EmptyString))).

(** The calls of a [pte_osThreadCreate] that gets as far as asking the
    kernel for a thread. *)
Definition create_calls (pTls key pThreadData num prio stackSize : Z) : list kcall :=
  [ pteTlsThreadInit;
    malloc;
    pteTlsSetValue pTls key pThreadData;
    sceKernelCreateSema (snprintf 64 ("pthread_cancelSem" ++ fmt_04d num)) 0 0 255 0;
    sceKernelCreateThread (thread_name num pTls) pspStubThreadEntry prio
      (if stackSize <? DEFAULT_STACK_SIZE_BYTES then DEFAULT_STACK_SIZE_BYTES
       else stackSize)
      0 NULL ].

(** What [pte_osThreadCreate] does once the kernel has refused the
    thread: release the control block, release the table, print. *)
Definition cleanup_calls (pTls pThreadData : Z) (msg : string) : list kcall :=
  [ free pThreadData; pteTlsThreadDestroy pTls; printf msg ].

(** A call that is neither a query of a semaphore's status nor a delay. *)
Definition no_poll (c : kcall) : bool :=
  negb (is_sceKernelReferSemaStatus c) && negb (is_sceKernelDelayThread c).

(** ** More of the file: sleeping, and vocabulary for what follows *)

(** [msecs] is an [unsigned int]; so is the product. *)
Definition pte_osThreadSleep (msecs : Z) : prog unit :=
  call (sceKernelDelayThread (to_uint32 (msecs * 1000))) ;;;
  Ret tt.

(** The values of an [int]. *)
Definition int32 (z : Z) : Prop := - 2 ^ 31 <= z < 2 ^ 31.

(** The three name counters are within what [next_counter] produces. *)
Definition counters_in_range (m : memory) : Prop :=
  0 <= threadNum m <= MAX_PSP_UID + 1 /\
  0 <= mutexCtr m <= MAX_PSP_UID + 1 /\
  0 <= semCtr m <= MAX_PSP_UID + 1.

(** The names the three creation functions print for a counter value. *)
Definition mutex_name (ctr : Z) : string := snprintf 32 ("mutex" ++ fmt_d ctr).
Definition semaphore_name (ctr : Z) : string :=
  snprintf 32 ("pthread_sem" ++ fmt_d ctr).
Definition cancelSem_name (num : Z) : string :=
  snprintf 64 ("pthread_cancelSem" ++ fmt_04d num).

(** One unsuccessful round of [pte_osThreadWaitForEnd] for a caller whose
    control block holds [sem]. *)
Definition wait_round (threadHandle sem : Z) : list kcall :=
  [ sceKernelReferThreadRunStatus threadHandle;
    sceKernelReferSemaStatus sem;
    sceKernelDelayThread POLLING_DELAY_IN_us ].

(** The calls of [pte_osThreadDelete], for a thread whose name was handed
    out as [name1] and then [name2], scanned as [scanned1] and
    [scanned2], and whose control block [p] holds [sem]. *)
Definition delete_calls (handle : Z) (name1 : string) (scanned1 : scan_result)
  (name2 : string) (scanned2 : scan_result) (m : memory) (p sem : Z) : list kcall :=
  [ sceKernelReferThreadStatus handle; sscanf name1 "pthread%04d__%x" ]
  ++ lookup_calls handle name2 scanned2 m
  ++ [ sceKernelDeleteSema sem;
       free p;
       pteTlsThreadDestroy (table_of scanned1 m);
       sceKernelDeleteThread handle ].

(** The calls of [pte_osInit], by how far it gets. *)
Definition init_calls (stage : nat) (table key p : Z) : list kcall :=
  firstn stage
    [ pteTlsGlobalInit PSP_MAX_TLS;
      pteTlsAlloc;
      pteTlsThreadInit;
      malloc;
      pteTlsSetValue table key p;
      sceKernelCreateSema (snprintf 64 "pthread_cancelSemGlobal") 0 0 255 0 ].

(** On the reference kernel: the thread [thid] is known to the library,
    that is, the table its name resolves to holds, under
    [threadDataKey], a live control block [p] whose cancellation
    semaphore is [sem]. *)
Definition psp_registered (w : Psp.world) (m : memory) (thid p sem : Z) : Prop :=
  exists th t,
    Psp.threads w !! thid = Some th /\
    Psp.tables w !! table_of (Psp.scan_pthread (Psp.name th)) m = Some t /\
    t !! threadDataKey m = Some p /\
    p <> NULL /\
    cancelSem_at m p = Some sem.

(** On the reference kernel: the identifiers and the addresses that a
    [pte_osThreadCreate] will be handed out are not in use. *)
Definition psp_fresh (w : Psp.world) (m : memory) : Prop :=
  Psp.semas w !! Psp.next_uid w = None /\
  Psp.threads w !! (Psp.next_uid w + 1) = None /\
  Psp.tables w !! Psp.next_addr w = None /\
  ((Psp.next_addr w + Psp.sizeof_table w) ∉ Psp.blocks w) /\
  heap m !! (Psp.next_addr w + Psp.sizeof_table w) = None.


(** [pKey] receives the key, if the helper hands one out; the table
    looked up first is not used. *)
Definition pte_osTlsAlloc : prog (pte_osResult * option Z) :=
  self <- call sceKernelGetThreadId ;;
  pTls <- getTlsStructFromThread self ;;
  call pteTlsAlloc.

(** An answer of [sceKernelReferSemaStatus] that shows no cancellation:
    the query succeeded and the count is not positive. *)
Definition no_cancel (semInfo : Z * Z) : Prop :=
  cancel_status semInfo = PTE_OS_OK.

(** ** Running programs: general facts *)

Section Run.
Context {S : Type} (h : handler S).

Lemma run_bind {A B : Type} (p : prog A) (f : A -> prog B) m s :
  run h (bind p f) m s =
  let r := run h p m s in
  match outcome_of r with
  | Returned a =>
      let r' := run h (f a) (memory_of r) (kernel_of r) in
      Result (outcome_of r') (memory_of r') (kernel_of r')
        (trace_of r ++ trace_of r')
  | Undef => Result Undef (memory_of r) (kernel_of r) (trace_of r)
  | Spin => Result Spin (memory_of r) (kernel_of r) (trace_of r)
  end.
Proof.
  revert m s. induction p as [a|c k IH|k IH|g k IH| |]; intros m s; simpl.
  - destruct (run h (f a) m s); reflexivity.
  - rewrite IH. simpl.
    destruct (outcome_of (run h (k (fst (h c s))) m (snd (h c s))));
      reflexivity.
  - apply IH.
  - apply IH.
  - reflexivity.
  - reflexivity.
Qed.

End Run.

(** ** Mutex timed lock *)

(** C5: [pte_osMutexTimedLock] makes one timed kernel wait and reports
    [PTE_OS_TIMEOUT] for every failing answer of it, whatever the error
    code, and [PTE_OS_OK] for every other answer; no other status is ever
    returned. *)
Theorem pte_osMutexTimedLock_timeout_or_ok :
  forall (S : Type) (h : handler S) (s : S) (m : memory) (handle timeoutMsecs : Z),
    let wait := sceKernelWaitSema handle 1 (Some (to_uint32 (timeoutMsecs * 1000))) in
    let status : Z := fst (h wait s) in
    let r := run h (pte_osMutexTimedLock handle timeoutMsecs) m s in
    calls (trace_of r) = [wait] /\
    answers on_sceKernelWaitSema (trace_of r) = [status] /\
    outcome_of r =
      Returned (if kernel_failed status then PTE_OS_TIMEOUT else PTE_OS_OK) /\
    (outcome_of r = Returned PTE_OS_TIMEOUT <-> kernel_failed status = true) /\
    (outcome_of r = Returned PTE_OS_OK <-> kernel_failed status = false) /\
    outcome_of r <> Returned PTE_OS_GENERAL_FAILURE /\
    outcome_of r <> Returned PTE_OS_NO_RESOURCES /\
    outcome_of r <> Returned PTE_OS_INTERRUPTED /\
    outcome_of r <> Undef /\ outcome_of r <> Spin.
Proof.
  intros S h s m handle timeoutMsecs wait status r.
  subst r status wait. unfold pte_osMutexTimedLock, kernel_failed. simpl.
  destruct (h _ s) as [status s1]. simpl in *.
  destruct (status <? 0) eqn:E; simpl; repeat split; intros; congruence.
Qed.

(** ** Atomic compare-and-exchange *)

(** C7: on a location holding [old], [pte_osAtomicCompareExchange]
    returns [old]; the location holds the exchange value afterwards when
    [old] equals the comparand and still holds [old] otherwise; nothing
    else in memory changes; and the interrupt state handed to
    [pspSdkEnableInterrupts] is the one [pspSdkDisableInterrupts] gave
    back, so that on the reference kernel the interrupt state at return is
    the one at entry. *)
Theorem pte_osAtomicCompareExchange_spec :
  forall (S : Type) (h : handler S) (s : S) (m : memory)
         (pdest exchange comp old : Z),
    cells m !! pdest = Some old ->
    let r := run h (pte_osAtomicCompareExchange pdest exchange comp) m s in
    outcome_of r = Returned old /\
    memory_of r = (if old =? comp then set_cells (insert pdest exchange) m else m) /\
    cells (memory_of r) !! pdest = Some (if old =? comp then exchange else old) /\
    (forall q, q <> pdest -> cells (memory_of r) !! q = cells m !! q) /\
    (exists intc,
        answers on_pspSdkDisableInterrupts (trace_of r) = [intc] /\
        calls (trace_of r) = [pspSdkDisableInterrupts; pspSdkEnableInterrupts intc]) /\
    (forall w : Psp.world,
        Psp.interrupts
          (kernel_of (run Psp.kernel
                        (pte_osAtomicCompareExchange pdest exchange comp) m w))
        = Psp.interrupts w).
Proof.
  intros S h s m pdest exchange comp old Hold r. subst r.
  unfold pte_osAtomicCompareExchange, read_cell, write_cell. simpl.
  repeat (rewrite Hold; simpl).
  destruct (old =? comp) eqn:E; simpl; rewrite ?Hold; simpl.
  - repeat split.
    + apply lookup_insert_eq.
    + intros q Hq. apply lookup_insert_ne. congruence.
    + eexists. split; reflexivity.
  - repeat split; auto.
    eexists. split; reflexivity.
Qed.

Lemma pte_osAtomicCompareExchange_spec_witness :
  let m := set_cells (insert 4096 5) initial_memory in
  cells m !! 4096 = Some 5 /\
  outcome_of (run Psp.kernel (pte_osAtomicCompareExchange 4096 9 5) m (Psp.boot 4 64))
  = Returned 5.
Proof.
  split; [reflexivity |].
  apply (pte_osAtomicCompareExchange_spec Psp.world Psp.kernel (Psp.boot 4 64)
           (set_cells (insert 4096 5) initial_memory) 4096 9 5 5).
  reflexivity.
Defined.

(** ** Initialization *)

Section Init.
Context {S : Type} (h : handler S).

(** The status of [pte_osInit] is decided by its first three steps. *)
Lemma pte_osInit_outcome m s :
  let r := run h pte_osInit m s in
  let t := trace_of r in
  (exists e, e <> PTE_OS_OK /\ outcome_of r = Returned e /\
             answers on_pteTlsGlobalInit t = [e]) \/
  (exists e, e <> PTE_OS_OK /\ outcome_of r = Returned e /\
             answers on_pteTlsGlobalInit t = [PTE_OS_OK] /\
             answers on_pteTlsAlloc t = [e]) \/
  (outcome_of r = Returned PTE_OS_NO_RESOURCES /\
   answers on_pteTlsGlobalInit t = [PTE_OS_OK] /\
   answers on_pteTlsAlloc t = [PTE_OS_OK] /\
   answers on_malloc t = [NULL]) \/
  (exists p table sem,
      p <> NULL /\ outcome_of r = Returned PTE_OS_OK /\
      answers on_pteTlsGlobalInit t = [PTE_OS_OK] /\
      answers on_pteTlsAlloc t = [PTE_OS_OK] /\
      answers on_malloc t = [p] /\
      answers on_pteTlsThreadInit t = [table] /\
      answers on_sceKernelCreateSema t = [sem] /\
      globalTls (memory_of r) = table /\
      heap (memory_of r) !! p = Some (mkThreadData None None (Some sem))).
Proof.
  unfold pte_osInit, malloc_pspThreadData, store_field. simpl.
  destruct (h (pteTlsGlobalInit PSP_MAX_TLS) s) as [g s1]. simpl.
  destruct g; simpl;
    try (left; eexists; repeat split; [discriminate | reflexivity ..]).
  right.
  destruct (h pteTlsAlloc s1) as [[a key] s2]. simpl.
  assert (Hkey : forall (k : prog pte_osResult) m0 s0,
             run h (match key with
                    | Some key0 => modify (set_threadDataKey key0)
                    | None => Ret tt
                    end ;;; k) m0 s0
             = run h k (match key with
                        | Some key0 => set_threadDataKey key0 m0
                        | None => m0
                        end) s0).
  { intros k m0 s0. destruct key; reflexivity. }
  rewrite Hkey. clear Hkey.
  destruct a; simpl;
    try (left; eexists; repeat split; [discriminate | reflexivity ..]).
  right.
  destruct (h pteTlsThreadInit s2) as [table s3]. simpl.
  destruct (h malloc s3) as [p s4]. simpl.
  destruct (p =? NULL) eqn:Hp; simpl; rewrite Hp; simpl.
  - left. apply Z.eqb_eq in Hp. subst p. repeat split.
  - right. apply Z.eqb_neq in Hp.
    rewrite lookup_insert_eq. simpl.
    exists p, table. eexists. repeat split; try reflexivity; try assumption.
    simpl. rewrite insert_insert_eq. apply lookup_insert_eq.
Qed.

End Init.

(** C10: [pte_osInit] returns [PTE_OS_OK] as soon as the TLS global
    initialisation, the allocation of the control-block key and [malloc]
    succeed.  What [pteTlsThreadInit] and [sceKernelCreateSema] answer is
    stored unchecked, a null table and an error code included; and a status
    other than [PTE_OS_OK] is always the failure of one of the first three
    steps. *)
Theorem pte_osInit_ok_despite_unchecked_steps :
  forall (S : Type) (h : handler S) (s : S) (m : memory),
    let r := run h pte_osInit m s in
    let t := trace_of r in
    (forall p table sem,
        answers on_pteTlsGlobalInit t = [PTE_OS_OK] ->
        answers on_pteTlsAlloc t = [PTE_OS_OK] ->
        answers on_malloc t = [p] -> p <> NULL ->
        answers on_pteTlsThreadInit t = [table] ->
        answers on_sceKernelCreateSema t = [sem] ->
        outcome_of r = Returned PTE_OS_OK /\
        globalTls (memory_of r) = table /\
        heap (memory_of r) !! p = Some (mkThreadData None None (Some sem))) /\
    (forall e,
        outcome_of r = Returned e -> e <> PTE_OS_OK ->
        answers on_pteTlsGlobalInit t = [e] \/
        (answers on_pteTlsGlobalInit t = [PTE_OS_OK] /\
         answers on_pteTlsAlloc t = [e]) \/
        (answers on_pteTlsGlobalInit t = [PTE_OS_OK] /\
         answers on_pteTlsAlloc t = [PTE_OS_OK] /\
         answers on_malloc t = [NULL] /\ e = PTE_OS_NO_RESOURCES)) /\
    (exists e, outcome_of r = Returned e).
Proof.
  intros S h s m r t. subst t r.
  destruct (pte_osInit_outcome h m s)
    as [(e & He & Ho & Hg)
       |[(e & He & Ho & Hg & Ha)
        |[(Ho & Hg & Ha & Hm)
         |(p & table & sem & Hp & Ho & Hg & Ha & Hm & Ht & Hs & Hgl & Hh)]]];
    cbv zeta in *.
  - split; [|split].
    + intros p' table' sem' Hg'. congruence.
    + intros e' Ho' He'. left. congruence.
    + eauto.
  - split; [|split].
    + intros p' table' sem' Hg' Ha'. congruence.
    + intros e' Ho' He'. right. left. split; congruence.
    + eauto.
  - split; [|split].
    + intros p' table' sem' Hg' Ha' Hm' Hp'. congruence.
    + intros e' Ho' He'. right. right. repeat split; congruence.
    + eauto.
  - split; [|split].
    + intros p' table' sem' Hg' Ha' Hm' Hp' Ht' Hs'.
      assert (p' = p) by congruence. assert (table' = table) by congruence.
      assert (sem' = sem) by congruence. subst. auto.
    + intros e' Ho' He'. congruence.
    + eauto.
Qed.

(** On a PSP with no kernel object left and too little heap for a TLS
    table, [pte_osInit] reports success all the same. *)
Lemma pte_osInit_ok_despite_unchecked_steps_witness :
  let r := run Psp.kernel pte_osInit initial_memory (Psp.boot 0 20) in
  answers on_pteTlsThreadInit (trace_of r) = [NULL] /\
  answers on_sceKernelCreateSema (trace_of r)
  = [to_int32 SCE_KERNEL_ERROR_NO_MEMORY] /\
  outcome_of r = Returned PTE_OS_OK.
Proof.
  split; [vm_compute; reflexivity | split; [vm_compute; reflexivity |]].
  apply (proj1 (pte_osInit_ok_despite_unchecked_steps Psp.world Psp.kernel
                  (Psp.boot 0 20) initial_memory)
           0x08900000 NULL (to_int32 SCE_KERNEL_ERROR_NO_MEMORY));
    vm_compute; congruence.
Defined.

(** ** Thread creation *)

Section ThreadCreate.
Context {S : Type} (h : handler S).

(** Every run of [pte_osThreadCreate] that reaches the kernel's thread
    creation, by the answer it gets there. *)
Lemma pte_osThreadCreate_reaching_kernel entry stackSize prio arg m s threadId :
  let r := run h (pte_osThreadCreate entry stackSize prio arg) m s in
  answers on_sceKernelCreateThread (trace_of r) = [threadId] ->
  exists pTls pThreadData sem,
    pTls <> NULL /\ pThreadData <> NULL /\
    answers on_pteTlsThreadInit (trace_of r) = [pTls] /\
    answers on_malloc (trace_of r) = [pThreadData] /\
    answers on_sceKernelCreateSema (trace_of r) = [sem] /\
    let before := create_calls pTls (threadDataKey m) pThreadData
                    (next_counter (threadNum m)) prio stackSize in
    if threadId =? to_int32 SCE_KERNEL_ERROR_NO_MEMORY then
      outcome_of r = Returned (PTE_OS_NO_RESOURCES, None) /\
      heap (memory_of r) !! pThreadData = None /\
      calls (trace_of r) = before ++ cleanup_calls pTls pThreadData
        "sceKernelCreateThread: PTE_OS_NO_RESOURCES
"
    else if threadId <? 0 then
      outcome_of r = Returned (PTE_OS_GENERAL_FAILURE, None) /\
      heap (memory_of r) !! pThreadData = None /\
      calls (trace_of r) = before ++ cleanup_calls pTls pThreadData
        "sceKernelCreateThread: PTE_OS_GENERAL_FAILURE
"
    else
      outcome_of r = Returned (PTE_OS_OK, Some threadId) /\
      heap (memory_of r) !! pThreadData
      = Some (mkThreadData (Some entry) (Some arg) (Some sem)) /\
      calls (trace_of r) = before.
Proof.
  unfold pte_osThreadCreate, malloc_pspThreadData, free_pspThreadData,
    store_field, create_calls, cleanup_calls.
  simpl.
  destruct (h pteTlsThreadInit s) as [pTls s1]. simpl.
  destruct (pTls =? NULL) eqn:Ht; simpl; [discriminate|].
  destruct (h malloc s1) as [p s2]. simpl.
  destruct (p =? NULL) eqn:Hp; simpl; rewrite Hp; simpl; [discriminate|].
  repeat (rewrite lookup_insert_eq; simpl).
  match goal with
  | |- context [h (sceKernelCreateThread ?n ?e ?pr ?st ?a ?o) ?s0] =>
      destruct (h (sceKernelCreateThread n e pr st a o) s0) as [tid s5]
  end.
  simpl. intros Htid. injection Htid as ->.
  apply Z.eqb_neq in Ht, Hp.
  exists pTls, p. eexists. repeat (split; [first [assumption | reflexivity]|]).
  destruct (threadId =? to_int32 SCE_KERNEL_ERROR_NO_MEMORY) eqn:E1; simpl.
  - repeat split. apply lookup_delete_eq.
  - destruct (threadId <? 0) eqn:E2; simpl.
    + repeat split. apply lookup_delete_eq.
    + repeat split. rewrite !insert_insert_eq. apply lookup_insert_eq.
Qed.

End ThreadCreate.

(** C4: when the kernel refuses the thread, [pte_osThreadCreate] frees
    the control block and destroys the TLS table it had allocated, in that
    order and before it returns; the status is [PTE_OS_NO_RESOURCES] for
    the kernel's out-of-memory answer and [PTE_OS_GENERAL_FAILURE] for any
    other failing answer; nothing is stored in the caller's handle. *)
Theorem pte_osThreadCreate_kernel_failure :
  forall (S : Type) (h : handler S) (s : S) (m : memory)
         (entry stackSize prio arg threadId : Z),
    let r := run h (pte_osThreadCreate entry stackSize prio arg) m s in
    answers on_sceKernelCreateThread (trace_of r) = [threadId] ->
    kernel_failed threadId = true ->
    exists pTls pThreadData msg,
      answers on_pteTlsThreadInit (trace_of r) = [pTls] /\
      answers on_malloc (trace_of r) = [pThreadData] /\
      calls (trace_of r)
      = create_calls pTls (threadDataKey m) pThreadData
          (next_counter (threadNum m)) prio stackSize
        ++ cleanup_calls pTls pThreadData msg /\
      heap (memory_of r) !! pThreadData = None /\
      outcome_of r
      = Returned (if threadId =? to_int32 SCE_KERNEL_ERROR_NO_MEMORY
                  then PTE_OS_NO_RESOURCES else PTE_OS_GENERAL_FAILURE, None).
Proof.
  intros S h s m entry stackSize prio arg threadId r Htid Hfail.
  destruct (pte_osThreadCreate_reaching_kernel h entry stackSize prio arg m s
              threadId Htid)
    as (pTls & p & sem & _ & _ & Ht & Hp & _ & Hcase).
  fold r in Ht, Hp, Hcase. cbv zeta in Hcase.
  unfold kernel_failed in Hfail.
  exists pTls, p.
  destruct (threadId =? to_int32 SCE_KERNEL_ERROR_NO_MEMORY).
  - destruct Hcase as (Ho & Hh & Hc). eexists. repeat split; eassumption.
  - rewrite Hfail in Hcase.
    destruct Hcase as (Ho & Hh & Hc). eexists. repeat split; eassumption.
Qed.

(** A PSP with one kernel object left: the cancellation semaphore takes
    it and the thread is refused for lack of memory. *)
Lemma pte_osThreadCreate_kernel_failure_witness :
  let r := run Psp.kernel (pte_osThreadCreate 77 8192 20 0) initial_memory
             (Psp.set_keys ∅ 32 (Psp.boot 1 4096)) in
  kernel_failed (to_int32 SCE_KERNEL_ERROR_NO_MEMORY) = true /\
  exists pTls pThreadData msg,
    answers on_pteTlsThreadInit (trace_of r) = [pTls] /\
    answers on_malloc (trace_of r) = [pThreadData] /\
    calls (trace_of r)
    = create_calls pTls 0 pThreadData 2 20 8192
      ++ cleanup_calls pTls pThreadData msg /\
    heap (memory_of r) !! pThreadData = None /\
    outcome_of r = Returned (PTE_OS_NO_RESOURCES, None).
Proof.
  split; [reflexivity |].
  apply (pte_osThreadCreate_kernel_failure Psp.world Psp.kernel
           (Psp.set_keys ∅ 32 (Psp.boot 1 4096)) initial_memory 77 8192 20 0
           (to_int32 SCE_KERNEL_ERROR_NO_MEMORY));
    vm_compute; reflexivity.
Defined.

Section Replay.
Context {S : Type} (h : handler S).

(** The trace of a run is the kernel's answers to the calls made. *)
Lemma trace_of_run {R : Type} (p : prog R) m s :
  trace_of (run h p m s) = replay h (calls (trace_of (run h p m s))) s.
Proof.
  revert m s. induction p as [a|c k IH|k IH|g k IH| |]; intros m s; simpl; auto.
  f_equal. apply IH.
Qed.

Lemma kernel_of_run {R : Type} (p : prog R) m s :
  kernel_of (run h p m s) = after h (calls (trace_of (run h p m s))) s.
Proof.
  revert m s. induction p as [a|c k IH|k IH|g k IH| |]; intros m s; simpl; auto.
Qed.

End Replay.





(** ** Control-block lookup *)

(** Symbolic execution: name the kernel's next answer. *)
Ltac next_answer h :=
  match goal with
  | |- context [h ?c ?s] =>
      is_var s; destruct (h c s) as [? ?]; simpl in *
  end.

Section Lookup.
Context {S : Type} (h : handler S).

(** C6 rests on this: [getTlsStructFromThread] asks the kernel for the
    thread's name, scans it, and picks the table by the scan's result. *)
Lemma getTlsStructFromThread_run thid m s :
  let r := run h (getTlsStructFromThread thid) m s in
  exists status name scanned,
    trace_of r
    = [ Ev (sceKernelReferThreadStatus thid) (status, name);
        Ev (sscanf name "pthread%04d__%x") scanned ] /\
    memory_of r = m /\
    outcome_of r = Returned (match scanned with
                             | Scan2 _ ptr => ptr
                             | _ => globalTls m
                             end).
Proof.
  unfold getTlsStructFromThread. simpl.
  destruct (h (sceKernelReferThreadStatus thid) s) as [[status name] s1]. simpl.
  destruct (h (sscanf name "pthread%04d__%x") s1) as [scanned s2]. simpl.
  exists status, name, scanned.
  destruct scanned; simpl; repeat split.
Qed.

(** [getThreadData]: three calls, the last one's answer is the result,
    and the file's variables are untouched. *)
Lemma getThreadData_run thid m s :
  let r := run h (getThreadData thid) m s in
  exists name scanned pThreadData,
    calls (trace_of r) = lookup_calls thid name scanned m /\
    answers on_sscanf (trace_of r) = [scanned] /\
    answers on_pteTlsGetValue (trace_of r) = [pThreadData] /\
    memory_of r = m /\
    outcome_of r = Returned pThreadData.
Proof.
  unfold getThreadData, getTlsStructFromThread, lookup_calls, table_of. simpl.
  destruct (h (sceKernelReferThreadStatus thid) s) as [[status name] s1]. simpl.
  destruct (h (sscanf name "pthread%04d__%x") s1) as [scanned s2]. simpl.
  exists name, scanned.
  destruct scanned; simpl; next_answer h; eexists; repeat split.
Qed.

(** A program that starts with [getThreadData] runs the lookup, then the
    rest on the control block found. *)
Lemma run_getThreadData_then {R : Type} thid (k : Z -> prog R) m s :
  exists name scanned pThreadData pre s1,
    calls pre = lookup_calls thid name scanned m /\
    answers on_sscanf pre = [scanned] /\
    answers on_pteTlsGetValue pre = [pThreadData] /\
    pre = replay h (lookup_calls thid name scanned m) s /\
    s1 = after h (lookup_calls thid name scanned m) s /\
    run h (bind (getThreadData thid) k) m s
    = let r := run h (k pThreadData) m s1 in
      Result (outcome_of r) (memory_of r) (kernel_of r) (pre ++ trace_of r).
Proof.
  rewrite run_bind.
  destruct (getThreadData_run thid m s)
    as (name & scanned & p & Hc & Hs & Hp & Hm & Ho).
  cbv zeta in *. rewrite Ho, Hm.
  exists name, scanned, p, (trace_of (run h (getThreadData thid) m s)),
    (kernel_of (run h (getThreadData thid) m s)).
  repeat split; try assumption.
  - rewrite <- Hc. apply trace_of_run.
  - rewrite <- Hc. apply kernel_of_run.
Qed.

End Lookup.

Lemma answers_app {A : Type} (pick : forall c : kcall, kresp c -> option A)
  (t1 t2 : list event) :
  answers pick (t1 ++ t2) = answers pick t1 ++ answers pick t2.
Proof. unfold answers. apply omap_app. Qed.

Lemma calls_app (t1 t2 : list event) : calls (t1 ++ t2) = calls t1 ++ calls t2.
Proof. unfold calls. apply map_app. Qed.

Lemma answers_cons {A : Type} (pick : forall c : kcall, kresp c -> option A)
  (e : event) (t : list event) :
  answers pick (e :: t)
  = match pick (ev_call e) (ev_resp e) with
    | Some a => a :: answers pick t
    | None => answers pick t
    end.
Proof. reflexivity. Qed.

(** ** Cancellation: post and probe *)

Section Cancel.
Context {S : Type} (h : handler S).

(** Every run of [pte_osThreadCheckCancel]. *)
Lemma pte_osThreadCheckCancel_run thid m s :
  let r := run h (pte_osThreadCheckCancel thid) m s in
  exists name scanned pThreadData,
    answers on_pteTlsGetValue (trace_of r) = [pThreadData] /\
    memory_of r = m /\
    if pThreadData =? NULL then
      calls (trace_of r) = lookup_calls thid name scanned m /\
      outcome_of r = Returned PTE_OS_GENERAL_FAILURE
    else
      match cancelSem_at m pThreadData with
      | None =>
          calls (trace_of r) = lookup_calls thid name scanned m /\
          outcome_of r = Undef
      | Some sem =>
          exists semInfo,
            calls (trace_of r)
            = lookup_calls thid name scanned m ++ [sceKernelReferSemaStatus sem] /\
            answers on_sceKernelReferSemaStatus (trace_of r) = [semInfo] /\
            outcome_of r = Returned (cancel_status semInfo)
      end.
Proof.
  unfold pte_osThreadCheckCancel.
  destruct (run_getThreadData_then h thid
              (fun pThreadData =>
                 if pThreadData =? NULL then Ret PTE_OS_GENERAL_FAILURE
                 else
                   sem <- load_cancelSem pThreadData ;;
                   semInfo <- call (sceKernelReferSemaStatus sem) ;;
                   if fst semInfo =? SCE_KERNEL_ERROR_OK then
                     if snd semInfo >? 0 then Ret PTE_OS_INTERRUPTED
                     else Ret PTE_OS_OK
                   else Ret PTE_OS_GENERAL_FAILURE) m s)
    as (name & scanned & p & pre & s1 & Hc & _ & Hp & Hpre & _ & Hrun).
  rewrite Hrun. clear Hrun. cbv zeta. simpl.
  exists name, scanned, p.
  rewrite answers_app, calls_app, Hp, Hc.
  assert (Hq : answers on_sceKernelReferSemaStatus pre = []).
  { rewrite Hpre. reflexivity. }
  destruct (p =? NULL) eqn:E; simpl.
  - rewrite ?app_nil_r. repeat split.
  - unfold load_cancelSem, cancelSem_at. simpl.
    destruct (heap m !! p) as [d|]; simpl.
    + destruct (cancelSem d) as [sem|]; simpl.
      * destruct (h (sceKernelReferSemaStatus sem) s1) as [[st cnt] s2].
        unfold cancel_status. simpl.
        destruct (st =? SCE_KERNEL_ERROR_OK) eqn:E1;
          [destruct (cnt >? 0) eqn:E2|]; simpl;
          (split; [reflexivity|]); (split; [reflexivity|]);
          exists (st, cnt); rewrite answers_app, Hq; simpl;
          rewrite ?E1, ?E2; repeat split.
      * rewrite ?app_nil_r. repeat split.
    + rewrite ?app_nil_r. repeat split.
Qed.


End Cancel.

(** ** The status taxonomy *)

Section Taxonomy.
Context {S : Type} (h : handler S).

(** [pte_osMutexCreate] never looks at the kernel's answer. *)
Lemma pte_osMutexCreate_run m s :
  let r := run h pte_osMutexCreate m s in
  exists handle,
    answers on_sceKernelCreateSema (trace_of r) = [handle] /\
    calls (trace_of r)
    = [sceKernelCreateSema
         (snprintf 32 ("mutex" ++ fmt_d (next_counter (mutexCtr m)))) 0 1 1 0] /\
    memory_of r = set_mutexCtr (next_counter (mutexCtr m)) m /\
    outcome_of r = Returned (PTE_OS_OK, handle).
Proof.
  unfold pte_osMutexCreate. simpl. next_answer h. eexists. repeat split.
Qed.

(** Neither does [pte_osSemaphoreCreate]. *)
Lemma pte_osSemaphoreCreate_run initialValue m s :
  let r := run h (pte_osSemaphoreCreate initialValue) m s in
  exists handle,
    answers on_sceKernelCreateSema (trace_of r) = [handle] /\
    calls (trace_of r)
    = [sceKernelCreateSema
         (snprintf 32 ("pthread_sem" ++ fmt_d (next_counter (semCtr m))))
         0 initialValue SEM_VALUE_MAX 0] /\
    memory_of r = set_semCtr (next_counter (semCtr m)) m /\
    outcome_of r = Returned (PTE_OS_OK, handle).
Proof.
  unfold pte_osSemaphoreCreate. simpl. next_answer h. eexists. repeat split.
Qed.



End Taxonomy.




(** ** The cancellable waits, round by round *)

Section Rounds.
Context {S : Type} (h : handler S).

(** The loop, one round unrolled. *)
Lemma run_while1_succ {R : Type} (n : nat) (body : prog (option R)) m s :
  run h (while1 (Datatypes.S n) body) m s =
  let r := run h body m s in
  match outcome_of r with
  | Returned (Some v) => Result (Returned v) (memory_of r) (kernel_of r) (trace_of r)
  | Returned None =>
      let r' := run h (while1 n body) (memory_of r) (kernel_of r) in
      Result (outcome_of r') (memory_of r') (kernel_of r')
        (trace_of r ++ trace_of r')
  | Undef => Result Undef (memory_of r) (kernel_of r) (trace_of r)
  | Spin => Result Spin (memory_of r) (kernel_of r) (trace_of r)
  end.
Proof.
  simpl. rewrite run_bind. cbv zeta.
  destruct (outcome_of (run h body m s)) as [[v|]| |]; simpl;
    rewrite ?app_nil_r; reflexivity.
Qed.

(** The probe of the caller's cancellation semaphore. *)
Lemma poll_cancel_run pThreadData m s :
  run h (poll_cancel pThreadData) m s =
  if pThreadData =? NULL then Result (Returned None) m s []
  else
    match cancelSem_at m pThreadData with
    | None => Result Undef m s []
    | Some sem =>
        let q := h (sceKernelReferSemaStatus sem) s in
        let query := Ev (sceKernelReferSemaStatus sem) (fst q) in
        if fst (fst q) =? SCE_KERNEL_ERROR_OK then
          if snd (fst q) >? 0
          then Result (Returned (Some PTE_OS_INTERRUPTED)) m (snd q) [query]
          else
            let d := h (sceKernelDelayThread POLLING_DELAY_IN_us) (snd q) in
            Result (Returned None) m (snd d)
              [query; Ev (sceKernelDelayThread POLLING_DELAY_IN_us) (fst d)]
        else Result (Returned (Some PTE_OS_GENERAL_FAILURE)) m (snd q) [query]
    end.
Proof.
  unfold poll_cancel, load_cancelSem, cancelSem_at.
  destruct (pThreadData =? NULL); simpl; [reflexivity|].
  destruct (heap m !! pThreadData) as [d|]; simpl; [|reflexivity].
  destruct (cancelSem d) as [sem|]; simpl; [|reflexivity].
  destruct (h (sceKernelReferSemaStatus sem) s) as [[st cnt] s1]. simpl.
  destruct (st =? SCE_KERNEL_ERROR_OK); [destruct (cnt >? 0)|]; reflexivity.
Qed.

Lemma poll_cancel_polls semHandle pThreadData m s :
  forallb (polls semHandle) (calls (trace_of (run h (poll_cancel pThreadData) m s)))
  = true /\
  memory_of (run h (poll_cancel pThreadData) m s) = m.
Proof.
  rewrite poll_cancel_run.
  destruct (pThreadData =? NULL); [split; reflexivity|].
  destruct (cancelSem_at m pThreadData) as [sem|]; [|split; reflexivity].
  cbv zeta.
  destruct (fst (fst (h (sceKernelReferSemaStatus sem) s)) =? SCE_KERNEL_ERROR_OK);
    [destruct (snd (fst (h (sceKernelReferSemaStatus sem) s)) >? 0)|];
    split; reflexivity.
Qed.

Lemma pte_osThreadWaitForEnd_iter_run pThreadData threadHandle m s :
  run h (pte_osThreadWaitForEnd_iter pThreadData threadHandle) m s =
  let i := h (sceKernelReferThreadRunStatus threadHandle) s in
  let probe := Ev (sceKernelReferThreadRunStatus threadHandle) (fst i) in
  if snd (fst i) =? PSP_THREAD_STOPPED
  then Result (Returned (Some PTE_OS_OK)) m (snd i) [probe]
  else log probe (run h (poll_cancel pThreadData) m (snd i)).
Proof.
  unfold pte_osThreadWaitForEnd_iter. simpl.
  destruct (h (sceKernelReferThreadRunStatus threadHandle) s) as [[st info] s1].
  simpl. destruct (info =? PSP_THREAD_STOPPED); reflexivity.
Qed.

Lemma pte_osSemaphoreCancellablePend_iter_run
  pThreadData semHandle start_time timeout (timeoutEnabled : bool) m s :
  run h (pte_osSemaphoreCancellablePend_iter pThreadData semHandle start_time
           timeout timeoutEnabled) m s =
  let w := h (sceKernelWaitSema semHandle 1 (Some 0)) s in
  let probe := Ev (sceKernelWaitSema semHandle 1 (Some 0)) (fst w) in
  if fst w =? SCE_KERNEL_ERROR_OK
  then Result (Returned (Some PTE_OS_OK)) m (snd w) [probe]
  else if timeoutEnabled then
    let c := h clock (snd w) in
    if elapsed_exceeds (fst c) start_time timeout
    then Result (Returned (Some PTE_OS_TIMEOUT)) m (snd c) [probe; Ev clock (fst c)]
    else log probe (log (Ev clock (fst c))
                      (run h (poll_cancel pThreadData) m (snd c)))
  else log probe (run h (poll_cancel pThreadData) m (snd w)).
Proof.
  unfold pte_osSemaphoreCancellablePend_iter. simpl.
  destruct (h (sceKernelWaitSema semHandle 1 (Some 0)) s) as [status s1].
  simpl. destruct (status =? SCE_KERNEL_ERROR_OK); [reflexivity|].
  destruct timeoutEnabled; simpl; [|reflexivity].
  destruct (h clock s1) as [now s2]. simpl.
  destruct (elapsed_exceeds now start_time timeout); reflexivity.
Qed.

End Rounds.

(** ** A caller without control block *)

Lemma forallb_repeat {A : Type} (f : A -> bool) (a : A) (n : nat) :
  f a = true -> forallb f (repeat a n) = true.
Proof. intros Ha. induction n; simpl; [reflexivity | rewrite Ha; assumption]. Qed.

Section NoControlBlock.
Context {S : Type} (h : handler S).

(** No call of a kind, no answer of that kind. *)
Lemma answers_replay_nil {A : Type} (pick : forall c : kcall, kresp c -> option A)
  (sel : kcall -> bool) (cs : list kcall) (s : S) :
  (forall c x, sel c = false -> pick c x = None) ->
  forallb (fun c => negb (sel c)) cs = true ->
  answers pick (replay h cs s) = [].
Proof.
  intros Hpick. revert s. induction cs as [|c cs IH]; intros s; simpl; [reflexivity|].
  intros Hall. apply andb_true_iff in Hall as [Hc Hcs].
  apply negb_true_iff in Hc.
  unfold answers in *. simpl. rewrite (Hpick c _ Hc). apply IH. assumption.
Qed.

(** The loop of [pte_osThreadWaitForEnd] with a null control block: run
    status probes and nothing else, until one reports the thread
    stopped. *)
Lemma pte_osThreadWaitForEnd_null_loop fuel threadHandle m s :
  let r := run h (while1 fuel (pte_osThreadWaitForEnd_iter NULL threadHandle)) m s in
  memory_of r = m /\
  exists n, (n <= fuel)%nat /\
    calls (trace_of r) = repeat (sceKernelReferThreadRunStatus threadHandle) n /\
    ((outcome_of r = Returned PTE_OS_OK /\
      exists pre status,
        answers on_sceKernelReferThreadRunStatus (trace_of r)
        = pre ++ [(status, PSP_THREAD_STOPPED)] /\
        Forall not_stopped pre) \/
     (outcome_of r = Spin /\ n = fuel /\
      Forall not_stopped (answers on_sceKernelReferThreadRunStatus (trace_of r)))).
Proof.
  revert m s. induction fuel as [|fuel IH]; intros m s.
  - simpl. split; [reflexivity|]. exists 0%nat.
    split; [lia|]. split; [reflexivity|].
    right. split; [reflexivity|]. split; [reflexivity|]. constructor.
  - cbv zeta. rewrite run_while1_succ. cbv zeta.
    rewrite pte_osThreadWaitForEnd_iter_run. cbv zeta.
    rewrite poll_cancel_run. simpl (NULL =? NULL).
    destruct (h (sceKernelReferThreadRunStatus threadHandle) s) as [[st info] s1].
    simpl fst. simpl snd.
    destruct (info =? PSP_THREAD_STOPPED) eqn:E; simpl.
    + apply Z.eqb_eq in E. subst info. split; [reflexivity|].
      exists 1%nat. split; [lia|]. split; [reflexivity|].
      left. split; [reflexivity|]. exists [], st. split; [reflexivity|constructor].
    + apply Z.eqb_neq in E.
      destruct (IH m s1) as (Hm & n & Hn & Hc & Hcase). cbv zeta in *.
      split; [assumption|].
      exists (Datatypes.S n). split; [lia|]. split; [simpl; f_equal; assumption|].
      destruct Hcase as [(Ho & pre & st' & Ha & Hpre)|(Ho & Hn' & Hall)].
      * left. split; [assumption|].
        exists ((st, info) :: pre), st'. split.
        -- unfold answers in *. simpl. f_equal. exact Ha.
        -- constructor; assumption.
      * right. split; [assumption|]. split; [lia|].
        unfold answers in *. simpl. constructor; assumption.
Qed.

(** The loop of an untimed [pte_osSemaphoreCancellablePend] with a null
    control block: as long as the probes fail, probes and nothing else. *)
Lemma pte_osSemaphoreCancellablePend_null_loop fuel semHandle start_time m s :
  let r := run h (while1 fuel (pte_osSemaphoreCancellablePend_iter NULL semHandle
                                 start_time 0 false)) m s in
  Forall (fun status => status <> SCE_KERNEL_ERROR_OK)
    (answers on_sceKernelWaitSema (trace_of r)) ->
  memory_of r = m /\
  outcome_of r = Spin /\
  calls (trace_of r) = repeat (sceKernelWaitSema semHandle 1 (Some 0)) fuel.
Proof.
  revert m s. induction fuel as [|fuel IH]; intros m s.
  - simpl. intros _. repeat split.
  - cbv zeta. rewrite run_while1_succ. cbv zeta.
    rewrite pte_osSemaphoreCancellablePend_iter_run. cbv zeta.
    rewrite poll_cancel_run. simpl (NULL =? NULL).
    destruct (h (sceKernelWaitSema semHandle 1 (Some 0)) s) as [status s1].
    simpl fst. simpl snd.
    destruct (status =? SCE_KERNEL_ERROR_OK) eqn:E; simpl.
    + apply Z.eqb_eq in E. subst status. intros Hall.
      inversion Hall as [|? ? Hne _]. contradiction Hne. reflexivity.
    + intros Hall. unfold answers in Hall. simpl in Hall.
      inversion Hall as [|? ? _ Hrest]. subst.
      destruct (IH m s1 Hrest) as (Hm & Ho & Hc).
      repeat split; try assumption. f_equal. assumption.
Qed.

(** With a null control block the rounds of a pend, timed or not, are
    made of the probe and the clock; the loop ends by an acquisition or a
    timeout, if it ends. *)
Lemma pte_osSemaphoreCancellablePend_null_rounds fuel semHandle start_time
  timeout (timeoutEnabled : bool) m s :
  let r := run h (while1 fuel (pte_osSemaphoreCancellablePend_iter NULL semHandle
                                 start_time timeout timeoutEnabled)) m s in
  forallb no_poll (calls (trace_of r)) = true /\
  (outcome_of r = Returned PTE_OS_OK \/ outcome_of r = Returned PTE_OS_TIMEOUT \/
   outcome_of r = Spin).
Proof.
  revert m s. induction fuel as [|fuel IH]; intros m s.
  - simpl. split; [reflexivity|]. right. right. reflexivity.
  - cbv zeta. rewrite run_while1_succ. cbv zeta.
    rewrite pte_osSemaphoreCancellablePend_iter_run. cbv zeta.
    rewrite !poll_cancel_run. simpl (NULL =? NULL). cbv iota.
    destruct (h (sceKernelWaitSema semHandle 1 (Some 0)) s) as [status s1].
    simpl fst. simpl snd.
    destruct (status =? SCE_KERNEL_ERROR_OK); simpl.
    { split; [reflexivity|]. left. reflexivity. }
    destruct timeoutEnabled; simpl.
    + destruct (h clock s1) as [now s2]. simpl fst. simpl snd.
      destruct (elapsed_exceeds now start_time timeout); simpl.
      { split; [reflexivity|]. right. left. reflexivity. }
      destruct (IH m s2) as [Hc Ho]. split; assumption.
    + destruct (IH m s1) as [Hc Ho]. split; assumption.
Qed.

End NoControlBlock.

Section WholeWaits.
Context {S : Type} (h : handler S).

Lemma run_call_bind {R : Type} (c : kcall) (k : kresp c -> prog R) m s :
  run h (bind (call c) k) m s
  = log (Ev c (fst (h c s))) (run h (k (fst (h c s))) m (snd (h c s))).
Proof. reflexivity. Qed.

(** [pte_osThreadWaitForEnd]: the caller's identity, the lookup of its
    control block, then the loop on what the lookup found. *)
Lemma pte_osThreadWaitForEnd_run fuel threadHandle m s :
  exists self name scanned pThreadData pre s1,
    calls pre = sceKernelGetThreadId :: lookup_calls self name scanned m /\
    pre = replay h (sceKernelGetThreadId :: lookup_calls self name scanned m) s /\
    s1 = after h (sceKernelGetThreadId :: lookup_calls self name scanned m) s /\
    answers on_pteTlsGetValue pre = [pThreadData] /\
    run h (pte_osThreadWaitForEnd fuel threadHandle) m s
    = let r := run h (while1 fuel (pte_osThreadWaitForEnd_iter pThreadData
                                     threadHandle)) m s1 in
      Result (outcome_of r) (memory_of r) (kernel_of r) (pre ++ trace_of r).
Proof.
  unfold pte_osThreadWaitForEnd. rewrite run_call_bind.
  set (self := fst (h sceKernelGetThreadId s)).
  set (s0 := snd (h sceKernelGetThreadId s)).
  destruct (run_getThreadData_then h self
              (fun p => while1 fuel (pte_osThreadWaitForEnd_iter p threadHandle))
              m s0)
    as (name & scanned & p & pre & s1 & Hc & _ & Hp & Hpre & Hs1 & Hrun).
  rewrite Hrun. cbv zeta.
  exists self, name, scanned, p,
    (Ev sceKernelGetThreadId self :: pre), s1.
  repeat split.
  - simpl. f_equal. assumption.
  - simpl. f_equal. assumption.
  - assumption.
  - assumption.
Qed.

(** [pte_osSemaphoreCancellablePend]: the caller's identity, the lookup
    of its control block, the start time, then the loop. *)
Lemma pte_osSemaphoreCancellablePend_run fuel semHandle pTimeout m s :
  exists self name scanned pThreadData start_time pre s1,
    calls pre
    = sceKernelGetThreadId :: lookup_calls self name scanned m ++ [clock] /\
    pre = replay h (sceKernelGetThreadId :: lookup_calls self name scanned m
                      ++ [clock]) s /\
    s1 = after h (sceKernelGetThreadId :: lookup_calls self name scanned m
                    ++ [clock]) s /\
    answers on_pteTlsGetValue pre = [pThreadData] /\
    answers on_clock pre = [start_time] /\
    run h (pte_osSemaphoreCancellablePend fuel semHandle pTimeout) m s
    = let r := run h (while1 fuel
                        (pte_osSemaphoreCancellablePend_iter pThreadData semHandle
                           start_time
                           (match pTimeout with
                            | None => 0
                            | Some ms => to_uint32 (ms * 1000)
                            end)
                           (match pTimeout with
                            | None => false
                            | Some _ => true
                            end))) m s1 in
      Result (outcome_of r) (memory_of r) (kernel_of r) (pre ++ trace_of r).
Proof.
  unfold pte_osSemaphoreCancellablePend. rewrite run_call_bind.
  set (self := fst (h sceKernelGetThreadId s)).
  set (s0 := snd (h sceKernelGetThreadId s)).
  match goal with
  | |- context [run h (bind (getThreadData self) ?k) m s0] =>
      destruct (run_getThreadData_then h self k m s0)
        as (name & scanned & p & pre & s1 & Hc & _ & Hp & Hpre & Hs1 & Hrun)
  end.
  rewrite Hrun. cbv zeta. rewrite run_call_bind.
  exists self, name, scanned, p, (fst (h clock s1)),
    (Ev sceKernelGetThreadId self :: pre ++ [Ev clock (fst (h clock s1))]),
    (snd (h clock s1)).
  assert (Hrep : forall cs c s', replay h (cs ++ [c]) s'
                   = replay h cs s' ++ [Ev c (fst (h c (after h cs s')))]).
  { induction cs as [|c0 cs IH]; intros c s'; simpl; [reflexivity|].
    f_equal. apply IH. }
  assert (Haft : forall cs c s', after h (cs ++ [c]) s'
                   = snd (h c (after h cs s'))).
  { induction cs as [|c0 cs IH]; intros c s'; simpl; [reflexivity|]. apply IH. }
  repeat split.
  - simpl. f_equal. rewrite calls_app, Hc. reflexivity.
  - cbn [replay app]. fold self s0. f_equal.
    rewrite Hrep, <- Hpre, <- Hs1. reflexivity.
  - cbn [after app]. fold s0. rewrite Haft, <- Hs1. reflexivity.
  - cbn [answers omap list_omap ev_call ev_resp on_pteTlsGetValue].
    change (answers on_pteTlsGetValue (pre ++ [Ev clock (fst (h clock s1))])
            = [p]).
    rewrite answers_app, Hp. reflexivity.
  - change (answers on_clock (pre ++ [Ev clock (fst (h clock s1))])
            = [fst (h clock s1)]).
    rewrite answers_app, Hpre. reflexivity.
  - simpl. rewrite <- app_assoc. reflexivity.
Qed.

End WholeWaits.

Lemma on_sceKernelReferSemaStatus_none (c : kcall) (x : kresp c) :
  is_sceKernelReferSemaStatus c = false -> on_sceKernelReferSemaStatus c x = None.
Proof. destruct c; simpl; intros H; try reflexivity; discriminate H. Qed.

(** C9: when the lookup of the caller's control block yields NULL, the
    rounds of [pte_osThreadWaitForEnd] and of
    [pte_osSemaphoreCancellablePend] make no query of a cancellation
    semaphore, take no failure branch and never sleep.
    [pte_osThreadWaitForEnd] then returns neither [PTE_OS_INTERRUPTED] nor
    [PTE_OS_GENERAL_FAILURE]: it probes the run status back to back until
    a probe reports the thread stopped, and returns [PTE_OS_OK] at that
    probe.  The untimed pend on a semaphore whose probes never succeed is
    still in its loop after any number of rounds: it never returns. *)
Theorem null_control_block_waits_spin :
  forall (S : Type) (h : handler S) (s : S) (m : memory) (fuel : nat),
    (forall threadHandle,
        let r := run h (pte_osThreadWaitForEnd fuel threadHandle) m s in
        answers on_pteTlsGetValue (trace_of r) = [NULL] ->
        exists self name scanned n,
          (n <= fuel)%nat /\
          calls (trace_of r)
          = sceKernelGetThreadId :: lookup_calls self name scanned m
            ++ repeat (sceKernelReferThreadRunStatus threadHandle) n /\
          answers on_sceKernelReferSemaStatus (trace_of r) = [] /\
          forallb (fun c => negb (is_sceKernelDelayThread c)) (calls (trace_of r))
          = true /\
          outcome_of r <> Returned PTE_OS_INTERRUPTED /\
          outcome_of r <> Returned PTE_OS_GENERAL_FAILURE /\
          ((outcome_of r = Returned PTE_OS_OK /\
            exists pre status,
              answers on_sceKernelReferThreadRunStatus (trace_of r)
              = pre ++ [(status, PSP_THREAD_STOPPED)] /\
              Forall not_stopped pre) \/
           (outcome_of r = Spin /\ n = fuel /\
            Forall not_stopped
              (answers on_sceKernelReferThreadRunStatus (trace_of r))))) /\
    (forall semHandle,
        let r := run h (pte_osSemaphoreCancellablePend fuel semHandle None) m s in
        answers on_pteTlsGetValue (trace_of r) = [NULL] ->
        Forall (fun status => status <> SCE_KERNEL_ERROR_OK)
          (answers on_sceKernelWaitSema (trace_of r)) ->
        exists self name scanned,
          calls (trace_of r)
          = sceKernelGetThreadId :: lookup_calls self name scanned m
            ++ clock :: repeat (sceKernelWaitSema semHandle 1 (Some 0)) fuel /\
          answers on_sceKernelReferSemaStatus (trace_of r) = [] /\
          forallb (fun c => negb (is_sceKernelDelayThread c)) (calls (trace_of r))
          = true /\
          outcome_of r = Spin) /\
    (forall semHandle pTimeout,
        let r := run h (pte_osSemaphoreCancellablePend fuel semHandle pTimeout)
                   m s in
        answers on_pteTlsGetValue (trace_of r) = [NULL] ->
        answers on_sceKernelReferSemaStatus (trace_of r) = [] /\
        forallb (fun c => negb (is_sceKernelDelayThread c)) (calls (trace_of r))
        = true /\
        outcome_of r <> Returned PTE_OS_INTERRUPTED /\
        outcome_of r <> Returned PTE_OS_GENERAL_FAILURE).
Proof.
  intros S h s m fuel. split; [|split].
  - intros th r Hnull. subst r.
    destruct (pte_osThreadWaitForEnd_run h fuel th m s)
      as (self & name & scanned & p & pre & s1 & Hc & Hpre & Hs1 & Hp & Hrun).
    rewrite Hrun in *. cbv zeta in *. simpl in Hnull |- *.
    destruct (pte_osThreadWaitForEnd_null_loop h fuel th m s1)
      as (Hm & n & Hn & Hcalls & Hcase).
    cbv zeta in *.
    assert (p = NULL).
    { rewrite answers_app, Hp in Hnull.
      rewrite (trace_of_run h) in Hnull.
      destruct (answers on_pteTlsGetValue _) in Hnull; simpl in Hnull.
      - injection Hnull as ->. reflexivity.
      - injection Hnull as -> ?. reflexivity. }
    subst p.
    exists self, name, scanned, n. split; [assumption|].
    assert (Hall : calls (pre ++ trace_of (run h (while1 fuel
                      (pte_osThreadWaitForEnd_iter NULL th)) m s1))
                   = sceKernelGetThreadId :: lookup_calls self name scanned m
                     ++ repeat (sceKernelReferThreadRunStatus th) n).
    { rewrite calls_app, Hc, Hcalls. reflexivity. }
    split; [exact Hall|]. split; [|split].
    + rewrite answers_app, Hpre. rewrite (trace_of_run h _ m s1), Hcalls.
      rewrite !(answers_replay_nil h on_sceKernelReferSemaStatus
                  is_sceKernelReferSemaStatus);
        first [ apply on_sceKernelReferSemaStatus_none
              | apply forallb_repeat; reflexivity
              | reflexivity ].
    + rewrite Hall. simpl. apply forallb_repeat. reflexivity.
    + split; [|split].
      * destruct Hcase as [(Ho & _)|(Ho & _)]; rewrite Ho; discriminate.
      * destruct Hcase as [(Ho & _)|(Ho & _)]; rewrite Ho; discriminate.
      * assert (Hrs : answers on_sceKernelReferThreadRunStatus pre = []).
        { rewrite Hpre. reflexivity. }
        rewrite answers_app, Hrs. simpl. exact Hcase.
  - intros semHandle r Hnull Hfail. subst r.
    destruct (pte_osSemaphoreCancellablePend_run h fuel semHandle None m s)
      as (self & name & scanned & p & start & pre & s1 & Hc & Hpre & Hs1 & Hp
          & Hstart & Hrun).
    rewrite Hrun in *. cbv zeta in *. simpl in Hnull, Hfail |- *.
    assert (p = NULL).
    { rewrite answers_app, Hp in Hnull. simpl in Hnull.
      injection Hnull as ->. reflexivity. }
    subst p.
    assert (Hw : answers on_sceKernelWaitSema pre = []).
    { rewrite Hpre. reflexivity. }
    rewrite answers_app, Hw in Hfail. simpl in Hfail.
    destruct (pte_osSemaphoreCancellablePend_null_loop h fuel semHandle start m s1
                Hfail) as (Hm & Ho & Hcalls).
    exists self, name, scanned.
    assert (Hall : calls (pre ++ trace_of (run h (while1 fuel
                      (pte_osSemaphoreCancellablePend_iter NULL semHandle start
                         0 false)) m s1))
                   = sceKernelGetThreadId :: lookup_calls self name scanned m
                     ++ clock :: repeat (sceKernelWaitSema semHandle 1 (Some 0)) fuel).
    { rewrite calls_app, Hc, Hcalls. simpl. reflexivity. }
    split; [exact Hall|]. split; [|split].
    + rewrite answers_app, Hpre. rewrite (trace_of_run h _ m s1), Hcalls.
      rewrite !(answers_replay_nil h on_sceKernelReferSemaStatus
                  is_sceKernelReferSemaStatus);
        first [ apply on_sceKernelReferSemaStatus_none
              | apply forallb_repeat; reflexivity
              | reflexivity ].
    + rewrite Hall. simpl. apply forallb_repeat. reflexivity.
    + exact Ho.
  - intros semHandle pTimeout r Hnull. subst r.
    destruct (pte_osSemaphoreCancellablePend_run h fuel semHandle pTimeout m s)
      as (self & name & scanned & p & start & pre & s1 & Hc & Hpre & Hs1 & Hp
          & Hstart & Hrun).
    rewrite Hrun in *. cbv zeta in *. simpl in Hnull |- *.
    assert (p = NULL).
    { rewrite answers_app, Hp in Hnull. simpl in Hnull.
      injection Hnull as ->. reflexivity. }
    subst p.
    match goal with
    | |- context [while1 fuel (pte_osSemaphoreCancellablePend_iter NULL semHandle
                                  start ?t ?e)] =>
        destruct (pte_osSemaphoreCancellablePend_null_rounds h fuel semHandle
                    start t e m s1) as [Hcalls Ho];
        set (loop := run h (while1 fuel (pte_osSemaphoreCancellablePend_iter NULL
                                           semHandle start t e)) m s1) in *
    end.
    cbv zeta in Hcalls, Ho.
    assert (Hall : forallb no_poll (calls (pre ++ trace_of loop)) = true).
    { rewrite calls_app, forallb_app, Hc, Hcalls. reflexivity. }
    assert (Hsub : forall f : kcall -> bool,
               (forall c, no_poll c = true -> f c = true) ->
               forallb f (calls (pre ++ trace_of loop)) = true).
    { intros f Hf. apply forallb_forall. intros c Hin.
      rewrite forallb_forall in Hall. auto. }
    split; [|split; [|split]].
    + pose proof (trace_of_run h (pte_osSemaphoreCancellablePend fuel semHandle
                                    pTimeout) m s) as Htr.
      rewrite Hrun in Htr. cbn [trace_of] in Htr. rewrite Htr.
      apply (answers_replay_nil h on_sceKernelReferSemaStatus
               is_sceKernelReferSemaStatus);
        [apply on_sceKernelReferSemaStatus_none|].
      apply Hsub. intros c Hc'. unfold no_poll in Hc'.
      apply andb_true_iff in Hc' as [H1 _]. exact H1.
    + apply Hsub. intros c Hc'. unfold no_poll in Hc'.
      apply andb_true_iff in Hc' as [_ H2]. exact H2.
    + destruct Ho as [Ho|[Ho|Ho]]; rewrite Ho; discriminate.
    + destruct Ho as [Ho|[Ho|Ho]]; rewrite Ho; discriminate.
Qed.

(** A PSP with too little heap for the ambient TLS table: [pte_osInit]
    succeeds and the ambient thread has no control block.  Its wait for a
    running thread is still probing after four rounds, with no query and
    no sleep; its wait for a stopped thread returns [PTE_OS_OK] at the
    first probe; and its untimed pend on an empty semaphore is still
    probing after four rounds. *)
Lemma null_control_block_waits_spin_witness :
  let w0 := Psp.set_threads (insert 7 (Psp.mkThread "worker" PSP_THREAD_STOPPED))
              (Psp.boot 2 20) in
  let i0 := run Psp.kernel pte_osInit initial_memory w0 in
  let ra := run Psp.kernel (pte_osThreadWaitForEnd 4 1) (memory_of i0) (kernel_of i0) in
  let rb := run Psp.kernel (pte_osThreadWaitForEnd 4 7) (memory_of i0) (kernel_of i0) in
  let r0 := run Psp.kernel pte_osInit initial_memory (Psp.boot 2 20) in
  let r1 := run Psp.kernel (pte_osSemaphoreCreate 0) (memory_of r0) (kernel_of r0) in
  let r := run Psp.kernel (pte_osSemaphoreCancellablePend 4 3 None)
             (memory_of r1) (kernel_of r1) in
  (outcome_of i0 = Returned PTE_OS_OK /\
   answers on_pteTlsGetValue (trace_of ra) = [NULL] /\
   outcome_of ra = Spin /\
   answers on_sceKernelReferThreadRunStatus (trace_of ra)
   = repeat (SCE_KERNEL_ERROR_OK, PSP_THREAD_READY) 4 /\
   answers on_sceKernelReferSemaStatus (trace_of ra) = [] /\
   forallb (fun c => negb (is_sceKernelDelayThread c)) (calls (trace_of ra)) = true) /\
  (answers on_pteTlsGetValue (trace_of rb) = [NULL] /\
   outcome_of rb = Returned PTE_OS_OK /\
   answers on_sceKernelReferThreadRunStatus (trace_of rb)
   = [(SCE_KERNEL_ERROR_OK, PSP_THREAD_STOPPED)] /\
   answers on_sceKernelReferSemaStatus (trace_of rb) = [] /\
   forallb (fun c => negb (is_sceKernelDelayThread c)) (calls (trace_of rb)) = true) /\
  (answers on_pteTlsGetValue (trace_of r) = [NULL] /\
   Forall (fun status => status <> SCE_KERNEL_ERROR_OK)
     (answers on_sceKernelWaitSema (trace_of r)) /\
   outcome_of r = Spin).
Proof.
  set (w0 := Psp.set_threads (insert 7 (Psp.mkThread "worker" PSP_THREAD_STOPPED))
               (Psp.boot 2 20)).
  set (i0 := run Psp.kernel pte_osInit initial_memory w0).
  set (r0 := run Psp.kernel pte_osInit initial_memory (Psp.boot 2 20)).
  set (r1 := run Psp.kernel (pte_osSemaphoreCreate 0) (memory_of r0) (kernel_of r0)).
  cbv zeta.
  pose proof (null_control_block_waits_spin Psp.world Psp.kernel
                (kernel_of i0) (memory_of i0) 4) as Hi.
  pose proof (null_control_block_waits_spin Psp.world Psp.kernel
                (kernel_of r1) (memory_of r1) 4) as Hr.
  cbv zeta in Hi, Hr.
  destruct Hi as (Hwait & _ & _). destruct Hr as (_ & Hpend & _).
  split; [|split].
  - assert (Ha : answers on_pteTlsGetValue
                   (trace_of (run Psp.kernel (pte_osThreadWaitForEnd 4 1)
                                (memory_of i0) (kernel_of i0))) = [NULL])
      by (vm_compute; reflexivity).
    destruct (Hwait 1 Ha)
      as (self & name & scanned & n & _ & _ & Hq & Hd & _ & _ & _).
    split; [vm_compute; reflexivity|]. split; [exact Ha|].
    split; [vm_compute; reflexivity|]. split; [vm_compute; reflexivity|].
    split; [exact Hq | exact Hd].
  - assert (Hb : answers on_pteTlsGetValue
                   (trace_of (run Psp.kernel (pte_osThreadWaitForEnd 4 7)
                                (memory_of i0) (kernel_of i0))) = [NULL])
      by (vm_compute; reflexivity).
    destruct (Hwait 7 Hb)
      as (self & name & scanned & n & _ & _ & Hq & Hd & _ & _ & _).
    split; [exact Hb|].
    split; [vm_compute; reflexivity|]. split; [vm_compute; reflexivity|].
    split; [exact Hq | exact Hd].
  - assert (H1 : answers on_pteTlsGetValue
                   (trace_of (run Psp.kernel (pte_osSemaphoreCancellablePend 4 3 None)
                                (memory_of r1) (kernel_of r1))) = [NULL])
      by (vm_compute; reflexivity).
    assert (H2 : Forall (fun status => status <> SCE_KERNEL_ERROR_OK)
                   (answers on_sceKernelWaitSema
                      (trace_of (run Psp.kernel
                                   (pte_osSemaphoreCancellablePend 4 3 None)
                                   (memory_of r1) (kernel_of r1))))).
    { vm_compute. repeat (constructor; [discriminate|]). constructor. }
    split; [exact H1|]. split; [exact H2|].
    destruct (Hpend 3 H1 H2) as (self & name & scanned & _ & _ & _ & Ho).
    exact Ho.
Defined.

(** ** The rounds of the cancellable pend *)

(** C1, amended: [pte_osSemaphoreCancellablePend] looks up the caller's
    control block, reads the clock once, and loops.  For a caller whose
    control block is found and holds the semaphore [sem], a round first
    probes the target with a zero timeout and breaks with [PTE_OS_OK] if
    that succeeds; otherwise, if a timeout was requested, reads the clock
    and breaks with [PTE_OS_TIMEOUT] if the time since the start exceeds
    it; otherwise queries the caller's cancellation semaphore and breaks
    with [PTE_OS_GENERAL_FAILURE] if the query fails and with
    [PTE_OS_INTERRUPTED] if the count is positive; otherwise sleeps for the
    polling delay and goes round again. *)
Theorem pte_osSemaphoreCancellablePend_round :
  forall (S : Type) (h : handler S) (m : memory) (semHandle : Z),
    (forall (s : S) (fuel : nat) (pTimeout : option Z),
        exists pThreadData start_time pre s1,
          answers on_pteTlsGetValue pre = [pThreadData] /\
          answers on_clock pre = [start_time] /\
          answers on_sceKernelWaitSema pre = [] /\
          run h (pte_osSemaphoreCancellablePend fuel semHandle pTimeout) m s
          = let r := run h (while1 fuel
                              (pte_osSemaphoreCancellablePend_iter pThreadData
                                 semHandle start_time
                                 (match pTimeout with
                                  | None => 0
                                  | Some ms => to_uint32 (ms * 1000)
                                  end)
                                 (match pTimeout with
                                  | None => false
                                  | Some _ => true
                                  end))) m s1 in
            Result (outcome_of r) (memory_of r) (kernel_of r) (pre ++ trace_of r)) /\
    (forall (s : S) (pThreadData sem start_time timeout : Z)
            (timeoutEnabled : bool),
        pThreadData <> NULL ->
        cancelSem_at m pThreadData = Some sem ->
        let r := run h (pte_osSemaphoreCancellablePend_iter pThreadData semHandle
                          start_time timeout timeoutEnabled) m s in
        exists status now semInfo,
          answers on_sceKernelWaitSema (trace_of r) = [status] /\
          (forall x, In x (answers on_clock (trace_of r)) -> x = now) /\
          (forall x, In x (answers on_sceKernelReferSemaStatus (trace_of r)) ->
                     x = semInfo) /\
          memory_of r = m /\
          outcome_of r =
            Returned (fst (pend_round semHandle start_time timeout timeoutEnabled
                             sem status now semInfo)) /\
          calls (trace_of r) =
            snd (pend_round semHandle start_time timeout timeoutEnabled
                   sem status now semInfo)).
Proof.
  intros S h m semHandle. split.
  { intros s fuel pTimeout.
    destruct (pte_osSemaphoreCancellablePend_run h fuel semHandle pTimeout m s)
      as (self & name & scanned & p & start & pre & s1 & _ & Hpre & _ & Hp
          & Hstart & Hrun).
    exists p, start, pre, s1. repeat split; try assumption.
    rewrite Hpre. reflexivity. }
  intros s p sem start_time timeout en Hp Hsem r. subst r.
  apply Z.eqb_neq in Hp.
  rewrite pte_osSemaphoreCancellablePend_iter_run. cbv zeta.
  rewrite !poll_cancel_run, Hp, Hsem. cbv zeta. unfold pend_round.
  destruct (h (sceKernelWaitSema semHandle 1 (Some 0)) s) as [status s1].
  simpl fst. simpl snd.
  exists status.
  destruct (status =? SCE_KERNEL_ERROR_OK) eqn:E0.
  { exists 0, (0, 0). simpl.
    repeat split; intros x Hx; simpl in Hx;
      first [contradiction | destruct Hx as [<-|Hx]; [reflexivity|contradiction]]. }
  destruct en.
  - destruct (h clock s1) as [now s2]. simpl fst. simpl snd. exists now.
    destruct (elapsed_exceeds now start_time timeout).
    { exists (0, 0). simpl.
      repeat split; intros x Hx; simpl in Hx;
      first [contradiction | destruct Hx as [<-|Hx]; [reflexivity|contradiction]]. }
    destruct (h (sceKernelReferSemaStatus sem) s2) as [[st cnt] s3].
    simpl fst. simpl snd. exists (st, cnt). simpl.
    destruct (st =? SCE_KERNEL_ERROR_OK); [destruct (cnt >? 0)|]; simpl;
      repeat split; intros x Hx; simpl in Hx;
      first [contradiction | destruct Hx as [<-|Hx]; [reflexivity|contradiction]].
  - exists 0.
    destruct (h (sceKernelReferSemaStatus sem) s1) as [[st cnt] s3].
    simpl fst. simpl snd. exists (st, cnt). simpl.
    destruct (st =? SCE_KERNEL_ERROR_OK); [destruct (cnt >? 0)|]; simpl;
      repeat split; intros x Hx; simpl in Hx;
      first [contradiction | destruct Hx as [<-|Hx]; [reflexivity|contradiction]].
Qed.

(** After [pte_osInit] on a roomy PSP a round on a semaphore that does
    not exist finds no cancellation pending and sleeps. *)
Lemma pte_osSemaphoreCancellablePend_round_witness :
  let r0 := run Psp.kernel pte_osInit initial_memory (Psp.boot 8 4096) in
  let r := run Psp.kernel
             (pte_osSemaphoreCancellablePend_iter 0x08900080 7 0 0 false)
             (memory_of r0) (kernel_of r0) in
  0x08900080 <> NULL /\
  cancelSem_at (memory_of r0) 0x08900080 = Some 2 /\
  exists status now semInfo,
    answers on_sceKernelWaitSema (trace_of r) = [status] /\
    (forall x, In x (answers on_clock (trace_of r)) -> x = now) /\
    (forall x, In x (answers on_sceKernelReferSemaStatus (trace_of r)) ->
               x = semInfo) /\
    memory_of r = memory_of r0 /\
    outcome_of r = Returned (fst (pend_round 7 0 0 false 2 status now semInfo)) /\
    calls (trace_of r) = snd (pend_round 7 0 0 false 2 status now semInfo).
Proof.
  split; [discriminate |]. split; [vm_compute; reflexivity |].
  apply (proj2 (pte_osSemaphoreCancellablePend_round Psp.world Psp.kernel
                  (memory_of (run Psp.kernel pte_osInit initial_memory
                                (Psp.boot 8 4096)))
                  7)
           (kernel_of (run Psp.kernel pte_osInit initial_memory (Psp.boot 8 4096)))
           0x08900080 2 0 0 false).
  - discriminate.
  - vm_compute; reflexivity.
Defined.

(** C1, as stated, fails.  On a PSP with no kernel object left
    [pte_osInit] succeeds with the kernel's error code in the ambient
    control block; a pend by that thread then has nothing to acquire, no
    timeout and no cancellation pending, and yet it does not sleep and go
    round: the query of the cancellation semaphore fails and the call
    returns [PTE_OS_GENERAL_FAILURE].  And where the control block is not
    found (the TLS table of the ambient thread could not be allocated),
    the rounds neither query nor sleep. *)
Lemma pend_round_as_claimed_fails :
  (let r0 := run Psp.kernel pte_osInit initial_memory (Psp.boot 0 4096) in
   let m := memory_of r0 in
   let w := kernel_of r0 in
   let sem := to_int32 SCE_KERNEL_ERROR_NO_MEMORY in
   let status := to_int32 SCE_KERNEL_ERROR_UNKNOWN_SEMID in
   let r := run Psp.kernel
              (pte_osSemaphoreCancellablePend_iter 0x08900080 7 0 0 false) m w in
   outcome_of r0 = Returned PTE_OS_OK /\
   cancelSem_at m 0x08900080 = Some sem /\
   Psp.semas w !! sem = None /\
   answers on_sceKernelWaitSema (trace_of r) = [status] /\
   pend_round_as_claimed 7 0 0 false sem status 0 false
   = (None, [sceKernelWaitSema 7 1 (Some 0); sceKernelReferSemaStatus sem;
             sceKernelDelayThread POLLING_DELAY_IN_us]) /\
   outcome_of r = Returned (Some PTE_OS_GENERAL_FAILURE) /\
   calls (trace_of r)
   = [sceKernelWaitSema 7 1 (Some 0); sceKernelReferSemaStatus sem] /\
   outcome_of (run Psp.kernel (pte_osSemaphoreCancellablePend 5 7 None) m w)
   = Returned PTE_OS_GENERAL_FAILURE) /\
  (let r0 := run Psp.kernel pte_osInit initial_memory (Psp.boot 2 20) in
   let r1 := run Psp.kernel (pte_osSemaphoreCreate 0) (memory_of r0) (kernel_of r0) in
   let r := run Psp.kernel (pte_osSemaphoreCancellablePend 3 3 None)
              (memory_of r1) (kernel_of r1) in
   outcome_of r0 = Returned PTE_OS_OK /\
   outcome_of r1 = Returned (PTE_OS_OK, 3) /\
   answers on_pteTlsGetValue (trace_of r) = [NULL] /\
   outcome_of r = Spin /\
   calls (trace_of r)
   = [sceKernelGetThreadId; sceKernelReferThreadStatus 1;
      sscanf "user_main" "pthread%04d__%x"; pteTlsGetValue 0 0; clock;
      sceKernelWaitSema 3 1 (Some 0); sceKernelWaitSema 3 1 (Some 0);
      sceKernelWaitSema 3 1 (Some 0)]).
Proof.
  split; repeat split; vm_compute; reflexivity.
Qed.

(** ** The cancellation signal is only looked at *)

Section OnlyPolls.
Context {S : Type} (h : handler S) (semHandle : Z).

Lemma while1_polls {R : Type} (body : prog (option R)) :
  (forall m s, forallb (polls semHandle) (calls (trace_of (run h body m s))) = true) ->
  forall fuel m s,
    forallb (polls semHandle) (calls (trace_of (run h (while1 fuel body) m s)))
    = true.
Proof.
  intros Hbody. induction fuel as [|fuel IH]; intros m s; [reflexivity|].
  rewrite run_while1_succ. cbv zeta.
  specialize (Hbody m s).
  destruct (outcome_of (run h body m s)) as [[v|]| |]; simpl; try assumption.
  rewrite calls_app, forallb_app, Hbody. simpl. apply IH.
Qed.

Lemma pte_osThreadWaitForEnd_iter_polls pThreadData threadHandle m s :
  forallb (polls semHandle)
    (calls (trace_of (run h (pte_osThreadWaitForEnd_iter pThreadData threadHandle)
                        m s))) = true.
Proof.
  rewrite pte_osThreadWaitForEnd_iter_run. cbv zeta.
  destruct (snd (fst (h (sceKernelReferThreadRunStatus threadHandle) s))
            =? PSP_THREAD_STOPPED); simpl; [reflexivity|].
  apply poll_cancel_polls.
Qed.

Lemma pte_osSemaphoreCancellablePend_iter_polls pThreadData start_time timeout
  (timeoutEnabled : bool) m s :
  forallb (polls semHandle)
    (calls (trace_of (run h (pte_osSemaphoreCancellablePend_iter pThreadData
                               semHandle start_time timeout timeoutEnabled) m s)))
  = true.
Proof.
  rewrite pte_osSemaphoreCancellablePend_iter_run. cbv zeta.
  destruct (fst (h (sceKernelWaitSema semHandle 1 (Some 0)) s)
            =? SCE_KERNEL_ERROR_OK); simpl; rewrite ?Z.eqb_refl; [reflexivity|].
  destruct timeoutEnabled; simpl; rewrite ?Z.eqb_refl; simpl.
  - destruct (elapsed_exceeds _ start_time timeout); simpl;
      rewrite ?Z.eqb_refl; simpl; [reflexivity|].
    apply poll_cancel_polls.
  - apply poll_cancel_polls.
Qed.

Lemma pte_osThreadCheckCancel_polls thid m s :
  forallb (polls semHandle)
    (calls (trace_of (run h (pte_osThreadCheckCancel thid) m s))) = true.
Proof.
  destruct (pte_osThreadCheckCancel_run h thid m s)
    as (name & scanned & p & _ & _ & Hcase).
  destruct (p =? NULL).
  - destruct Hcase as [-> _]. reflexivity.
  - destruct (cancelSem_at m p).
    + destruct Hcase as (semInfo & -> & _). reflexivity.
    + destruct Hcase as [-> _]. reflexivity.
Qed.

Lemma pte_osThreadWaitForEnd_polls fuel threadHandle m s :
  forallb (polls semHandle)
    (calls (trace_of (run h (pte_osThreadWaitForEnd fuel threadHandle) m s)))
  = true.
Proof.
  destruct (pte_osThreadWaitForEnd_run h fuel threadHandle m s)
    as (self & name & scanned & p & pre & s1 & Hc & _ & _ & _ & Hrun).
  rewrite Hrun. cbv zeta. simpl.
  rewrite calls_app, forallb_app, Hc. simpl.
  apply while1_polls. intros m0 s0. apply pte_osThreadWaitForEnd_iter_polls.
Qed.

Lemma pte_osSemaphoreCancellablePend_polls fuel pTimeout m s :
  forallb (polls semHandle)
    (calls (trace_of (run h (pte_osSemaphoreCancellablePend fuel semHandle
                               pTimeout) m s))) = true.
Proof.
  destruct (pte_osSemaphoreCancellablePend_run h fuel semHandle pTimeout m s)
    as (self & name & scanned & p & start & pre & s1 & Hc & _ & _ & _ & _ & Hrun).
  rewrite Hrun. cbv zeta. simpl.
  rewrite calls_app, forallb_app, Hc. simpl.
  apply while1_polls. intros m0 s0.
  apply pte_osSemaphoreCancellablePend_iter_polls.
Qed.

End OnlyPolls.

Lemma polls_consumes (semHandle sem : Z) (c : kcall) :
  sem <> semHandle -> polls semHandle c = true ->
  consumes sem c = false /\ is_sceKernelSignalSema c = false.
Proof.
  intros Hne. destruct c; simpl; try discriminate; try (split; reflexivity).
  destruct timeout; [|discriminate].
  intros H. apply Z.eqb_eq in H. subst. split; [|reflexivity].
  apply Z.eqb_neq. congruence.
Qed.

(** ** A pending cancellation stays pending *)

Section Sticky.
Context {S : Type} (h : handler S) (I : S -> Prop).
Context (semHandle sem pThreadData self : Z) (m : memory).

(** [I] describes the kernel states in which the cancellation of the
    thread [self] is pending: the calls of a poll keep it, the status
    query of the thread's semaphore answers a positive count there, and
    the thread's control block is found. *)
Hypothesis Hkeep :
  forall c s, polls semHandle c = true -> I s -> I (snd (h c s)).
Hypothesis Hcount :
  forall s, I s ->
    fst (fst (h (sceKernelReferSemaStatus sem) s)) = SCE_KERNEL_ERROR_OK /\
    0 < snd (fst (h (sceKernelReferSemaStatus sem) s)).
Hypothesis Hself : forall s, I s -> fst (h sceKernelGetThreadId s) = self.
Hypothesis Hlookup :
  forall s, I s -> outcome_of (run h (getThreadData self) m s) = Returned pThreadData.
Hypothesis Hblock : pThreadData <> NULL.
Hypothesis Hsem : cancelSem_at m pThreadData = Some sem.

Lemma pending_after cs s :
  forallb (polls semHandle) cs = true -> I s -> I (after h cs s).
Proof.
  revert s. induction cs as [|c cs IH]; intros s; simpl; [auto|].
  intros Hall Hs. apply andb_true_iff in Hall as [Hc Hcs]. auto.
Qed.

Lemma pending_lookup s :
  I s ->
  let r := run h (getThreadData self) m s in
  outcome_of r = Returned pThreadData /\ memory_of r = m /\ I (kernel_of r) /\
  calls (trace_of r)
  = calls (replay h (calls (trace_of r)) s) /\
  forallb (polls semHandle) (calls (trace_of r)) = true.
Proof.
  intros Hs r. subst r.
  destruct (getThreadData_run h self m s)
    as (name & scanned & p & Hc & _ & _ & Hm & _).
  cbv zeta in *. repeat split.
  - apply Hlookup. assumption.
  - assumption.
  - rewrite kernel_of_run, Hc. apply pending_after; [reflexivity|assumption].
  - rewrite <- trace_of_run. reflexivity.
  - rewrite Hc. reflexivity.
Qed.

Lemma pending_poll_cancel s :
  I s ->
  run h (poll_cancel pThreadData) m s
  = Result (Returned (Some PTE_OS_INTERRUPTED)) m
      (snd (h (sceKernelReferSemaStatus sem) s))
      [Ev (sceKernelReferSemaStatus sem) (fst (h (sceKernelReferSemaStatus sem) s))].
Proof.
  intros Hs. rewrite poll_cancel_run.
  apply Z.eqb_neq in Hblock. rewrite Hblock, Hsem. cbv zeta.
  destruct (Hcount s Hs) as [-> Hpos].
  apply Z.gtb_lt in Hpos. rewrite Hpos. reflexivity.
Qed.

Lemma pending_CheckCancel s :
  I s ->
  let r := run h (pte_osThreadCheckCancel self) m s in
  outcome_of r = Returned PTE_OS_INTERRUPTED /\ memory_of r = m /\ I (kernel_of r).
Proof.
  intros Hs. cbv zeta. unfold pte_osThreadCheckCancel. rewrite run_bind. cbv zeta.
  destruct (pending_lookup s Hs) as (Ho & Hm & HI & _). cbv zeta in *.
  rewrite Ho, Hm.
  set (s1 := kernel_of (run h (getThreadData self) m s)) in *.
  apply Z.eqb_neq in Hblock. rewrite Hblock.
  unfold load_cancelSem. unfold cancelSem_at in Hsem. simpl.
  destruct (heap m !! pThreadData) as [d|]; [|discriminate].
  rewrite Hsem. simpl.
  destruct (Hcount s1 HI) as [H0 Hpos]. apply Z.gtb_lt in Hpos.
  assert (Hs2 : I (snd (h (sceKernelReferSemaStatus sem) s1))).
  { apply Hkeep; [reflexivity|assumption]. }
  destruct (h (sceKernelReferSemaStatus sem) s1) as [[st cnt] s2].
  simpl in H0, Hpos, Hs2 |- *. rewrite H0, Hpos. simpl. repeat split.
  assumption.
Qed.

Lemma pending_WaitForEnd fuel threadHandle s :
  I s ->
  let r := run h (pte_osThreadWaitForEnd (Datatypes.S fuel) threadHandle) m s in
  memory_of r = m /\ I (kernel_of r) /\
  exists info,
    answers on_sceKernelReferThreadRunStatus (trace_of r) = [info] /\
    outcome_of r = Returned (if snd info =? PSP_THREAD_STOPPED
                             then PTE_OS_OK else PTE_OS_INTERRUPTED).
Proof.
  intros Hs. cbv zeta. unfold pte_osThreadWaitForEnd.
  rewrite run_call_bind, (Hself s Hs).
  assert (Hs0 : I (snd (h sceKernelGetThreadId s))).
  { apply Hkeep; [reflexivity|assumption]. }
  set (s0 := snd (h sceKernelGetThreadId s)) in *.
  rewrite run_bind. cbv zeta.
  destruct (pending_lookup s0 Hs0) as (Ho & Hm & HI & Htr & _). cbv zeta in *.
  rewrite Ho, Hm.
  assert (Hnone : answers on_sceKernelReferThreadRunStatus
                    (trace_of (run h (getThreadData self) m s0)) = []).
  { destruct (getThreadData_run h self m s0) as (name & scanned & p & Hc & _).
    rewrite (trace_of_run h), Hc. reflexivity. }
  set (s1 := kernel_of (run h (getThreadData self) m s0)) in *.
  rewrite run_while1_succ. cbv zeta.
  rewrite pte_osThreadWaitForEnd_iter_run. cbv zeta.
  assert (Hs2 : I (snd (h (sceKernelReferThreadRunStatus threadHandle) s1))).
  { apply Hkeep; [reflexivity|assumption]. }
  rewrite (pending_poll_cancel _ Hs2).
  destruct (h (sceKernelReferThreadRunStatus threadHandle) s1) as [[st info] s2].
  simpl fst in *. simpl snd in *.
  destruct (info =? PSP_THREAD_STOPPED) eqn:E; simpl.
  - split; [reflexivity|]. split; [assumption|].
    exists (st, info). simpl. rewrite E. split; [|reflexivity].
    change (answers on_sceKernelReferThreadRunStatus
              (trace_of (run h (getThreadData self) m s0)
               ++ [Ev (sceKernelReferThreadRunStatus threadHandle) (st, info)])
            = [(st, info)]).
    rewrite answers_app, Hnone. reflexivity.
  - split; [reflexivity|]. split.
    + apply (Hkeep (sceKernelReferSemaStatus sem)); [reflexivity|assumption].
    + exists (st, info). simpl. rewrite E. split; [|reflexivity].
      change (answers on_sceKernelReferThreadRunStatus
                (trace_of (run h (getThreadData self) m s0)
                 ++ [Ev (sceKernelReferThreadRunStatus threadHandle) (st, info);
                     Ev (sceKernelReferSemaStatus sem)
                       (fst (h (sceKernelReferSemaStatus sem) s2))])
              = [(st, info)]).
      rewrite answers_app, Hnone. reflexivity.
Qed.

Lemma pending_CancellablePend fuel pTimeout s :
  I s ->
  let r := run h (pte_osSemaphoreCancellablePend (Datatypes.S fuel) semHandle
                    pTimeout) m s in
  memory_of r = m /\ I (kernel_of r) /\
  exists status start_time now,
    answers on_sceKernelWaitSema (trace_of r) = [status] /\
    answers on_clock (trace_of r)
    = start_time :: (if negb (status =? SCE_KERNEL_ERROR_OK)
                        && bool_decide (is_Some pTimeout)
                     then [now] else []) /\
    outcome_of r = Returned (pend_status_when_cancelled pTimeout status
                               start_time now).
Proof.
  intros Hs. cbv zeta. unfold pte_osSemaphoreCancellablePend.
  rewrite run_call_bind, (Hself s Hs).
  assert (Hs0 : I (snd (h sceKernelGetThreadId s))).
  { apply Hkeep; [reflexivity|assumption]. }
  set (s0 := snd (h sceKernelGetThreadId s)) in *.
  rewrite run_bind. cbv zeta.
  destruct (pending_lookup s0 Hs0) as (Ho & Hm & HI & Htr & _). cbv zeta in *.
  rewrite Ho, Hm.
  assert (Hnone : answers on_sceKernelWaitSema
                    (trace_of (run h (getThreadData self) m s0)) = [] /\
                  answers on_clock
                    (trace_of (run h (getThreadData self) m s0)) = []).
  { destruct (getThreadData_run h self m s0) as (name & scanned & p & Hc & _).
    rewrite (trace_of_run h), Hc. split; reflexivity. }
  destruct Hnone as [Hnw Hnc].
  set (s1 := kernel_of (run h (getThreadData self) m s0)) in *.
  set (t0 := trace_of (run h (getThreadData self) m s0)) in *.
  rewrite run_call_bind.
  assert (Hs2 : I (snd (h clock s1))).
  { apply Hkeep; [reflexivity|assumption]. }
  destruct (h clock s1) as [start s2]. simpl fst in *. simpl snd in *.
  rewrite run_while1_succ. cbv zeta.
  rewrite pte_osSemaphoreCancellablePend_iter_run. cbv zeta.
  assert (Hs3 : I (snd (h (sceKernelWaitSema semHandle 1 (Some 0)) s2))).
  { apply Hkeep; [simpl; apply Z.eqb_refl|assumption]. }
  destruct (h (sceKernelWaitSema semHandle 1 (Some 0)) s2) as [status s3].
  simpl fst in *. simpl snd in *.
  unfold pend_status_when_cancelled.
  destruct (status =? SCE_KERNEL_ERROR_OK) eqn:E; cbn [negb andb];
    cbn [outcome_of memory_of kernel_of trace_of log].
  { split; [reflexivity|]. split; [assumption|].
    exists status, start, 0. rewrite !answers_cons, !answers_app, Hnw, Hnc, ?E.
    repeat split. }
  destruct pTimeout as [ms|];
    cbn [outcome_of memory_of kernel_of trace_of log].
  - assert (Hs4 : I (snd (h clock s3))).
    { apply Hkeep; [reflexivity|assumption]. }
    destruct (h clock s3) as [now s4]. simpl fst in *. simpl snd in *.
    destruct (elapsed_exceeds now start (to_uint32 (ms * 1000))) eqn:Ex;
      cbn [outcome_of memory_of kernel_of trace_of log].
    + split; [reflexivity|]. split; [assumption|].
      exists status, start, now. rewrite !answers_cons, !answers_app, Hnw, Hnc, ?E, Ex.
      repeat split.
    + rewrite (pending_poll_cancel _ Hs4).
      cbn [outcome_of memory_of kernel_of trace_of log].
      split; [reflexivity|]. split.
      * apply (Hkeep (sceKernelReferSemaStatus sem)); [reflexivity|assumption].
      * exists status, start, now. rewrite !answers_cons, !answers_app, Hnw, Hnc, ?E, Ex.
        repeat split.
  - rewrite (pending_poll_cancel _ Hs3).
    cbn [outcome_of memory_of kernel_of trace_of log].
    split; [reflexivity|]. split.
    + apply (Hkeep (sceKernelReferSemaStatus sem)); [reflexivity|assumption].
    + exists status, start, 0. rewrite !answers_cons, !answers_app, Hnw, Hnc, ?E.
      repeat split.
Qed.

End Sticky.

(** ** The reference kernel keeps a pending cancellation pending *)

Lemma psp_advance_quiet (dt : Z) (w : Psp.world) :
  Psp.script w = [] ->
  Psp.advance dt w = Psp.set_script [] (Psp.set_now (Psp.now w + dt) w).
Proof. intros H. unfold Psp.advance. rewrite H. reflexivity. Qed.

Lemma psp_polls_keep (w0 : Psp.world) (semHandle sem : Z) (c : kcall) (w : Psp.world) :
  sem <> semHandle ->
  polls semHandle c = true ->
  psp_cancel_pending w0 sem w ->
  psp_cancel_pending w0 sem (snd (Psp.kernel c w)).
Proof.
  intros Hne Hc (Hscript & (cnt & mx & Hsem & Hpos) & Ht & Htab & Hcur).
  destruct c; simpl in Hc; try discriminate Hc; simpl.
  - repeat split; eauto.
  - destruct timeout as [t|]; [|discriminate Hc].
    apply Z.eqb_eq in Hc. subst semaid.
    destruct (Psp.semas w !! semHandle) as [sm|] eqn:Hs; simpl;
      [|repeat split; eauto].
    unfold Psp.acquire. rewrite Hs.
    destruct (need <=? Psp.count sm); simpl.
    + repeat split; eauto. exists cnt, mx. split; [|assumption]. simpl.
      rewrite lookup_insert_ne by congruence. assumption.
    + rewrite psp_advance_quiet by assumption. simpl. rewrite Hs.
      destruct (need <=? Psp.count sm); simpl.
      * repeat split; eauto. exists cnt, mx. split; [|assumption]. simpl.
        rewrite lookup_insert_ne by congruence. assumption.
      * repeat split; eauto.
  - destruct (Psp.semas w !! semaid); simpl; repeat split; eauto.
  - destruct (Psp.threads w !! thid); simpl; repeat split; eauto.
  - destruct (Psp.threads w !! thid); simpl; repeat split; eauto.
  - rewrite psp_advance_quiet by assumption. simpl. repeat split; eauto.
  - repeat split; eauto.
  - repeat split; eauto.
  - repeat split; eauto.
Qed.

Lemma psp_pending_count (w0 : Psp.world) (sem : Z) (w : Psp.world) :
  psp_cancel_pending w0 sem w ->
  fst (fst (Psp.kernel (sceKernelReferSemaStatus sem) w)) = SCE_KERNEL_ERROR_OK /\
  0 < snd (fst (Psp.kernel (sceKernelReferSemaStatus sem) w)).
Proof.
  intros (_ & (cnt & mx & Hsem & Hpos) & _). simpl. rewrite Hsem. simpl.
  split; [reflexivity|assumption].
Qed.

Lemma psp_pending_lookup (w0 : Psp.world) (sem thid : Z) (m : memory) (w : Psp.world) :
  psp_cancel_pending w0 sem w ->
  outcome_of (run Psp.kernel (getThreadData thid) m w)
  = outcome_of (run Psp.kernel (getThreadData thid) m w0).
Proof.
  intros (_ & _ & Ht & Htab & _).
  unfold getThreadData, getTlsStructFromThread. simpl. rewrite Ht.
  destruct (Psp.threads w0 !! thid) as [th|]; simpl.
  - destruct (Psp.scan_pthread (Psp.name th)); simpl; rewrite Htab; reflexivity.
  - rewrite Htab. reflexivity.
Qed.

Lemma polls_leave_signal (semHandle sem : Z) (cs : list kcall) :
  sem <> semHandle ->
  forallb (polls semHandle) cs = true ->
  forallb (fun c => negb (consumes sem c) && negb (is_sceKernelSignalSema c)) cs
  = true.
Proof.
  intros Hne Hall. apply forallb_forall. intros c Hc.
  rewrite forallb_forall in Hall. specialize (Hall c Hc).
  destruct (polls_consumes semHandle sem c Hne Hall) as [-> ->]. reflexivity.
Qed.

(** C2, as stated, fails: a pending cancellation does not make every
    cancellable wait report [PTE_OS_INTERRUPTED].  After [pte_osInit] and a
    cancel of the ambient thread, a pend of that thread on a semaphore that
    can be acquired returns [PTE_OS_OK]; the cancellation is still pending
    afterwards, and only then does a check report it. *)
Lemma pending_cancel_does_not_interrupt_ready_wait :
  let r0 := run Psp.kernel pte_osInit initial_memory (Psp.boot 8 4096) in
  let r1 := run Psp.kernel (pte_osThreadCancel 1) (memory_of r0) (kernel_of r0) in
  let r2 := run Psp.kernel (pte_osSemaphoreCreate 1) (memory_of r1) (kernel_of r1) in
  let r3 := run Psp.kernel (pte_osSemaphoreCancellablePend 5 3 None)
              (memory_of r2) (kernel_of r2) in
  let r4 := run Psp.kernel (pte_osThreadCheckCancel 1) (memory_of r3) (kernel_of r3) in
  outcome_of r1 = Returned PTE_OS_OK /\
  outcome_of r2 = Returned (PTE_OS_OK, 3) /\
  Psp.semas (kernel_of r2) !! 2 = Some (Psp.mkSema 1 255) /\
  outcome_of r3 = Returned PTE_OS_OK /\
  outcome_of r3 <> Returned PTE_OS_INTERRUPTED /\
  Psp.semas (kernel_of r3) !! 2 = Some (Psp.mkSema 1 255) /\
  outcome_of r4 = Returned PTE_OS_INTERRUPTED.
Proof.
  repeat split; try (vm_compute; reflexivity).
  vm_compute. discriminate.
Qed.

(** C2, amended: [pte_osThreadCheckCancel], [pte_osThreadWaitForEnd] and
    [pte_osSemaphoreCancellablePend] never take from the caller's
    cancellation semaphore, delete it or signal it: their calls are status
    queries, the clock, the delay and the zero-timeout wait on the target
    semaphore.  Hence, in a kernel where such calls keep a pending
    cancellation pending, a pending cancellation is still pending after
    each of them, every check reports [PTE_OS_INTERRUPTED], a wait for a
    thread's end reports [PTE_OS_INTERRUPTED] unless its first probe finds
    the thread stopped ([PTE_OS_OK]), and a cancellable pend reports
    [PTE_OS_INTERRUPTED] unless its first probe acquires the semaphore
    ([PTE_OS_OK]) or its timeout has elapsed by then ([PTE_OS_TIMEOUT]). *)
Theorem cancellation_is_observed_not_consumed :
  forall (S : Type) (h : handler S) (m : memory) (semHandle sem : Z),
    (sem <> semHandle ->
     forall (s : S) (fuel : nat) (thid : Z) (pTimeout : option Z),
       let quiet := fun c => negb (consumes sem c)
                             && negb (is_sceKernelSignalSema c) in
       forallb quiet
         (calls (trace_of (run h (pte_osThreadCheckCancel thid) m s))) = true /\
       forallb quiet
         (calls (trace_of (run h (pte_osThreadWaitForEnd fuel thid) m s))) = true /\
       forallb quiet
         (calls (trace_of (run h (pte_osSemaphoreCancellablePend fuel semHandle
                                    pTimeout) m s))) = true) /\
    (forall (I : S -> Prop) (pThreadData self : Z),
        (forall c s, polls semHandle c = true -> I s -> I (snd (h c s))) ->
        (forall s, I s ->
           fst (fst (h (sceKernelReferSemaStatus sem) s)) = SCE_KERNEL_ERROR_OK /\
           0 < snd (fst (h (sceKernelReferSemaStatus sem) s))) ->
        (forall s, I s -> fst (h sceKernelGetThreadId s) = self) ->
        (forall s, I s ->
           outcome_of (run h (getThreadData self) m s) = Returned pThreadData) ->
        pThreadData <> NULL ->
        cancelSem_at m pThreadData = Some sem ->
        forall s, I s ->
          (let r := run h (pte_osThreadCheckCancel self) m s in
           outcome_of r = Returned PTE_OS_INTERRUPTED /\
           memory_of r = m /\ I (kernel_of r)) /\
          (forall fuel threadHandle,
              let r := run h (pte_osThreadWaitForEnd (Datatypes.S fuel)
                                threadHandle) m s in
              memory_of r = m /\ I (kernel_of r) /\
              exists info,
                answers on_sceKernelReferThreadRunStatus (trace_of r) = [info] /\
                outcome_of r = Returned (if snd info =? PSP_THREAD_STOPPED
                                         then PTE_OS_OK else PTE_OS_INTERRUPTED)) /\
          (forall fuel pTimeout,
              let r := run h (pte_osSemaphoreCancellablePend (Datatypes.S fuel)
                                semHandle pTimeout) m s in
              memory_of r = m /\ I (kernel_of r) /\
              exists status start_time now,
                answers on_sceKernelWaitSema (trace_of r) = [status] /\
                answers on_clock (trace_of r)
                = start_time :: (if negb (status =? SCE_KERNEL_ERROR_OK)
                                    && bool_decide (is_Some pTimeout)
                                 then [now] else []) /\
                outcome_of r = Returned (pend_status_when_cancelled pTimeout
                                           status start_time now))).
Proof.
  intros S h m semHandle sem. split.
  - intros Hne s fuel thid pTimeout quiet. subst quiet. repeat split.
    + apply (polls_leave_signal semHandle); [assumption|].
      apply pte_osThreadCheckCancel_polls.
    + apply (polls_leave_signal semHandle); [assumption|].
      apply pte_osThreadWaitForEnd_polls.
    + apply (polls_leave_signal semHandle); [assumption|].
      apply pte_osSemaphoreCancellablePend_polls.
  - intros I p self Hkeep Hcount Hself Hlookup Hp Hsem s Hs. split; [|split].
    + apply (pending_CheckCancel h I semHandle sem p self m); assumption.
    + intros fuel th.
      apply (pending_WaitForEnd h I semHandle sem p self m); assumption.
    + intros fuel pTimeout.
      apply (pending_CancellablePend h I semHandle sem p self m); assumption.
Qed.

(** On the reference kernel, after [pte_osInit] and a cancel of the
    ambient thread, the cancellation is pending and a check reports it. *)
Lemma cancellation_is_observed_not_consumed_witness :
  let r0 := run Psp.kernel pte_osInit initial_memory (Psp.boot 8 4096) in
  let r1 := run Psp.kernel (pte_osThreadCancel 1) (memory_of r0) (kernel_of r0) in
  psp_cancel_pending (kernel_of r1) 2 (kernel_of r1) /\
  outcome_of (run Psp.kernel (pte_osThreadCheckCancel 1) (memory_of r1) (kernel_of r1))
  = Returned PTE_OS_INTERRUPTED.
Proof.
  set (r0 := run Psp.kernel pte_osInit initial_memory (Psp.boot 8 4096)).
  set (r1 := run Psp.kernel (pte_osThreadCancel 1) (memory_of r0) (kernel_of r0)).
  cbv zeta.
  assert (Hpend : psp_cancel_pending (kernel_of r1) 2 (kernel_of r1)).
  { repeat split; try reflexivity. exists 1, 255. split; [reflexivity | lia]. }
  split; [exact Hpend |].
  assert (Hne : 2 <> 7) by discriminate.
  assert (Hself : forall w, psp_cancel_pending (kernel_of r1) 2 w ->
                            fst (Psp.kernel sceKernelGetThreadId w) = 1).
  { intros w (_ & _ & _ & _ & Hcur). simpl. rewrite Hcur. reflexivity. }
  assert (Hlookup : forall w, psp_cancel_pending (kernel_of r1) 2 w ->
                      outcome_of (run Psp.kernel (getThreadData 1) (memory_of r1) w)
                      = Returned 0x08900080).
  { intros w Hw.
    rewrite (psp_pending_lookup (kernel_of r1) 2 1 (memory_of r1) w Hw).
    vm_compute. reflexivity. }
  assert (Hp : 0x08900080 <> NULL) by discriminate.
  assert (Hsem : cancelSem_at (memory_of r1) 0x08900080 = Some 2).
  { vm_compute. reflexivity. }
  destruct (proj2 (cancellation_is_observed_not_consumed Psp.world Psp.kernel
                     (memory_of r1) 7 2)
              (psp_cancel_pending (kernel_of r1) 2) 0x08900080 1
              (fun c w Hc Hw => psp_polls_keep (kernel_of r1) 7 2 c w Hne Hc Hw)
              (psp_pending_count (kernel_of r1) 2)
              Hself Hlookup Hp Hsem (kernel_of r1) Hpend) as [(Ho & _) _].
  exact Ho.
Defined.

(** ** Thread names: what is printed is what is scanned *)

Lemma small_digit (P : Z -> Prop) :
  P 0 -> P 1 -> P 2 -> P 3 -> P 4 -> P 5 -> P 6 -> P 7 -> P 8 -> P 9 ->
  P 10 -> P 11 -> P 12 -> P 13 -> P 14 -> P 15 ->
  forall d, 0 <= d < 16 -> P d.
Proof.
  intros. assert (Hd : d = 0 \/ d = 1 \/ d = 2 \/ d = 3 \/ d = 4 \/ d = 5 \/
                       d = 6 \/ d = 7 \/ d = 8 \/ d = 9 \/ d = 10 \/ d = 11 \/
                       d = 12 \/ d = 13 \/ d = 14 \/ d = 15) by lia.
  repeat (destruct Hd as [->|Hd]; [assumption|]). subst. assumption.
Qed.

Lemma digit_val_16 (d : Z) :
  0 <= d < 16 -> Psp.digit_val 16 (digit_char d) = Some d.
Proof. revert d. apply small_digit; vm_compute; reflexivity. Qed.

Lemma digit_val_char (base d : Z) :
  0 <= d < base -> base <= 16 -> Psp.digit_val base (digit_char d) = Some d.
Proof.
  intros Hd Hb. assert (H16 : Psp.digit_val 16 (digit_char d) = Some d).
  { apply digit_val_16. lia. }
  revert H16. unfold Psp.digit_val. cbv zeta.
  match goal with
  | |- (if ?x <? 16 then _ else _) = _ -> _ => generalize x
  end.
  intros v H. destruct (v <? 16); [|discriminate H]. injection H as ->.
  assert (Hlt : (d <? base) = true) by (apply Z.ltb_lt; lia).
  rewrite Hlt. reflexivity.
Qed.

Lemma digit_char_plain (d : Z) : 0 <= d < 16 -> plain_char (digit_char d).
Proof.
  revert d. apply small_digit; repeat split.
Qed.

Lemma fmt_04d_four_digits (n : Z) :
  0 <= n <= 9999 -> fmt_04d n = four_digits n.
Proof.
  intros Hn.
  assert (Hall : forallb (fun i => String.eqb (fmt_04d (Z.of_nat i))
                                     (four_digits (Z.of_nat i)))
                   (seq 0 (Z.to_nat 10000)) = true) by (vm_compute; reflexivity).
  rewrite forallb_forall in Hall.
  specialize (Hall (Z.to_nat n)).
  rewrite Z2Nat.id in Hall by lia.
  apply String.eqb_eq, Hall, in_seq. lia.
Qed.

Lemma scan_digits_step (base : Z) (w : nat) (d : Z) (rest : string) (a0 : Z) (seen : nat) :
  0 <= d < base -> base <= 16 ->
  Psp.scan_digits base (Datatypes.S w) (String (digit_char d) rest) a0 seen
  = Psp.scan_digits base w rest (a0 * base + d) (Datatypes.S seen).
Proof.
  intros Hd Hb. simpl. rewrite (digit_val_char base d Hd Hb). reflexivity.
Qed.

(** Scanning the digits just printed gives the number back, and goes on
    with what follows them. *)
Lemma scan_digits_digits_of (fuel : nat) (base : Z) :
  2 <= base <= 16 ->
  forall (n : Z) (acc : string),
    0 <= n < base ^ Z.of_nat (Datatypes.S fuel) ->
    exists k : nat,
      (1 <= k <= Datatypes.S fuel)%nat /\
      String.length (digits_of (Datatypes.S fuel) base n acc)
      = (k + String.length acc)%nat /\
      forall (w : nat) (a0 : Z) (seen : nat),
        Psp.scan_digits base (k + w) (digits_of (Datatypes.S fuel) base n acc)
          a0 seen
        = Psp.scan_digits base w acc (a0 * base ^ Z.of_nat k + n) (seen + k).
Proof.
  intros Hb. induction fuel as [|fuel IH]; intros n acc Hn.
  - exists 1%nat. change (base ^ Z.of_nat 1) with (base ^ 1) in *.
    rewrite Z.pow_1_r in Hn.
    assert (Hq : n / base = 0) by (apply Z.div_small; lia).
    assert (Hm : n mod base = n) by (apply Z.mod_small; lia).
    simpl digits_of. rewrite Hq, Hm. simpl (0 =? 0).
    cbv iota. repeat split; try lia.
    intros w a0 seen. change (1 + w)%nat with (Datatypes.S w).
    rewrite scan_digits_step by lia.
    rewrite Z.pow_1_r. f_equal. lia.
  - assert (Hmod : 0 <= n mod base < base) by (apply Z.mod_pos_bound; lia).
    change (digits_of (Datatypes.S (Datatypes.S fuel)) base n acc)
      with (let acc' := String (digit_char (n mod base)) acc in
            if n / base =? 0 then acc'
            else digits_of (Datatypes.S fuel) base (n / base) acc').
    cbv zeta.
    destruct (n / base =? 0) eqn:Hq.
    + apply Z.eqb_eq in Hq.
      assert (Hm : n = n mod base).
      { pose proof (Z.div_mod n base ltac:(lia)) as Hdm. rewrite Hq in Hdm. lia. }
      exists 1%nat. repeat split; try lia.
      intros w a0 seen. change (1 + w)%nat with (Datatypes.S w).
      rewrite scan_digits_step by lia.
      change (Z.of_nat 1) with 1. rewrite Z.pow_1_r. f_equal; lia.
    + apply Z.eqb_neq in Hq.
      assert (Hdiv : 0 <= n / base < base ^ Z.of_nat (Datatypes.S fuel)).
      { split; [apply Z.div_pos; lia|].
        apply Z.div_lt_upper_bound; [lia|].
        rewrite (Nat2Z.inj_succ (Datatypes.S fuel)), Z.pow_succ_r in Hn by lia.
        lia. }
      destruct (IH (n / base) (String (digit_char (n mod base)) acc) Hdiv)
        as (k & Hk & Hlen & Hscan).
      exists (Datatypes.S k). split; [lia|]. split.
      * rewrite Hlen. simpl. lia.
      * intros w a0 seen.
        replace (Datatypes.S k + w)%nat with (k + Datatypes.S w)%nat by lia.
        rewrite Hscan. rewrite scan_digits_step by lia.
        f_equal.
        -- rewrite (Nat2Z.inj_succ k), Z.pow_succ_r by lia.
           pose proof (Z.div_mod n base ltac:(lia)) as Hdm. nia.
        -- lia.
Qed.

Lemma string_length_append (a b : string) :
  String.length (a ++ b)%string = (String.length a + String.length b)%nat.
Proof. induction a as [|c a IH]; simpl; [reflexivity | rewrite IH; reflexivity]. Qed.

Lemma substring_all (s : string) (n : nat) :
  (String.length s <= n)%nat -> String.substring 0 n s = s.
Proof.
  revert n. induction s as [|c s IH]; intros n Hn.
  - destruct n; reflexivity.
  - destruct n as [|n]; simpl in Hn; [lia|]. simpl. rewrite IH by lia. reflexivity.
Qed.

Lemma digits_of_plain (fuel : nat) (base : Z) :
  2 <= base <= 16 ->
  forall (n : Z) (acc : string),
    string_forall plain_char acc ->
    string_forall plain_char (digits_of fuel base n acc).
Proof.
  intros Hb. induction fuel as [|fuel IH]; intros n acc Hacc; simpl; [assumption|].
  assert (Hd : plain_char (digit_char (n mod base))).
  { apply digit_char_plain.
    pose proof (Z.mod_pos_bound n base ltac:(lia)). lia. }
  destruct (n / base =? 0).
  - split; assumption.
  - apply IH. split; assumption.
Qed.

Lemma skip_prefix_plain (base : Z) (w : nat) (s : string) :
  string_forall plain_char s -> Psp.skip_prefix base w s = (w, s).
Proof.
  intros Hs. unfold Psp.skip_prefix.
  destruct w as [|[|[|w]]]; try reflexivity.
  destruct s as [|c0 [|x [|d rest]]]; try (repeat case_match; reflexivity).
  destruct Hs as (_ & (_ & Hx & _) & _).
  rewrite Hx, andb_false_r. simpl. repeat case_match; reflexivity.
Qed.

(** On a string that starts with digits, an integer conversion is the
    scan of the digits. *)
Lemma scan_int_plain (base : Z) (w : nat) (c : ascii) (rest : string) :
  string_forall plain_char (String c rest) ->
  Psp.scan_int base w (String c rest)
  = match Psp.scan_digits base w (String c rest) 0 0 with
    | (v, O, _) => Psp.ItemFail
    | (v, _, s4) => Psp.Item v s4
    end.
Proof.
  intros Hs. pose proof Hs as ((Hsp & _ & Hm & Hp) & _).
  unfold Psp.scan_int. cbn [Psp.skip_spaces]. rewrite Hsp, Hm, Hp.
  rewrite (skip_prefix_plain base w _ Hs).
  destruct (Psp.scan_digits base w (String c rest) 0 0) as [[v seen] s4].
  destruct seen; reflexivity.
Qed.

Lemma four_digits_value (n : Z) :
  0 <= n <= 9999 ->
  (((0 * 10 + n / 1000) * 10 + n / 100 mod 10) * 10 + n / 10 mod 10) * 10
  + n mod 10 = n.
Proof.
  intros Hn.
  assert (Hall : forallb (fun i => let n := Z.of_nat i in
                            (((0 * 10 + n / 1000) * 10 + n / 100 mod 10) * 10
                             + n / 10 mod 10) * 10 + n mod 10 =? n)
                   (seq 0 (Z.to_nat 10000)) = true) by (vm_compute; reflexivity).
  rewrite forallb_forall in Hall.
  specialize (Hall (Z.to_nat n)). cbv zeta in Hall.
  rewrite Z2Nat.id in Hall by lia.
  apply Z.eqb_eq, Hall, in_seq. lia.
Qed.

Lemma append_cons (c : ascii) (s t : string) :
  (String c s ++ t)%string = String c (s ++ t)%string.
Proof. reflexivity. Qed.

Lemma append_nil (t : string) : (EmptyString ++ t)%string = t.
Proof. reflexivity. Qed.

Lemma scan_literal_append (lit s : string) :
  Psp.scan_literal lit (lit ++ s)%string = Psp.LitOk s.
Proof.
  induction lit as [|c lit IH]; simpl; [destruct s; reflexivity|].
  rewrite Ascii.eqb_refl. exact IH.
Qed.

Lemma to_uint32_small (z : Z) : 0 <= z < 2 ^ 32 -> to_uint32 z = z.
Proof. intros H. unfold to_uint32. apply Z.mod_small. assumption. Qed.

(** The reference [sscanf] reads back from a thread's name the number
    and the table address that [pte_osThreadCreate] printed into it. *)
Lemma scan_pthread_thread_name (num pTls : Z) :
  0 <= num <= 9999 -> 0 <= pTls < 2 ^ 32 ->
  Psp.scan_pthread (thread_name num pTls) = Scan2 num pTls.
Proof.
  intros Hnum Hp.
  assert (H16 : 2 ^ 32 <= 16 ^ Z.of_nat 40) by (vm_compute; discriminate).
  destruct (scan_digits_digits_of 39 16 ltac:(lia) pTls EmptyString ltac:(lia))
    as (k & Hk & Hlen & Hscan).
  assert (Hplain : string_forall plain_char (digits_of 40 16 pTls EmptyString)).
  { apply digits_of_plain; [lia | exact Logic.I]. }
  unfold thread_name, fmt_x. rewrite to_uint32_small by assumption.
  rewrite fmt_04d_four_digits by assumption.
  set (hex := digits_of 40 16 pTls EmptyString) in *.
  unfold snprintf. rewrite substring_all.
  2:{ rewrite !string_length_append, Hlen. simpl. lia. }
  unfold Psp.scan_pthread, four_digits.
  rewrite scan_literal_append. rewrite !append_cons, !append_nil.
  assert (Hd3 : 0 <= num / 1000 < 10).
  { split; [apply Z.div_pos; lia | apply Z.div_lt_upper_bound; lia]. }
  assert (Hd2 : 0 <= num / 100 mod 10 < 10) by (apply Z.mod_pos_bound; lia).
  assert (Hd1 : 0 <= num / 10 mod 10 < 10) by (apply Z.mod_pos_bound; lia).
  assert (Hd0 : 0 <= num mod 10 < 10) by (apply Z.mod_pos_bound; lia).
  rewrite scan_int_plain.
  2:{ repeat split; try (apply digit_char_plain; lia). exact Hplain. }
  rewrite !scan_digits_step by lia.
  cbn [Psp.scan_digits].
  rewrite (four_digits_value num Hnum).
  change (String "_" (String "_" hex)) with ("__" ++ hex)%string.
  rewrite scan_literal_append.
  destruct hex as [|c rest] eqn:Hhex; [simpl in Hlen; lia|].
  rewrite scan_int_plain by exact Hplain.
  rewrite Hlen. replace (k + String.length EmptyString)%nat with (k + 0)%nat
    by reflexivity.
  rewrite Hscan. cbn [Psp.scan_digits].
  destruct (0 + k)%nat eqn:Hk0; [lia|].
  rewrite (to_uint32_small num) by lia.
  replace (0 * 16 ^ Z.of_nat k + pTls) with pTls by lia.
  assert (Habs : (2 ^ 32 <=? Z.abs pTls) = false) by (apply Z.leb_gt; lia).
  rewrite Habs, to_uint32_small by assumption. reflexivity.
Qed.

(** ** Resolving a thread to its TLS table *)

(** C6: [getTlsStructFromThread] asks the kernel for the thread's current
    name and scans it against ["pthread%04d__%x"], a decimal number and a
    hexadecimal address.  When both fields are scanned, and only then,
    the address scanned is the table; in every other case (end of input,
    no field, one field) the table is [globalTls].  With the reference
    [sscanf], the name [pte_osThreadCreate] prints for a table resolves to
    that table. *)
Theorem getTlsStructFromThread_resolves :
  forall (S : Type) (h : handler S) (s : S) (m : memory) (thid : Z),
    let r := run h (getTlsStructFromThread thid) m s in
    (exists status name scanned,
        trace_of r
        = [ Ev (sceKernelReferThreadStatus thid) (status, name);
            Ev (sscanf name "pthread%04d__%x") scanned ] /\
        memory_of r = m /\
        (numMatches scanned = 2 <-> exists thrNum ptr, scanned = Scan2 thrNum ptr) /\
        (forall thrNum ptr,
            scanned = Scan2 thrNum ptr -> outcome_of r = Returned ptr) /\
        (numMatches scanned <> 2 -> outcome_of r = Returned (globalTls m))) /\
    (forall (w : Psp.world) (th : Psp.thread) (num pTls : Z),
        Psp.threads w !! thid = Some th ->
        Psp.name th = thread_name num pTls ->
        0 <= num <= 9999 -> 0 <= pTls < 2 ^ 32 ->
        outcome_of (run Psp.kernel (getTlsStructFromThread thid) m w)
        = Returned pTls).
Proof.
  intros S h s m thid r. split.
  - subst r.
    destruct (getTlsStructFromThread_run h thid m s)
      as (status & name & scanned & Ht & Hm & Ho).
    exists status, name, scanned. cbv zeta in *.
    split; [assumption|]. split; [assumption|]. split; [|split].
    + split.
      * destruct scanned; simpl; intros H; try discriminate H. eauto.
      * intros (thrNum & ptr & ->). reflexivity.
    + intros thrNum ptr ->. assumption.
    + intros Hne. rewrite Ho. destruct scanned; try reflexivity.
      contradiction Hne. reflexivity.
  - intros w th num pTls Hth Hname Hnum Hp.
    unfold getTlsStructFromThread. simpl. rewrite Hth. simpl.
    rewrite Hname, scan_pthread_thread_name by assumption. reflexivity.
Qed.

(** After [pte_osInit] and a [pte_osThreadCreate] on the reference
    kernel, the new thread (identifier 4) resolves to the table allocated
    for it. *)
Lemma getTlsStructFromThread_resolves_witness :
  let r0 := run Psp.kernel pte_osInit initial_memory (Psp.boot 8 4096) in
  let r1 := run Psp.kernel (pte_osThreadCreate 77 8192 20 0)
              (memory_of r0) (kernel_of r0) in
  outcome_of r1 = Returned (PTE_OS_OK, Some 4) /\
  answers on_pteTlsThreadInit (trace_of r1) = [0x0890008c] /\
  outcome_of (run Psp.kernel (getTlsStructFromThread 4) (memory_of r1) (kernel_of r1))
  = Returned 0x0890008c.
Proof.
  split; [vm_compute; reflexivity |]. split; [vm_compute; reflexivity |].
  apply (proj2 (getTlsStructFromThread_resolves Psp.world Psp.kernel
                  (kernel_of
                     (run Psp.kernel (pte_osThreadCreate 77 8192 20 0)
                        (memory_of (run Psp.kernel pte_osInit initial_memory
                                      (Psp.boot 8 4096)))
                        (kernel_of (run Psp.kernel pte_osInit initial_memory
                                      (Psp.boot 8 4096)))))
                  (memory_of
                     (run Psp.kernel (pte_osThreadCreate 77 8192 20 0)
                        (memory_of (run Psp.kernel pte_osInit initial_memory
                                      (Psp.boot 8 4096)))
                        (kernel_of (run Psp.kernel pte_osInit initial_memory
                                      (Psp.boot 8 4096)))))
                  4)
           _ (Psp.mkThread (thread_name 2 0x0890008c) PSP_THREAD_STOPPED)
           2 0x0890008c).
  - vm_compute. reflexivity.
  - reflexivity.
  - lia.
  - lia.
Defined.

(** ** The other atomic operations *)

Lemma to_int32_small (z : Z) : int32 z -> to_int32 z = z.
Proof.
  unfold int32, to_int32. intros H.
  rewrite Z.mod_small by lia. lia.
Qed.

Lemma set_cells_insert_id (m : memory) (p v : Z) :
  cells m !! p = Some v -> set_cells (insert p v) m = m.
Proof.
  intros H. destruct m as [k g n mc sc hp cs]. unfold set_cells. simpl in *.
  f_equal. apply insert_id. assumption.
Qed.

Lemma set_cells_twice (m : memory) (p v v' : Z) :
  set_cells (insert p v') (set_cells (insert p v) m) = set_cells (insert p v') m.
Proof.
  unfold set_cells. simpl. f_equal. apply insert_insert_eq.
Qed.

(** X1: on a location holding [old], [pte_osAtomicExchange] returns [old]
    and leaves [val] there, whatever [old] is; nothing else in memory
    changes; the interrupt state it restores is the one it saved; and it
    does to memory and returns what [pte_osAtomicCompareExchange] does
    when the comparand is the current content. *)
Theorem pte_osAtomicExchange_spec :
  forall (S : Type) (h : handler S) (s : S) (m : memory) (ptarg val old : Z),
    cells m !! ptarg = Some old ->
    let r := run h (pte_osAtomicExchange ptarg val) m s in
    outcome_of r = Returned old /\
    cells (memory_of r) !! ptarg = Some val /\
    (forall q, q <> ptarg -> cells (memory_of r) !! q = cells m !! q) /\
    memory_of r = set_cells (insert ptarg val) m /\
    (exists intc,
        answers on_pspSdkDisableInterrupts (trace_of r) = [intc] /\
        calls (trace_of r) = [pspSdkDisableInterrupts; pspSdkEnableInterrupts intc]) /\
    (let r' := run h (pte_osAtomicCompareExchange ptarg val old) m s in
     outcome_of r' = outcome_of r /\ memory_of r' = memory_of r /\
     trace_of r' = trace_of r).
Proof.
  intros S h s m ptarg val old Hold r. subst r.
  unfold pte_osAtomicExchange, pte_osAtomicCompareExchange, read_cell, write_cell.
  simpl. repeat (rewrite Hold; simpl). rewrite Z.eqb_refl. simpl.
  rewrite Hold. simpl.
  split; [reflexivity|]. split; [apply lookup_insert_eq|].
  split; [intros q Hq; apply lookup_insert_ne; congruence|].
  split; [reflexivity|]. split; [eexists; split; reflexivity|].
  repeat split.
Qed.

Lemma pte_osAtomicExchange_spec_witness :
  let m := set_cells (insert 4096 5) initial_memory in
  cells m !! 4096 = Some 5 /\
  outcome_of (run Psp.kernel (pte_osAtomicExchange 4096 9) m (Psp.boot 4 64))
  = Returned 5.
Proof.
  split; [reflexivity |].
  pose proof (pte_osAtomicExchange_spec Psp.world Psp.kernel (Psp.boot 4 64)
                (set_cells (insert 4096 5) initial_memory) 4096 9 5) as H.
  cbv zeta in H. destruct H as [Ho _]; [reflexivity | exact Ho].
Defined.

(** X2: on a location holding [old], with [old + value] an [int],
    [pte_osAtomicExchangeAdd] returns [old], the value before the
    addition, and leaves [old + value] there; nothing else changes and
    the saved interrupt state is restored.  Adding [value] and then
    [- value] gives the memory back as it was. *)
Theorem pte_osAtomicExchangeAdd_spec :
  forall (S : Type) (h : handler S) (s : S) (m : memory) (pAddend value old : Z),
    cells m !! pAddend = Some old ->
    int32 old -> int32 (old + value) ->
    let r := run h (pte_osAtomicExchangeAdd pAddend value) m s in
    outcome_of r = Returned old /\
    cells (memory_of r) !! pAddend = Some (old + value) /\
    (forall q, q <> pAddend -> cells (memory_of r) !! q = cells m !! q) /\
    (exists intc,
        answers on_pspSdkDisableInterrupts (trace_of r) = [intc] /\
        calls (trace_of r) = [pspSdkDisableInterrupts; pspSdkEnableInterrupts intc]) /\
    (forall s',
        let r' := run h (pte_osAtomicExchangeAdd pAddend (- value)) (memory_of r) s' in
        outcome_of r' = Returned (old + value) /\ memory_of r' = m).
Proof.
  intros S h s m pAddend value old Hold Hint Hsum r. subst r.
  unfold pte_osAtomicExchangeAdd, read_cell, write_cell.
  simpl. repeat (rewrite Hold; simpl).
  rewrite (to_int32_small _ Hsum).
  split; [reflexivity|]. split; [apply lookup_insert_eq|].
  split; [intros q Hq; apply lookup_insert_ne; congruence|].
  split; [eexists; split; reflexivity|].
  intros s'. simpl. repeat (rewrite lookup_insert_eq; simpl).
  replace (old + value + - value) with old by lia.
  rewrite (to_int32_small _ Hint).
  split; [reflexivity|].
  rewrite set_cells_twice. apply set_cells_insert_id. assumption.
Qed.

Lemma pte_osAtomicExchangeAdd_spec_witness :
  let m := set_cells (insert 4096 5) initial_memory in
  cells m !! 4096 = Some 5 /\ int32 5 /\ int32 (5 + -7) /\
  outcome_of (run Psp.kernel (pte_osAtomicExchangeAdd 4096 (-7)) m (Psp.boot 4 64))
  = Returned 5.
Proof.
  split; [reflexivity |]. split; [unfold int32; lia |].
  split; [unfold int32; lia |].
  pose proof (pte_osAtomicExchangeAdd_spec Psp.world Psp.kernel (Psp.boot 4 64)
                (set_cells (insert 4096 5) initial_memory) 4096 (-7) 5) as H.
  cbv zeta in H. destruct H as [Ho _].
  - reflexivity.
  - unfold int32; lia.
  - unfold int32; lia.
  - exact Ho.
Defined.

(** X3: unlike the exchange operations, [pte_osAtomicIncrement] and
    [pte_osAtomicDecrement] return the value after the update: [old + 1]
    and [old - 1] on a location holding [old], as long as these are
    [int]s.  Each restores the interrupt state it saved, and a decrement
    after an increment returns [old] and gives the memory back as it
    was. *)
Theorem pte_osAtomicIncrement_Decrement_spec :
  forall (S : Type) (h : handler S) (s : S) (m : memory) (pdest old : Z),
    cells m !! pdest = Some old ->
    int32 old ->
    (int32 (old + 1) ->
     let r := run h (pte_osAtomicIncrement pdest) m s in
     outcome_of r = Returned (old + 1) /\
     memory_of r = set_cells (insert pdest (old + 1)) m /\
     (exists intc,
         answers on_pspSdkDisableInterrupts (trace_of r) = [intc] /\
         calls (trace_of r) = [pspSdkDisableInterrupts; pspSdkEnableInterrupts intc]) /\
     (forall s',
         let r' := run h (pte_osAtomicDecrement pdest) (memory_of r) s' in
         outcome_of r' = Returned old /\ memory_of r' = m)) /\
    (int32 (old - 1) ->
     let r := run h (pte_osAtomicDecrement pdest) m s in
     outcome_of r = Returned (old - 1) /\
     memory_of r = set_cells (insert pdest (old - 1)) m /\
     (exists intc,
         answers on_pspSdkDisableInterrupts (trace_of r) = [intc] /\
         calls (trace_of r) = [pspSdkDisableInterrupts; pspSdkEnableInterrupts intc])).
Proof.
  intros S h s m pdest old Hold Hint. split.
  - intros Hinc r. subst r.
    unfold pte_osAtomicIncrement, pte_osAtomicDecrement, read_cell, write_cell.
    simpl. repeat (rewrite Hold; simpl).
    rewrite (to_int32_small _ Hinc).
    repeat (rewrite lookup_insert_eq; simpl).
    split; [reflexivity|]. split; [reflexivity|].
    split; [eexists; split; reflexivity|].
    intros s'. simpl. repeat (rewrite lookup_insert_eq; simpl).
    replace (old + 1 - 1) with old by lia.
    rewrite (to_int32_small _ Hint).
    repeat (rewrite lookup_insert_eq; simpl).
    split; [reflexivity|].
    rewrite set_cells_twice. apply set_cells_insert_id. assumption.
  - intros Hdec r. subst r.
    unfold pte_osAtomicDecrement, read_cell, write_cell.
    simpl. repeat (rewrite Hold; simpl).
    rewrite (to_int32_small _ Hdec).
    repeat (rewrite lookup_insert_eq; simpl).
    split; [reflexivity|]. split; [reflexivity|].
    eexists; split; reflexivity.
Qed.

Lemma pte_osAtomicIncrement_Decrement_spec_witness :
  let m := set_cells (insert 4096 5) initial_memory in
  cells m !! 4096 = Some 5 /\ int32 5 /\ int32 (5 + 1) /\
  outcome_of (run Psp.kernel (pte_osAtomicIncrement 4096) m (Psp.boot 4 64))
  = Returned (5 + 1).
Proof.
  split; [reflexivity |]. split; [unfold int32; lia |].
  split; [unfold int32; lia |].
  pose proof (pte_osAtomicIncrement_Decrement_spec Psp.world Psp.kernel
                (Psp.boot 4 64) (set_cells (insert 4096 5) initial_memory)
                4096 5) as H.
  cbv zeta in H. destruct H as [Hinc _].
  - reflexivity.
  - unfold int32; lia.
  - destruct Hinc as [Ho _]; [unfold int32; lia | exact Ho].
Defined.

(** ** Milliseconds to microseconds *)

(** X4: a time in milliseconds reaches the kernel as [ms * 1000]
    truncated to 32 bits, in [pte_osThreadSleep], [pte_osMutexTimedLock]
    and [pte_osSemaphorePend] alike; a null timeout pointer makes
    [pte_osSemaphorePend] wait without timeout.  Up to 4294967 ms the
    kernel gets the time asked for; above, it gets a shorter one, off by
    a multiple of [2 ^ 32] microseconds. *)
Theorem milliseconds_wrap_at_32_bits :
  forall (S : Type) (h : handler S) (s : S) (m : memory) (handle ms : Z),
    0 <= ms < 2 ^ 32 ->
    let us := (ms * 1000) mod 2 ^ 32 in
    calls (trace_of (run h (pte_osThreadSleep ms) m s))
    = [sceKernelDelayThread us] /\
    calls (trace_of (run h (pte_osMutexTimedLock handle ms) m s))
    = [sceKernelWaitSema handle 1 (Some us)] /\
    calls (trace_of (run h (pte_osSemaphorePend handle (Some ms)) m s))
    = [sceKernelWaitSema handle 1 (Some us)] /\
    calls (trace_of (run h (pte_osSemaphorePend handle None) m s))
    = [sceKernelWaitSema handle 1 None] /\
    (ms <= 4294967 -> us = ms * 1000) /\
    (4294967 < ms ->
     us < ms * 1000 /\ exists k, 0 < k /\ ms * 1000 = us + k * 2 ^ 32).
Proof.
  intros S h s m handle ms Hms us.
  split; [reflexivity|].
  split.
  { unfold pte_osMutexTimedLock. simpl.
    destruct (h _ s) as [status s1]. simpl. destruct (status <? 0); reflexivity. }
  split.
  { unfold pte_osSemaphorePend. simpl.
    destruct (h _ s) as [status s1]. simpl.
    destruct (to_uint32 status =? SCE_KERNEL_ERROR_OK);
      [|destruct (to_uint32 status =? SCE_KERNEL_ERROR_WAIT_TIMEOUT)]; reflexivity. }
  split.
  { unfold pte_osSemaphorePend. simpl.
    destruct (h _ s) as [status s1]. simpl.
    destruct (to_uint32 status =? SCE_KERNEL_ERROR_OK);
      [|destruct (to_uint32 status =? SCE_KERNEL_ERROR_WAIT_TIMEOUT)]; reflexivity. }
  assert (H32 : 2 ^ 32 = 4294967296) by reflexivity.
  split.
  - intros Hle. subst us. apply Z.mod_small. lia.
  - intros Hgt. subst us.
    pose proof (Z.div_mod (ms * 1000) (2 ^ 32) ltac:(lia)) as Hdm.
    pose proof (Z.mod_pos_bound (ms * 1000) (2 ^ 32) ltac:(lia)) as Hb.
    assert (Hq : 0 < ms * 1000 / 2 ^ 32).
    { apply Z.div_str_pos. lia. }
    split; [nia|].
    exists (ms * 1000 / 2 ^ 32). split; [assumption|]. lia.
Qed.

Lemma milliseconds_wrap_at_32_bits_witness :
  0 <= 4294968 < 2 ^ 32 /\
  calls (trace_of (run Psp.kernel (pte_osThreadSleep 4294968) initial_memory
                     (Psp.boot 4 64)))
  = [sceKernelDelayThread 704].
Proof.
  split; [lia |].
  pose proof (milliseconds_wrap_at_32_bits Psp.world Psp.kernel (Psp.boot 4 64)
                initial_memory 0 4294968) as H.
  cbv zeta in H. destruct H as [Hs _]; [lia | exact Hs].
Defined.

(** ** The name counters *)

Lemma next_counter_cycle (old : Z) :
  0 <= old <= MAX_PSP_UID + 1 ->
  0 <= next_counter old <= MAX_PSP_UID + 1 /\
  next_counter old = (if old =? MAX_PSP_UID + 1 then 0 else old + 1).
Proof.
  unfold next_counter, MAX_PSP_UID. intros H.
  destruct (old >? 2048) eqn:E; destruct (old =? 2048 + 1) eqn:E'; lia.
Qed.

Section Counters.
Context {S : Type} (h : handler S).

(** What [pte_osThreadCreate] does to the file's variables, on every
    path. *)
Lemma pte_osThreadCreate_variables entry stackSize prio arg m s :
  let m' := memory_of (run h (pte_osThreadCreate entry stackSize prio arg) m s) in
  threadNum m' = next_counter (threadNum m) /\
  mutexCtr m' = mutexCtr m /\ semCtr m' = semCtr m /\
  threadDataKey m' = threadDataKey m /\ globalTls m' = globalTls m /\
  cells m' = cells m.
Proof.
  unfold pte_osThreadCreate, malloc_pspThreadData, free_pspThreadData,
    store_field.
  simpl.
  destruct (h pteTlsThreadInit s) as [pTls s1]. simpl.
  destruct (pTls =? NULL) eqn:Ht; simpl; [repeat split|].
  destruct (h malloc s1) as [p s2]. simpl.
  destruct (p =? NULL) eqn:Hp; simpl; rewrite Hp; simpl; [repeat split|].
  repeat (rewrite lookup_insert_eq; simpl).
  match goal with
  | |- context [h (sceKernelCreateThread ?n ?e ?pr ?st ?a ?o) ?s0] =>
      destruct (h (sceKernelCreateThread n e pr st a o) s0) as [tid s5]
  end.
  simpl.
  destruct (tid =? to_int32 SCE_KERNEL_ERROR_NO_MEMORY); simpl; [repeat split|].
  destruct (tid <? 0); simpl; repeat split.
Qed.

End Counters.

(** X5: each creation advances its own name counter by one step of the
    cycle 0, 1, ..., 2049, 0, whether or not the creation succeeds, and
    leaves the other two counters alone; so the counters never leave
    that range.  The counter does reach 2049, one more than
    [MAX_PSP_UID], before it starts again at 0. *)
Theorem name_counters_cycle :
  forall (S : Type) (h : handler S) (s : S) (m : memory)
         (entry stackSize prio arg initialValue : Z),
    counters_in_range m ->
    let step := fun old => if old =? MAX_PSP_UID + 1 then 0 else old + 1 in
    let mt := memory_of (run h (pte_osThreadCreate entry stackSize prio arg) m s) in
    let mm := memory_of (run h pte_osMutexCreate m s) in
    let ms := memory_of (run h (pte_osSemaphoreCreate initialValue) m s) in
    (threadNum mt = step (threadNum m) /\ mutexCtr mt = mutexCtr m /\
     semCtr mt = semCtr m /\ counters_in_range mt) /\
    (mutexCtr mm = step (mutexCtr m) /\ threadNum mm = threadNum m /\
     semCtr mm = semCtr m /\ counters_in_range mm) /\
    (semCtr ms = step (semCtr m) /\ threadNum ms = threadNum m /\
     mutexCtr ms = mutexCtr m /\ counters_in_range ms).
Proof.
  intros S h s m entry stackSize prio arg initialValue (Ht & Hm & Hs) step mt mm ms.
  destruct (next_counter_cycle _ Ht) as [Ht1 Ht2].
  destruct (next_counter_cycle _ Hm) as [Hm1 Hm2].
  destruct (next_counter_cycle _ Hs) as [Hs1 Hs2].
  split; [|split].
  - destruct (pte_osThreadCreate_variables h entry stackSize prio arg m s)
      as (Hn & Hmc & Hsc & _).
    fold mt in Hn, Hmc, Hsc. unfold counters_in_range, step.
    rewrite Hn, Hmc, Hsc. tauto.
  - destruct (pte_osMutexCreate_run h m s) as (handle & _ & _ & Hmem & _).
    fold mm in Hmem. unfold counters_in_range, step. rewrite Hmem. simpl. tauto.
  - destruct (pte_osSemaphoreCreate_run h initialValue m s)
      as (handle & _ & _ & Hmem & _).
    fold ms in Hmem. unfold counters_in_range, step. rewrite Hmem. simpl. tauto.
Qed.

Lemma name_counters_cycle_witness :
  let m := set_mutexCtr 2049 initial_memory in
  counters_in_range m /\
  mutexCtr (memory_of (run Psp.kernel pte_osMutexCreate m (Psp.boot 4 64))) = 0.
Proof.
  split; [unfold counters_in_range; simpl; unfold MAX_PSP_UID; lia |].
  pose proof (name_counters_cycle Psp.world Psp.kernel (Psp.boot 4 64)
                (set_mutexCtr 2049 initial_memory) 0 0 0 0 0) as H.
  cbv zeta in H. destruct H as (_ & (Hm & _) & _).
  - unfold counters_in_range; simpl; unfold MAX_PSP_UID; lia.
  - exact Hm.
Defined.

(** ** Names within one cycle of a counter *)

Lemma append_inj_l (p a b : string) : (p ++ a)%string = (p ++ b)%string -> a = b.
Proof.
  induction p as [|c p IH]; intros H; [exact H|].
  rewrite !append_cons in H. injection H as H. apply IH. exact H.
Qed.

(** The names of the counters' cycle are printed in full, and their
    digits read back as the counter. *)
Lemma counter_names_decode (n : Z) :
  0 <= n <= MAX_PSP_UID + 1 ->
  mutex_name n = ("mutex" ++ fmt_d n)%string /\
  semaphore_name n = ("pthread_sem" ++ fmt_d n)%string /\
  cancelSem_name n = ("pthread_cancelSem" ++ fmt_04d n)%string /\
  fst (fst (Psp.scan_digits 10 40 (fmt_d n) 0 0)) = n /\
  fst (fst (Psp.scan_digits 10 40 (fmt_04d n) 0 0)) = n.
Proof.
  intros Hn.
  assert (Hall : forallb (fun i =>
                    let n := Z.of_nat i in
                    String.eqb (mutex_name n) ("mutex" ++ fmt_d n)
                    && String.eqb (semaphore_name n) ("pthread_sem" ++ fmt_d n)
                    && String.eqb (cancelSem_name n)
                         ("pthread_cancelSem" ++ fmt_04d n)
                    && (fst (fst (Psp.scan_digits 10 40 (fmt_d n) 0 0)) =? n)
                    && (fst (fst (Psp.scan_digits 10 40 (fmt_04d n) 0 0)) =? n))
                   (seq 0 (Z.to_nat 2050)) = true) by (vm_compute; reflexivity).
  rewrite forallb_forall in Hall.
  specialize (Hall (Z.to_nat n)). cbv zeta in Hall.
  rewrite Z2Nat.id in Hall by lia.
  assert (Hin : In (Z.to_nat n) (seq 0 (Z.to_nat 2050))).
  { apply in_seq. unfold MAX_PSP_UID in Hn. lia. }
  specialize (Hall Hin).
  rewrite !andb_true_iff in Hall.
  destruct Hall as ((((H1 & H2) & H3) & H4) & H5).
  apply String.eqb_eq in H1, H2, H3. apply Z.eqb_eq in H4, H5. auto.
Qed.

(** X6: within one cycle of a counter, different counter values give
    different names: no two mutexes, no two semaphores, no two
    cancellation semaphores and no two threads created less than 2050
    creations apart are given the same name by this file; and a thread's
    name also tells its TLS table from any other. *)
Theorem names_differ_within_a_cycle :
  forall (n1 n2 : Z),
    0 <= n1 <= MAX_PSP_UID + 1 -> 0 <= n2 <= MAX_PSP_UID + 1 ->
    (n1 <> n2 ->
     mutex_name n1 <> mutex_name n2 /\
     semaphore_name n1 <> semaphore_name n2 /\
     cancelSem_name n1 <> cancelSem_name n2) /\
    (forall p1 p2,
        0 <= p1 < 2 ^ 32 -> 0 <= p2 < 2 ^ 32 ->
        n1 <> n2 \/ p1 <> p2 ->
        thread_name n1 p1 <> thread_name n2 p2).
Proof.
  intros n1 n2 H1 H2.
  destruct (counter_names_decode n1 H1) as (Hm1 & Hs1 & Hc1 & Hd1 & Hz1).
  destruct (counter_names_decode n2 H2) as (Hm2 & Hs2 & Hc2 & Hd2 & Hz2).
  split.
  - intros Hne. rewrite Hm1, Hm2, Hs1, Hs2, Hc1, Hc2.
    split; [|split]; intros Heq; apply append_inj_l in Heq; apply Hne.
    + rewrite <- Hd1, <- Hd2, Heq. reflexivity.
    + rewrite <- Hd1, <- Hd2, Heq. reflexivity.
    + rewrite <- Hz1, <- Hz2, Heq. reflexivity.
  - intros p1 p2 Hp1 Hp2 Hne Heq.
    assert (Hscan : Psp.scan_pthread (thread_name n1 p1)
                    = Psp.scan_pthread (thread_name n2 p2)) by (rewrite Heq; reflexivity).
    unfold MAX_PSP_UID in H1, H2.
    rewrite !scan_pthread_thread_name in Hscan by lia.
    injection Hscan as Hn Hp. destruct Hne; contradiction.
Qed.

Lemma names_differ_within_a_cycle_witness :
  0 <= 7 <= MAX_PSP_UID + 1 /\ 0 <= 2049 <= MAX_PSP_UID + 1 /\
  mutex_name 7 <> mutex_name 2049.
Proof.
  split; [unfold MAX_PSP_UID; lia |]. split; [unfold MAX_PSP_UID; lia |].
  pose proof (names_differ_within_a_cycle 7 2049) as H.
  destruct H as [H _].
  - unfold MAX_PSP_UID; lia.
  - unfold MAX_PSP_UID; lia.
  - destruct H as [Hm _]; [lia | exact Hm].
Defined.

(** ** Thread creation: the allocations *)

(** X7: when the TLS table cannot be allocated, [pte_osThreadCreate]
    prints a message and returns [PTE_OS_NO_RESOURCES] having asked for
    nothing else; when the control block cannot be allocated, it destroys
    the table it had just obtained, prints and returns
    [PTE_OS_NO_RESOURCES].  In both cases no kernel object was asked for,
    the heap is as before and no handle is stored. *)
Theorem pte_osThreadCreate_allocation_failure :
  forall (S : Type) (h : handler S) (s : S) (m : memory)
         (entry stackSize prio arg : Z),
    let r := run h (pte_osThreadCreate entry stackSize prio arg) m s in
    (answers on_pteTlsThreadInit (trace_of r) = [NULL] ->
     outcome_of r = Returned (PTE_OS_NO_RESOURCES, None) /\
     calls (trace_of r)
     = [ pteTlsThreadInit;
         printf "pteTlsThreadInit: PTE_OS_NO_RESOURCES
" ] /\
     heap (memory_of r) = heap m) /\
    (forall pTls,
        answers on_pteTlsThreadInit (trace_of r) = [pTls] ->
        answers on_malloc (trace_of r) = [NULL] ->
        outcome_of r = Returned (PTE_OS_NO_RESOURCES, None) /\
        calls (trace_of r)
        = [ pteTlsThreadInit;
            malloc;
            pteTlsThreadDestroy pTls;
            printf "malloc(pspThreadData): PTE_OS_NO_RESOURCES
" ] /\
        heap (memory_of r) = heap m).
Proof.
  intros S h s m entry stackSize prio arg r. subst r.
  unfold pte_osThreadCreate, malloc_pspThreadData, free_pspThreadData,
    store_field.
  simpl.
  destruct (h pteTlsThreadInit s) as [pTls s1]. simpl.
  destruct (pTls =? NULL) eqn:Ht; simpl.
  { split; [intros _; repeat split|]. intros pTls' _ Hm. discriminate Hm. }
  destruct (h malloc s1) as [p s2]. simpl.
  destruct (p =? NULL) eqn:Hp; simpl; rewrite Hp; simpl.
  { split.
    - intros H. injection H as ->. discriminate Ht.
    - intros pTls' H _. injection H as ->. repeat split. }
  split.
  - intros H. injection H as ->. discriminate Ht.
  - intros pTls' _ H. injection H as ->. discriminate Hp.
Qed.

Lemma pte_osThreadCreate_allocation_failure_witness :
  let r := run Psp.kernel (pte_osThreadCreate 77 8192 20 0) initial_memory
             (Psp.set_keys ∅ 32 (Psp.boot 4 130)) in
  answers on_pteTlsThreadInit (trace_of r) = [0x08900000] /\
  answers on_malloc (trace_of r) = [NULL] /\
  outcome_of r = Returned (PTE_OS_NO_RESOURCES, None).
Proof.
  split; [vm_compute; reflexivity |]. split; [vm_compute; reflexivity |].
  pose proof (pte_osThreadCreate_allocation_failure Psp.world Psp.kernel
                (Psp.set_keys ∅ 32 (Psp.boot 4 130)) initial_memory 77 8192 20 0)
    as H.
  cbv zeta in H. destruct H as [_ H].
  destruct (H 0x08900000) as [Ho _].
  - vm_compute; reflexivity.
  - vm_compute; reflexivity.
  - exact Ho.
Defined.

(** X8: when the kernel accepts the thread, [pte_osThreadCreate] returns
    [PTE_OS_OK] and hands back the kernel's identifier.  The control
    block then holds the caller's entry point, its argument and whatever
    the semaphore creation answered; the kernel was asked for a thread
    that starts in [pspStubThreadEntry], not in the caller's entry point,
    under the name that encodes the table, with the caller's priority and
    with a stack of [stackSize] bytes but never less than 4096. *)
Theorem pte_osThreadCreate_success :
  forall (S : Type) (h : handler S) (s : S) (m : memory)
         (entry stackSize prio arg threadId : Z),
    let r := run h (pte_osThreadCreate entry stackSize prio arg) m s in
    answers on_sceKernelCreateThread (trace_of r) = [threadId] ->
    0 <= threadId ->
    exists pTls pThreadData sem,
      pTls <> NULL /\ pThreadData <> NULL /\
      answers on_pteTlsThreadInit (trace_of r) = [pTls] /\
      answers on_malloc (trace_of r) = [pThreadData] /\
      answers on_sceKernelCreateSema (trace_of r) = [sem] /\
      outcome_of r = Returned (PTE_OS_OK, Some threadId) /\
      heap (memory_of r) !! pThreadData
      = Some (mkThreadData (Some entry) (Some arg) (Some sem)) /\
      calls (trace_of r)
      = [ pteTlsThreadInit;
          malloc;
          pteTlsSetValue pTls (threadDataKey m) pThreadData;
          sceKernelCreateSema (cancelSem_name (next_counter (threadNum m))) 0 0 255 0;
          sceKernelCreateThread (thread_name (next_counter (threadNum m)) pTls)
            pspStubThreadEntry prio (Z.max stackSize DEFAULT_STACK_SIZE_BYTES)
            0 NULL ].
Proof.
  intros S h s m entry stackSize prio arg threadId r Htid Hpos.
  destruct (pte_osThreadCreate_reaching_kernel h entry stackSize prio arg m s
              threadId Htid)
    as (pTls & p & sem & Ht & Hp & Hti & Hma & Hse & Hcase).
  fold r in Hti, Hma, Hse, Hcase. cbv zeta in Hcase.
  assert (E1 : (threadId =? to_int32 SCE_KERNEL_ERROR_NO_MEMORY) = false).
  { apply Z.eqb_neq. intros ->. vm_compute in Hpos. apply Hpos. reflexivity. }
  assert (E2 : (threadId <? 0) = false) by (apply Z.ltb_ge; assumption).
  rewrite E1, E2 in Hcase. destruct Hcase as (Ho & Hh & Hc).
  exists pTls, p, sem. repeat (split; [assumption|]).
  rewrite Hc. unfold create_calls, cancelSem_name. repeat f_equal.
  unfold DEFAULT_STACK_SIZE_BYTES.
  destruct (stackSize <? 4096) eqn:E; [apply Z.ltb_lt in E | apply Z.ltb_ge in E]; lia.
Qed.

Lemma pte_osThreadCreate_success_witness :
  let r := run Psp.kernel (pte_osThreadCreate 77 100 20 0) initial_memory
             (Psp.set_keys ∅ 32 (Psp.boot 4 4096)) in
  answers on_sceKernelCreateThread (trace_of r) = [3] /\ 0 <= 3 /\
  exists pTls pThreadData sem,
    pTls <> NULL /\ pThreadData <> NULL /\
    answers on_pteTlsThreadInit (trace_of r) = [pTls] /\
    answers on_malloc (trace_of r) = [pThreadData] /\
    answers on_sceKernelCreateSema (trace_of r) = [sem] /\
    outcome_of r = Returned (PTE_OS_OK, Some 3) /\
    heap (memory_of r) !! pThreadData
    = Some (mkThreadData (Some 77) (Some 0) (Some sem)) /\
    calls (trace_of r)
    = [ pteTlsThreadInit;
        malloc;
        pteTlsSetValue pTls 0 pThreadData;
        sceKernelCreateSema (cancelSem_name 2) 0 0 255 0;
        sceKernelCreateThread (thread_name 2 pTls)
          pspStubThreadEntry 20 4096 0 NULL ].
Proof.
  split; [vm_compute; reflexivity |]. split; [lia |].
  apply (pte_osThreadCreate_success Psp.world Psp.kernel
           (Psp.set_keys ∅ 32 (Psp.boot 4 4096)) initial_memory 77 100 20 0 3).
  - vm_compute; reflexivity.
  - lia.
Defined.

(** ** Thread deletion *)

Section Delete.
Context {S : Type} (h : handler S).

(** Every run of [pte_osThreadDelete]. *)
Lemma pte_osThreadDelete_run handle m s :
  let r := run h (pte_osThreadDelete handle) m s in
  exists name1 scanned1 name2 scanned2 p,
    answers on_sscanf (trace_of r) = [scanned1; scanned2] /\
    answers on_pteTlsGetValue (trace_of r) = [p] /\
    match cancelSem_at m p with
    | Some sem =>
        calls (trace_of r)
        = delete_calls handle name1 scanned1 name2 scanned2 m p sem /\
        outcome_of r = Returned PTE_OS_OK /\
        memory_of r = set_heap (delete p) m
    | None =>
        calls (trace_of r)
        = [ sceKernelReferThreadStatus handle; sscanf name1 "pthread%04d__%x" ]
          ++ lookup_calls handle name2 scanned2 m /\
        outcome_of r = Undef /\
        memory_of r = m
    end.
Proof.
  unfold pte_osThreadDelete. rewrite run_bind.
  destruct (getTlsStructFromThread_run h handle m s)
    as (st1 & name1 & scanned1 & Ht1 & Hm1 & Ho1).
  cbv zeta in *. rewrite Ho1, Hm1, Ht1.
  set (s1 := kernel_of (run h (getTlsStructFromThread handle) m s)).
  match goal with
  | |- context [run h (bind (getThreadData handle) ?k) m s1] =>
      destruct (run_getThreadData_then h handle k m s1)
        as (name2 & scanned2 & p & pre & s2 & Hc & Hs & Hp & Hpre & _ & Hrun)
  end.
  rewrite Hrun. clear Hrun.
  exists name1, scanned1, name2, scanned2, p.
  cbn [outcome_of memory_of kernel_of trace_of].
  rewrite !answers_app, !calls_app, Hs, Hp, Hc.
  unfold load_cancelSem, cancelSem_at, free_pspThreadData, delete_calls.
  change (match scanned1 with Scan2 _ ptr => ptr | _ => globalTls m end)
    with (table_of scanned1 m).
  simpl.
  destruct (heap m !! p) as [d|]; simpl; [destruct (cancelSem d) as [sem|]; simpl|].
  - repeat split.
  - rewrite ?app_nil_r. repeat split.
  - rewrite ?app_nil_r. repeat split.
Qed.

End Delete.

(** X9: [pte_osThreadDelete] resolves the thread twice, once for its
    table and once for its control block, then deletes the cancellation
    semaphore held in the control block, frees the control block,
    destroys the table and deletes the kernel thread, in that order; it
    returns [PTE_OS_OK] whatever the kernel answers to any of these.  The
    control block is not checked: when the lookup gives a pointer that is
    no live control block (null, for a thread unknown to the library's
    tables), the behaviour is undefined and nothing has been released. *)
Theorem pte_osThreadDelete_releases_in_order :
  forall (S : Type) (h : handler S) (s : S) (m : memory) (handle p : Z),
    let r := run h (pte_osThreadDelete handle) m s in
    answers on_pteTlsGetValue (trace_of r) = [p] ->
    (forall sem,
        cancelSem_at m p = Some sem ->
        exists name1 scanned1 name2 scanned2,
          answers on_sscanf (trace_of r) = [scanned1; scanned2] /\
          calls (trace_of r)
          = delete_calls handle name1 scanned1 name2 scanned2 m p sem /\
          outcome_of r = Returned PTE_OS_OK /\
          heap (memory_of r) = delete p (heap m)) /\
    (cancelSem_at m p = None ->
     outcome_of r = Undef /\
     memory_of r = m /\
     forallb (fun c => match c with
                       | sceKernelDeleteSema _ | free _ | pteTlsThreadDestroy _
                       | sceKernelDeleteThread _ => false
                       | _ => true
                       end) (calls (trace_of r)) = true).
Proof.
  intros S h s m handle p r Hp.
  destruct (pte_osThreadDelete_run h handle m s)
    as (name1 & scanned1 & name2 & scanned2 & p' & Hs & Hp' & Hcase).
  fold r in Hs, Hp', Hcase. rewrite Hp in Hp'. injection Hp' as <-.
  split.
  - intros sem Hsem. rewrite Hsem in Hcase. destruct Hcase as (Hc & Ho & Hm).
    exists name1, scanned1, name2, scanned2.
    repeat (split; [assumption|]). rewrite Hm. reflexivity.
  - intros Hnone. rewrite Hnone in Hcase. destruct Hcase as (Hc & Ho & Hm).
    repeat (split; [assumption|]). rewrite Hc. reflexivity.
Qed.

Lemma pte_osThreadDelete_releases_in_order_witness :
  let r0 := run Psp.kernel pte_osInit initial_memory (Psp.boot 8 4096) in
  let r1 := run Psp.kernel (pte_osThreadCreate 77 8192 20 0)
              (memory_of r0) (kernel_of r0) in
  let r := run Psp.kernel (pte_osThreadDelete 4) (memory_of r1) (kernel_of r1) in
  answers on_pteTlsGetValue (trace_of r) = [0x0890010c] /\
  cancelSem_at (memory_of r1) 0x0890010c = Some 3 /\
  exists name1 scanned1 name2 scanned2,
    answers on_sscanf (trace_of r) = [scanned1; scanned2] /\
    calls (trace_of r)
    = delete_calls 4 name1 scanned1 name2 scanned2 (memory_of r1) 0x0890010c 3 /\
    outcome_of r = Returned PTE_OS_OK /\
    heap (memory_of r) = delete 0x0890010c (heap (memory_of r1)).
Proof.
  split; [vm_compute; reflexivity |]. split; [vm_compute; reflexivity |].
  pose proof (pte_osThreadDelete_releases_in_order Psp.world Psp.kernel
                (kernel_of
                   (run Psp.kernel (pte_osThreadCreate 77 8192 20 0)
                      (memory_of (run Psp.kernel pte_osInit initial_memory
                                    (Psp.boot 8 4096)))
                      (kernel_of (run Psp.kernel pte_osInit initial_memory
                                    (Psp.boot 8 4096)))))
                (memory_of
                   (run Psp.kernel (pte_osThreadCreate 77 8192 20 0)
                      (memory_of (run Psp.kernel pte_osInit initial_memory
                                    (Psp.boot 8 4096)))
                      (kernel_of (run Psp.kernel pte_osInit initial_memory
                                    (Psp.boot 8 4096)))))
                4 0x0890010c) as H.
  cbv zeta in H. destruct H as [H _].
  - vm_compute; reflexivity.
  - apply (H 3). vm_compute; reflexivity.
Defined.

(** ** Initialization, call by call *)

Section InitRun.
Context {S : Type} (h : handler S).

(** Every run of [pte_osInit], by the answers it gets. *)
Lemma pte_osInit_run m s :
  let r := run h pte_osInit m s in
  let t := trace_of r in
  (exists e,
      e <> PTE_OS_OK /\
      answers on_pteTlsGlobalInit t = [e] /\
      calls t = init_calls 1 0 0 0 /\
      outcome_of r = Returned e /\
      memory_of r = m) \/
  (exists e,
      e <> PTE_OS_OK /\
      answers on_pteTlsGlobalInit t = [PTE_OS_OK] /\
      answers on_pteTlsAlloc t = [e] /\
      calls t = init_calls 2 0 0 0 /\
      outcome_of r = Returned e /\
      heap (memory_of r) = heap m /\
      globalTls (memory_of r) = globalTls m) \/
  (exists table,
      answers on_pteTlsGlobalInit t = [PTE_OS_OK] /\
      answers on_pteTlsAlloc t = [PTE_OS_OK] /\
      answers on_pteTlsThreadInit t = [table] /\
      answers on_malloc t = [NULL] /\
      calls t = init_calls 4 0 0 0 /\
      outcome_of r = Returned PTE_OS_NO_RESOURCES /\
      globalTls (memory_of r) = table /\
      heap (memory_of r) = heap m) \/
  (exists table p sem,
      p <> NULL /\
      answers on_pteTlsGlobalInit t = [PTE_OS_OK] /\
      answers on_pteTlsAlloc t = [PTE_OS_OK] /\
      answers on_pteTlsThreadInit t = [table] /\
      answers on_malloc t = [p] /\
      answers on_sceKernelCreateSema t = [sem] /\
      calls t = init_calls 6 table (threadDataKey (memory_of r)) p /\
      outcome_of r = Returned PTE_OS_OK /\
      globalTls (memory_of r) = table /\
      heap (memory_of r) = <[p := mkThreadData None None (Some sem)]> (heap m)).
Proof.
  unfold pte_osInit, malloc_pspThreadData, store_field, init_calls. simpl.
  destruct (h (pteTlsGlobalInit PSP_MAX_TLS) s) as [g s1]. simpl.
  destruct g; simpl;
    try (left; eexists; split; [|repeat split]; discriminate).
  right.
  destruct (h pteTlsAlloc s1) as [[a key] s2]. simpl.
  assert (Hkey : forall (k : prog pte_osResult) m0 s0,
             run h (match key with
                    | Some key0 => modify (set_threadDataKey key0)
                    | None => Ret tt
                    end ;;; k) m0 s0
             = run h k (match key with
                        | Some key0 => set_threadDataKey key0 m0
                        | None => m0
                        end) s0).
  { intros k m0 s0. destruct key; reflexivity. }
  rewrite Hkey. clear Hkey.
  set (m1 := match key with
             | Some key0 => set_threadDataKey key0 m
             | None => m
             end).
  assert (Hm1 : heap m1 = heap m /\ globalTls m1 = globalTls m).
  { unfold m1. destruct key; split; reflexivity. }
  destruct Hm1 as [Hheap Hglobal].
  destruct a; simpl;
    try (left; eexists; split; [|repeat split; assumption]; discriminate).
  right.
  destruct (h pteTlsThreadInit s2) as [table s3]. simpl.
  destruct (h malloc s3) as [p s4]. simpl.
  destruct (p =? NULL) eqn:Hp; simpl; rewrite Hp; simpl.
  - apply Z.eqb_eq in Hp. subst p.
    left. exists table. repeat split. assumption.
  - apply Z.eqb_neq in Hp.
    rewrite lookup_insert_eq. simpl.
    right. exists table, p. eexists.
    repeat (split; [first [reflexivity | assumption]|]).
    simpl. rewrite insert_insert_eq, Hheap. reflexivity.
Qed.

End InitRun.

(** X10: [pte_osInit] makes its calls in one fixed order and stops at the
    first of the TLS global initialisation, the key allocation and
    [malloc] that fails, with that step's status ([PTE_OS_NO_RESOURCES]
    for [malloc]): one, two, four or all six calls, decided by the
    answers.  It never releases anything: when [malloc] fails, the table
    just obtained from [pteTlsThreadInit] stays allocated, with
    [globalTls] pointing to it.  The cancellation semaphore is asked for
    on the successful path only, after the control block was registered
    in the table; and the first call is always made. *)
Theorem pte_osInit_call_by_call :
  forall (S : Type) (h : handler S) (s : S) (m : memory),
    let r := run h pte_osInit m s in
    let t := trace_of r in
    (forall e,
        answers on_pteTlsGlobalInit t = [e] -> e <> PTE_OS_OK ->
        calls t = [pteTlsGlobalInit PSP_MAX_TLS] /\
        outcome_of r = Returned e /\
        memory_of r = m) /\
    (forall e,
        answers on_pteTlsGlobalInit t = [PTE_OS_OK] ->
        answers on_pteTlsAlloc t = [e] -> e <> PTE_OS_OK ->
        calls t = [pteTlsGlobalInit PSP_MAX_TLS; pteTlsAlloc] /\
        outcome_of r = Returned e /\
        heap (memory_of r) = heap m /\
        globalTls (memory_of r) = globalTls m) /\
    (forall table,
        answers on_pteTlsGlobalInit t = [PTE_OS_OK] ->
        answers on_pteTlsAlloc t = [PTE_OS_OK] ->
        answers on_pteTlsThreadInit t = [table] ->
        answers on_malloc t = [NULL] ->
        calls t
        = [pteTlsGlobalInit PSP_MAX_TLS; pteTlsAlloc; pteTlsThreadInit; malloc] /\
        outcome_of r = Returned PTE_OS_NO_RESOURCES /\
        globalTls (memory_of r) = table /\
        heap (memory_of r) = heap m) /\
    (forall table p,
        answers on_pteTlsGlobalInit t = [PTE_OS_OK] ->
        answers on_pteTlsAlloc t = [PTE_OS_OK] ->
        answers on_pteTlsThreadInit t = [table] ->
        answers on_malloc t = [p] -> p <> NULL ->
        exists sem,
          answers on_sceKernelCreateSema t = [sem] /\
          calls t = init_calls 6 table (threadDataKey (memory_of r)) p /\
          outcome_of r = Returned PTE_OS_OK /\
          globalTls (memory_of r) = table /\
          heap (memory_of r)
          = <[p := mkThreadData None None (Some sem)]> (heap m)) /\
    (exists g,
        answers on_pteTlsGlobalInit t = [g] /\
        (g = PTE_OS_OK ->
         exists a,
           answers on_pteTlsAlloc t = [a] /\
           (a = PTE_OS_OK ->
            exists table p,
              answers on_pteTlsThreadInit t = [table] /\
              answers on_malloc t = [p]))).
Proof.
  intros S h s m r t. subst t r.
  destruct (pte_osInit_run h m s)
    as [(e & He & Hg & Hc & Ho & Hm)
       |[(e & He & Hg & Ha & Hc & Ho & Hh & Hgl)
        |[(table & Hg & Ha & Ht & Hma & Hc & Ho & Hgl & Hh)
         |(table & p & sem & Hp & Hg & Ha & Ht & Hma & Hs & Hc & Ho & Hgl & Hh)]]];
    cbv zeta in *.
  - split; [|split; [|split; [|split]]].
    + intros e' Hg' He'. rewrite Hg in Hg'. injection Hg' as <-. auto.
    + intros e' Hg'. rewrite Hg in Hg'. injection Hg' as ->.
      contradiction He. reflexivity.
    + intros table Hg'. rewrite Hg in Hg'. injection Hg' as ->.
      contradiction He. reflexivity.
    + intros table p Hg'. rewrite Hg in Hg'. injection Hg' as ->.
      contradiction He. reflexivity.
    + exists e. split; [assumption|]. intros ->. contradiction He. reflexivity.
  - split; [|split; [|split; [|split]]].
    + intros e' Hg' He'. rewrite Hg in Hg'. injection Hg' as <-.
      contradiction He'. reflexivity.
    + intros e' _ Ha' _. rewrite Ha in Ha'. injection Ha' as <-. auto.
    + intros table _ Ha'. rewrite Ha in Ha'. injection Ha' as ->.
      contradiction He. reflexivity.
    + intros table p _ Ha'. rewrite Ha in Ha'. injection Ha' as ->.
      contradiction He. reflexivity.
    + exists PTE_OS_OK. split; [assumption|]. intros _.
      exists e. split; [assumption|]. intros ->. contradiction He. reflexivity.
  - split; [|split; [|split; [|split]]].
    + intros e' Hg' He'. rewrite Hg in Hg'. injection Hg' as <-.
      contradiction He'. reflexivity.
    + intros e' _ Ha' He'. rewrite Ha in Ha'. injection Ha' as <-.
      contradiction He'. reflexivity.
    + intros table' _ _ Ht' _. rewrite Ht in Ht'. injection Ht' as <-. auto.
    + intros table' p _ _ _ Hma' Hp. rewrite Hma in Hma'. injection Hma' as <-.
      contradiction Hp. reflexivity.
    + exists PTE_OS_OK. split; [assumption|]. intros _.
      exists PTE_OS_OK. split; [assumption|]. intros _.
      exists table, NULL. split; assumption.
  - split; [|split; [|split; [|split]]].
    + intros e' Hg' He'. rewrite Hg in Hg'. injection Hg' as <-.
      contradiction He'. reflexivity.
    + intros e' _ Ha' He'. rewrite Ha in Ha'. injection Ha' as <-.
      contradiction He'. reflexivity.
    + intros table' _ _ _ Hma'. rewrite Hma in Hma'. injection Hma' as ->.
      contradiction Hp. reflexivity.
    + intros table' p' _ _ Ht' Hma' _.
      rewrite Ht in Ht'. injection Ht' as <-.
      rewrite Hma in Hma'. injection Hma' as <-.
      exists sem. auto.
    + exists PTE_OS_OK. split; [assumption|]. intros _.
      exists PTE_OS_OK. split; [assumption|]. intros _.
      exists table, p. split; assumption.
Qed.

(** A PSP with heap for the table but not for the control block: four
    calls, [PTE_OS_NO_RESOURCES], and the table stays.  A roomy PSP: all
    six calls and [PTE_OS_OK]. *)
Lemma pte_osInit_call_by_call_witness :
  let r := run Psp.kernel pte_osInit initial_memory (Psp.boot 4 130) in
  let r' := run Psp.kernel pte_osInit initial_memory (Psp.boot 8 4096) in
  (answers on_pteTlsGlobalInit (trace_of r) = [PTE_OS_OK] /\
   answers on_pteTlsAlloc (trace_of r) = [PTE_OS_OK] /\
   answers on_pteTlsThreadInit (trace_of r) = [0x08900000] /\
   answers on_malloc (trace_of r) = [NULL] /\
   calls (trace_of r)
   = [pteTlsGlobalInit PSP_MAX_TLS; pteTlsAlloc; pteTlsThreadInit; malloc] /\
   outcome_of r = Returned PTE_OS_NO_RESOURCES /\
   globalTls (memory_of r) = 0x08900000 /\
   Psp.tables (kernel_of r) !! 0x08900000 = Some ∅) /\
  (answers on_malloc (trace_of r') = [0x08900080] /\
   0x08900080 <> NULL /\
   outcome_of r' = Returned PTE_OS_OK /\
   exists sem,
     answers on_sceKernelCreateSema (trace_of r') = [sem] /\
     heap (memory_of r')
     = <[0x08900080 := mkThreadData None None (Some sem)]> (heap initial_memory)).
Proof.
  cbv zeta.
  pose proof (pte_osInit_call_by_call Psp.world Psp.kernel (Psp.boot 4 130)
                initial_memory) as H.
  pose proof (pte_osInit_call_by_call Psp.world Psp.kernel (Psp.boot 8 4096)
                initial_memory) as H'.
  cbv zeta in H, H'.
  destruct H as (_ & _ & H & _). destruct H' as (_ & _ & _ & H' & _).
  split.
  - destruct (H 0x08900000) as (Hc & Ho & Hg & _);
      try (vm_compute; reflexivity).
    split; [vm_compute; reflexivity|]. split; [vm_compute; reflexivity|].
    split; [vm_compute; reflexivity|]. split; [vm_compute; reflexivity|].
    split; [exact Hc|]. split; [exact Ho|]. split; [exact Hg|].
    vm_compute; reflexivity.
  - destruct (H' 0x08900000 0x08900080) as (sem & Hs & _ & Ho & _ & Hh);
      try (vm_compute; reflexivity); try discriminate.
    split; [vm_compute; reflexivity|]. split; [discriminate|].
    split; [exact Ho|]. exists sem. split; [exact Hs | exact Hh].
Defined.

(** ** Waiting for a thread's end, with a control block *)

Section WaitRounds.
Context {S : Type} (h : handler S).

Lemma concat_repeat_succ {A : Type} (l : list A) (n : nat) :
  concat (repeat l (Datatypes.S n)) = l ++ concat (repeat l n).
Proof. reflexivity. Qed.

(** The loop of [pte_osThreadWaitForEnd] for a caller with a control
    block: whole rounds of probe, query and sleep, then the round that
    ends it, each decided by the answers. *)
Lemma pte_osThreadWaitForEnd_loop fuel p sem threadHandle m s :
  p <> NULL -> cancelSem_at m p = Some sem ->
  let r := run h (while1 fuel (pte_osThreadWaitForEnd_iter p threadHandle)) m s in
  let probes := answers on_sceKernelReferThreadRunStatus (trace_of r) in
  let queries := answers on_sceKernelReferSemaStatus (trace_of r) in
  let rounds := fun n => concat (repeat (wait_round threadHandle sem) n) in
  memory_of r = m /\
  exists n : nat,
    (n <= fuel)%nat /\
    ((outcome_of r = Returned PTE_OS_OK /\
      calls (trace_of r)
      = rounds n ++ [sceKernelReferThreadRunStatus threadHandle] /\
      (exists pre status,
          probes = pre ++ [(status, PSP_THREAD_STOPPED)] /\
          Forall not_stopped pre /\ List.length pre = n) /\
      Forall no_cancel queries /\ List.length queries = n) \/
     (exists pre q,
         queries = pre ++ [q] /\
         Forall no_cancel pre /\ List.length pre = n /\
         cancel_status q <> PTE_OS_OK /\
         outcome_of r = Returned (cancel_status q) /\
         calls (trace_of r)
         = rounds n ++ [sceKernelReferThreadRunStatus threadHandle;
                        sceKernelReferSemaStatus sem] /\
         Forall not_stopped probes /\ List.length probes = Datatypes.S n) \/
     (outcome_of r = Spin /\ n = fuel /\
      calls (trace_of r) = rounds n /\
      Forall not_stopped probes /\ List.length probes = n /\
      Forall no_cancel queries /\ List.length queries = n)).
Proof.
  intros Hp Hsem. apply Z.eqb_neq in Hp.
  revert m s Hsem. induction fuel as [|fuel IH]; intros m s Hsem.
  - simpl. split; [reflexivity|]. exists 0%nat. split; [lia|].
    right. right. repeat split; constructor.
  - cbv zeta. rewrite run_while1_succ. cbv zeta.
    rewrite pte_osThreadWaitForEnd_iter_run. cbv zeta.
    rewrite poll_cancel_run. rewrite Hp, Hsem. cbv zeta.
    destruct (h (sceKernelReferThreadRunStatus threadHandle) s) as [[st info] s1].
    simpl fst. simpl snd.
    destruct (info =? PSP_THREAD_STOPPED) eqn:E; simpl.
    { apply Z.eqb_eq in E. subst info.
      split; [reflexivity|]. exists 0%nat. split; [lia|]. left.
      split; [reflexivity|]. split; [reflexivity|].
      split; [exists [], st; repeat split; constructor|].
      split; [constructor | reflexivity]. }
    apply Z.eqb_neq in E.
    destruct (h (sceKernelReferSemaStatus sem) s1) as [[q cnt] s2].
    simpl fst. simpl snd.
    destruct (q =? SCE_KERNEL_ERROR_OK) eqn:Eq; simpl.
    + destruct (cnt >? 0) eqn:Ec; simpl.
      { split; [reflexivity|]. exists 0%nat. split; [lia|]. right. left.
        exists [], (q, cnt).
        assert (Hcs : cancel_status (q, cnt) = PTE_OS_INTERRUPTED).
        { unfold cancel_status. simpl. rewrite Eq, Ec. reflexivity. }
        rewrite Hcs.
        split; [reflexivity|]. split; [constructor|]. split; [reflexivity|].
        split; [discriminate|]. split; [reflexivity|]. split; [reflexivity|].
        split; [|reflexivity]. unfold answers. simpl.
        constructor; [exact E | constructor]. }
      destruct (h (sceKernelDelayThread POLLING_DELAY_IN_us) s2) as [d s3].
      simpl fst. simpl snd.
      assert (Hnc : no_cancel (q, cnt)).
      { unfold no_cancel, cancel_status. simpl. rewrite Eq, Ec. reflexivity. }
      destruct (IH m s3 Hsem) as (Hm & n & Hn & Hcase).
      cbv zeta in *.
      set (loop := run h (while1 fuel (pte_osThreadWaitForEnd_iter p threadHandle))
                     m s3) in *.
      split; [assumption|].
      exists (Datatypes.S n). split; [lia|].
      rewrite !concat_repeat_succ, <- ?app_assoc.
      destruct Hcase
        as [(Ho & Hc & (pre & st' & Hpr & Hpre & Hlen) & Hq & Hql)
           |[(pre & q' & Hq & Hpre & Hlen & Hne & Ho & Hc & Hpr & Hprl)
            |(Ho & Hn' & Hc & Hpr & Hprl & Hq & Hql)]].
      * left. split; [assumption|]. split; [rewrite Hc; reflexivity|].
        split.
        { exists ((st, info) :: pre), st'. rewrite Hpr.
          split; [reflexivity|]. split; [constructor; assumption|].
          simpl. rewrite Hlen. reflexivity. }
        split; [constructor; assumption|]. simpl. rewrite Hql. reflexivity.
      * right. left. exists ((q, cnt) :: pre), q'. rewrite Hq.
        split; [reflexivity|]. split; [constructor; assumption|].
        split; [simpl; rewrite Hlen; reflexivity|].
        split; [assumption|]. split; [assumption|].
        split; [rewrite Hc; reflexivity|].
        split; [constructor; assumption|]. simpl. rewrite Hprl. reflexivity.
      * right. right. split; [assumption|]. split; [lia|].
        split; [rewrite Hc; reflexivity|].
        split; [constructor; assumption|].
        split; [simpl; rewrite Hprl; reflexivity|].
        split; [constructor; assumption|]. simpl. rewrite Hql. reflexivity.
    + split; [reflexivity|]. exists 0%nat. split; [lia|]. right. left.
      exists [], (q, cnt).
      assert (Hcs : cancel_status (q, cnt) = PTE_OS_GENERAL_FAILURE).
      { unfold cancel_status. simpl. rewrite Eq. reflexivity. }
      rewrite Hcs.
      split; [reflexivity|]. split; [constructor|]. split; [reflexivity|].
      split; [discriminate|]. split; [reflexivity|]. split; [reflexivity|].
      split; [|reflexivity]. unfold answers. simpl.
      constructor; [exact E | constructor].
Qed.

End WaitRounds.

(** X11: a caller that has a control block with cancellation semaphore
    [sem] does not spin in [pte_osThreadWaitForEnd]: after finding its
    control block, it repeats the round "probe the thread, query [sem],
    sleep for the polling delay" as long as the probe finds the thread
    not stopped and the query shows no cancellation.  It returns
    [PTE_OS_OK] at the first probe that finds the thread stopped, and
    otherwise at the first query that does not show "no cancellation",
    with the status read off that query: [PTE_OS_INTERRUPTED] for a
    positive count, [PTE_OS_GENERAL_FAILURE] for a failed query.  Every
    probe but the last is followed by one sleep of
    [POLLING_DELAY_IN_us]; the file's variables are untouched. *)
Theorem pte_osThreadWaitForEnd_sleeps_between_probes :
  forall (S : Type) (h : handler S) (s : S) (m : memory) (fuel : nat)
         (threadHandle p sem : Z),
    let r := run h (pte_osThreadWaitForEnd fuel threadHandle) m s in
    let probes := answers on_sceKernelReferThreadRunStatus (trace_of r) in
    let queries := answers on_sceKernelReferSemaStatus (trace_of r) in
    answers on_pteTlsGetValue (trace_of r) = [p] ->
    p <> NULL ->
    cancelSem_at m p = Some sem ->
    memory_of r = m /\
    exists self name scanned (n : nat),
      let before := sceKernelGetThreadId :: lookup_calls self name scanned m
                    ++ concat (repeat (wait_round threadHandle sem) n) in
      (n <= fuel)%nat /\
      ((outcome_of r = Returned PTE_OS_OK /\
        calls (trace_of r)
        = before ++ [sceKernelReferThreadRunStatus threadHandle] /\
        (exists pre status,
            probes = pre ++ [(status, PSP_THREAD_STOPPED)] /\
            Forall not_stopped pre /\ List.length pre = n) /\
        Forall no_cancel queries /\ List.length queries = n) \/
       (exists pre q,
           queries = pre ++ [q] /\
           Forall no_cancel pre /\ List.length pre = n /\
           cancel_status q <> PTE_OS_OK /\
           outcome_of r = Returned (cancel_status q) /\
           calls (trace_of r)
           = before ++ [sceKernelReferThreadRunStatus threadHandle;
                        sceKernelReferSemaStatus sem] /\
           Forall not_stopped probes /\ List.length probes = Datatypes.S n) \/
       (outcome_of r = Spin /\ n = fuel /\
        calls (trace_of r) = before /\
        Forall not_stopped probes /\ List.length probes = n /\
        Forall no_cancel queries /\ List.length queries = n)).
Proof.
  intros S h s m fuel threadHandle p sem r probes queries Hans Hp Hsem.
  destruct (pte_osThreadWaitForEnd_run h fuel threadHandle m s)
    as (self & name & scanned & p' & pre & s1 & Hc & Hpre & Hs1 & Hp' & Hrun).
  unfold probes, queries, r in *. rewrite Hrun in *. clear Hrun. cbv zeta in *.
  cbn [outcome_of memory_of kernel_of trace_of] in *.
  rewrite answers_app, Hp' in Hans. injection Hans as <- _.
  assert (Hpr : answers on_sceKernelReferThreadRunStatus pre = []).
  { rewrite Hpre. reflexivity. }
  assert (Hq : answers on_sceKernelReferSemaStatus pre = []).
  { rewrite Hpre. reflexivity. }
  rewrite !answers_app, Hpr, Hq, calls_app, Hc. cbn [app].
  destruct (pte_osThreadWaitForEnd_loop h fuel p' sem threadHandle m s1 Hp Hsem)
    as (Hm & n & Hn & Hcase).
  cbv zeta in *.
  split; [assumption|].
  exists self, name, scanned, n. split; [assumption|].
  destruct Hcase
    as [(Ho & Hcl & Hprobes & Hqs)
       |[(pre' & q' & Hqs & Hpre' & Hlen & Hne & Ho & Hcl & Hprobes)
        |(Ho & Hn' & Hcl & Hrest)]].
  - left. split; [assumption|]. split; [|split; assumption].
    rewrite Hcl. cbn [app]. rewrite <- !app_assoc. reflexivity.
  - right. left. exists pre', q'.
    repeat (split; [assumption|]). split; [|assumption].
    rewrite Hcl. cbn [app]. rewrite <- !app_assoc. reflexivity.
  - right. right. split; [assumption|]. split; [assumption|].
    split; [|assumption]. rewrite Hcl. reflexivity.
Qed.

(** After [pte_osInit] on a roomy PSP, the ambient thread waits for a
    thread that another thread stops at time 250: three sleeps of 100,
    then [PTE_OS_OK].  With a cancellation posted first, the wait ends
    at its first query, with [PTE_OS_INTERRUPTED]. *)
Lemma pte_osThreadWaitForEnd_sleeps_between_probes_witness :
  let r0 := run Psp.kernel pte_osInit initial_memory
              (Psp.set_script [(250, Psp.EnvStop 1)] (Psp.boot 8 4096)) in
  let r := run Psp.kernel (pte_osThreadWaitForEnd 10 1) (memory_of r0) (kernel_of r0) in
  let c := run Psp.kernel (pte_osThreadCancel 1) (memory_of r0) (kernel_of r0) in
  let r' := run Psp.kernel (pte_osThreadWaitForEnd 10 1) (memory_of c) (kernel_of c) in
  (answers on_pteTlsGetValue (trace_of r) = [0x08900080] /\
   0x08900080 <> NULL /\
   cancelSem_at (memory_of r0) 0x08900080 = Some 2 /\
   memory_of r = memory_of r0 /\
   outcome_of r = Returned PTE_OS_OK /\
   List.length (filter is_sceKernelDelayThread (calls (trace_of r))) = 3%nat) /\
  (answers on_pteTlsGetValue (trace_of r') = [0x08900080] /\
   cancelSem_at (memory_of c) 0x08900080 = Some 2 /\
   memory_of r' = memory_of c /\
   outcome_of r' = Returned PTE_OS_INTERRUPTED /\
   answers on_sceKernelReferSemaStatus (trace_of r') = [(SCE_KERNEL_ERROR_OK, 1)]).
Proof.
  set (r0 := run Psp.kernel pte_osInit initial_memory
               (Psp.set_script [(250, Psp.EnvStop 1)] (Psp.boot 8 4096))).
  set (c := run Psp.kernel (pte_osThreadCancel 1) (memory_of r0) (kernel_of r0)).
  cbv zeta.
  pose proof (pte_osThreadWaitForEnd_sleeps_between_probes Psp.world Psp.kernel
                (kernel_of r0) (memory_of r0) 10 1 0x08900080 2) as H.
  pose proof (pte_osThreadWaitForEnd_sleeps_between_probes Psp.world Psp.kernel
                (kernel_of c) (memory_of c) 10 1 0x08900080 2) as H'.
  cbv zeta in H, H'.
  split.
  - split; [vm_compute; reflexivity |]. split; [discriminate |].
    split; [vm_compute; reflexivity |].
    destruct H as [Hm _].
    + vm_compute; reflexivity.
    + discriminate.
    + vm_compute; reflexivity.
    + split; [exact Hm |]. split; vm_compute; reflexivity.
  - split; [vm_compute; reflexivity |]. split; [vm_compute; reflexivity |].
    destruct H' as [Hm _].
    + vm_compute; reflexivity.
    + discriminate.
    + vm_compute; reflexivity.
    + split; [exact Hm |]. split; vm_compute; reflexivity.
Defined.

(** ** Composition on the reference kernel *)

(** A successful [pte_osThreadCreate] on the reference kernel, object by
    object. *)
Lemma psp_create_ok entry stackSize prio arg m w handle :
  let r := run Psp.kernel (pte_osThreadCreate entry stackSize prio arg) m w in
  outcome_of r = Returned (PTE_OS_OK, Some handle) ->
  let pTls := Psp.next_addr w in
  let p := Psp.next_addr w + Psp.sizeof_table w in
  let sem := Psp.next_uid w in
  let num := next_counter (threadNum m) in
  handle = Psp.next_uid w + 1 /\ 0 <= handle /\ pTls <> NULL /\ p <> NULL /\
  heap (memory_of r)
  = <[p := mkThreadData (Some entry) (Some arg) (Some sem)]> (heap m) /\
  threadDataKey (memory_of r) = threadDataKey m /\
  globalTls (memory_of r) = globalTls m /\
  Psp.semas (kernel_of r) = <[sem := Psp.mkSema 0 255]> (Psp.semas w) /\
  Psp.threads (kernel_of r)
  = <[handle := Psp.mkThread (thread_name num pTls) PSP_THREAD_STOPPED]>
      (Psp.threads w) /\
  Psp.tables (kernel_of r)
  = <[pTls := <[threadDataKey m := p]> ∅]> (Psp.tables w) /\
  Psp.blocks (kernel_of r) = {[p]} ∪ Psp.blocks w /\
  Psp.current (kernel_of r) = Psp.current w.
Proof.
  intros r. subst r.
  unfold pte_osThreadCreate, malloc_pspThreadData, free_pspThreadData, store_field.
  simpl. unfold Psp.tls_thread_init.
  destruct (Psp.heap_free w <? Psp.sizeof_table w) eqn:Eh; simpl.
  { intros H; discriminate H. }
  destruct (Psp.next_addr w =? NULL) eqn:Et; simpl.
  { intros H; discriminate H. }
  destruct (Psp.heap_free w - Psp.sizeof_table w <? Psp.sizeof_pspThreadData)
    eqn:Em; simpl.
  { intros H; discriminate H. }
  destruct (Psp.next_addr w + Psp.sizeof_table w =? NULL) eqn:Ep; simpl;
    rewrite ?Ep; simpl.
  { intros H; discriminate H. }
  unfold Psp.tls_set_value. simpl.
  repeat (rewrite lookup_insert_eq; simpl).
  unfold Psp.error.
  assert (Hnm : (to_int32 SCE_KERNEL_ERROR_NO_MEMORY
                 =? to_int32 SCE_KERNEL_ERROR_NO_MEMORY) = true) by reflexivity.
  assert (Hip : (to_int32 SCE_KERNEL_ERROR_ILLEGAL_PRIORITY
                 =? to_int32 SCE_KERNEL_ERROR_NO_MEMORY) = false) by reflexivity.
  assert (Hip' : (to_int32 SCE_KERNEL_ERROR_ILLEGAL_PRIORITY <? 0) = true)
    by reflexivity.
  destruct (Psp.kernel_free w) as [|k] eqn:Ek; simpl.
  { destruct ((prio <? 1) || (126 <? prio)); simpl; rewrite ?Ek; simpl;
      rewrite ?Hnm, ?Hip; simpl; rewrite ?Hip'; simpl; intros H; discriminate H. }
  destruct ((prio <? 1) || (126 <? prio)); simpl.
  { rewrite ?Hip; simpl; rewrite ?Hip'; simpl; intros H; discriminate H. }
  rewrite Ek. simpl. destruct k as [|k]; simpl.
  { rewrite ?Hnm; simpl; intros H; discriminate H. }
  destruct (Psp.next_uid w + 1 =? to_int32 SCE_KERNEL_ERROR_NO_MEMORY) eqn:E1; simpl.
  { intros H; discriminate H. }
  destruct (Psp.next_uid w + 1 <? 0) eqn:E2; simpl.
  { intros H; discriminate H. }
  intros H. injection H as <-.
  apply Z.eqb_neq in Et, Ep. apply Z.ltb_ge in E2.
  rewrite !insert_insert_eq.
  repeat (split; [first [assumption | reflexivity]|]). reflexivity.
Qed.

(** The two lookups on the reference kernel: they ask, and change
    nothing. *)
Lemma psp_getTlsStructFromThread w m thid th :
  Psp.threads w !! thid = Some th ->
  let r := run Psp.kernel (getTlsStructFromThread thid) m w in
  outcome_of r = Returned (table_of (Psp.scan_pthread (Psp.name th)) m) /\
  memory_of r = m /\ kernel_of r = w.
Proof.
  intros Hth. unfold getTlsStructFromThread. simpl. rewrite Hth. simpl.
  destruct (Psp.scan_pthread (Psp.name th)); repeat split.
Qed.

Lemma psp_getThreadData w m thid p sem :
  psp_registered w m thid p sem ->
  let r := run Psp.kernel (getThreadData thid) m w in
  outcome_of r = Returned p /\ memory_of r = m /\ kernel_of r = w.
Proof.
  intros (th & t & Hth & Htab & Hkey & _ & _).
  unfold getThreadData, getTlsStructFromThread. simpl. rewrite Hth. simpl.
  unfold Psp.tls_get_value.
  destruct (Psp.scan_pthread (Psp.name th)); simpl in *;
    rewrite Htab, Hkey; repeat split.
Qed.

Lemma psp_getThreadData_bind {R : Type} w m thid p sem (k : Z -> prog R) :
  psp_registered w m thid p sem ->
  let r := run Psp.kernel (bind (getThreadData thid) k) m w in
  let r' := run Psp.kernel (k p) m w in
  outcome_of r = outcome_of r' /\ memory_of r = memory_of r' /\
  kernel_of r = kernel_of r'.
Proof.
  intros Hreg. destruct (psp_getThreadData w m thid p sem Hreg) as (Ho & Hm & Hk).
  cbv zeta in *. rewrite run_bind. cbv zeta. rewrite Ho, Hm, Hk.
  repeat split.
Qed.

(** Registration depends on the threads and the tables only. *)
Lemma psp_registered_frame w w' m thid p sem :
  Psp.threads w' = Psp.threads w -> Psp.tables w' = Psp.tables w ->
  psp_registered w m thid p sem -> psp_registered w' m thid p sem.
Proof.
  intros Ht Htab (th & t & H1 & H2 & H3). exists th, t.
  rewrite Ht, Htab. auto.
Qed.

Lemma psp_CheckCancel w m thid p sem sm :
  psp_registered w m thid p sem ->
  Psp.semas w !! sem = Some sm ->
  let r := run Psp.kernel (pte_osThreadCheckCancel thid) m w in
  outcome_of r = Returned (if Psp.count sm >? 0 then PTE_OS_INTERRUPTED
                           else PTE_OS_OK) /\
  memory_of r = m /\ kernel_of r = w.
Proof.
  intros Hreg Hsm. unfold pte_osThreadCheckCancel.
  match goal with
  | |- context [bind (getThreadData thid) ?k] =>
      destruct (psp_getThreadData_bind w m thid p sem k Hreg) as (Ho & Hm & Hk)
  end.
  cbv zeta in *. rewrite Ho, Hm, Hk. clear Ho Hm Hk.
  destruct Hreg as (th & t & _ & _ & _ & Hp & Hsem).
  apply Z.eqb_neq in Hp. rewrite Hp.
  unfold load_cancelSem. unfold cancelSem_at in Hsem. simpl.
  destruct (heap m !! p) as [d|]; [|discriminate Hsem]. simpl.
  rewrite Hsem. simpl. rewrite Hsm. simpl.
  destruct (Psp.count sm >? 0); repeat split.
Qed.

Lemma psp_Cancel w m thid p sem sm :
  psp_registered w m thid p sem ->
  Psp.semas w !! sem = Some sm ->
  let r := run Psp.kernel (pte_osThreadCancel thid) m w in
  memory_of r = m /\
  if Psp.count sm + 1 <=? Psp.maxCount sm then
    outcome_of r = Returned PTE_OS_OK /\
    kernel_of r
    = Psp.set_semas (insert sem (Psp.mkSema (Psp.count sm + 1) (Psp.maxCount sm))) w
  else
    outcome_of r = Returned PTE_OS_GENERAL_FAILURE /\ kernel_of r = w.
Proof.
  intros Hreg Hsm. unfold pte_osThreadCancel.
  match goal with
  | |- context [bind (getThreadData thid) ?k] =>
      destruct (psp_getThreadData_bind w m thid p sem k Hreg) as (Ho & Hm & Hk)
  end.
  cbv zeta in *. rewrite Ho, Hm, Hk. clear Ho Hm Hk.
  destruct Hreg as (th & t & _ & _ & _ & Hp & Hsem).
  unfold load_cancelSem. unfold cancelSem_at in Hsem. simpl.
  destruct (heap m !! p) as [d|]; [|discriminate Hsem]. simpl.
  rewrite Hsem. simpl. rewrite Hsm. simpl.
  destruct (Psp.count sm + 1 <=? Psp.maxCount sm); simpl; repeat split.
Qed.

(** X12: on the reference kernel, a thread that is known to the library
    and whose cancellation semaphore counts [c] of at most [mx] is
    reported by [pte_osThreadCheckCancel] as cancelled exactly when
    [c > 0], and the check changes nothing.  [pte_osThreadCancel] adds
    one to the count and returns [PTE_OS_OK] as long as the maximum
    (255 for the semaphores this file creates) is not exceeded; from then
    on every check of the thread reports [PTE_OS_INTERRUPTED].  At the
    maximum, the cancel changes nothing and returns
    [PTE_OS_GENERAL_FAILURE]. *)
Theorem cancel_then_check_on_psp :
  forall (w : Psp.world) (m : memory) (thid p sem c mx : Z),
    psp_registered w m thid p sem ->
    Psp.semas w !! sem = Some (Psp.mkSema c mx) ->
    0 <= c ->
    let check := run Psp.kernel (pte_osThreadCheckCancel thid) m w in
    let cancel := run Psp.kernel (pte_osThreadCancel thid) m w in
    let check' := run Psp.kernel (pte_osThreadCheckCancel thid)
                    (memory_of cancel) (kernel_of cancel) in
    (outcome_of check = Returned (if c >? 0 then PTE_OS_INTERRUPTED else PTE_OS_OK) /\
     memory_of check = m /\ kernel_of check = w) /\
    (c + 1 <= mx ->
     outcome_of cancel = Returned PTE_OS_OK /\
     Psp.semas (kernel_of cancel) = <[sem := Psp.mkSema (c + 1) mx]> (Psp.semas w) /\
     psp_registered (kernel_of cancel) (memory_of cancel) thid p sem /\
     outcome_of check' = Returned PTE_OS_INTERRUPTED) /\
    (mx < c + 1 ->
     outcome_of cancel = Returned PTE_OS_GENERAL_FAILURE /\
     kernel_of cancel = w /\ memory_of cancel = m).
Proof.
  intros w m thid p sem c mx Hreg Hsm Hc check cancel check'.
  destruct (psp_Cancel w m thid p sem _ Hreg Hsm) as (Hm & Hcase).
  fold cancel in Hm, Hcase. cbn [Psp.count Psp.maxCount] in Hcase.
  split; [|split].
  - apply (psp_CheckCancel w m thid p sem _ Hreg Hsm).
  - intros Hle. apply Z.leb_le in Hle. rewrite Hle in Hcase.
    destruct Hcase as (Ho & Hk).
    assert (Hreg' : psp_registered (kernel_of cancel) (memory_of cancel) thid p sem).
    { rewrite Hm, Hk. apply (psp_registered_frame w); [reflexivity..|assumption]. }
    assert (Hsm' : Psp.semas (kernel_of cancel) !! sem = Some (Psp.mkSema (c + 1) mx)).
    { rewrite Hk. simpl. apply lookup_insert_eq. }
    split; [assumption|]. split; [rewrite Hk; reflexivity|]. split; [assumption|].
    destruct (psp_CheckCancel _ _ thid p sem _ Hreg' Hsm') as (Ho' & _).
    fold check' in Ho'. rewrite Ho'. simpl.
    assert (Hpos : (c + 1 >? 0) = true) by (apply Z.gtb_lt; lia).
    rewrite Hpos. reflexivity.
  - intros Hgt. apply Z.leb_gt in Hgt. rewrite Hgt in Hcase.
    destruct Hcase as (Ho & Hk). auto.
Qed.

Lemma cancel_then_check_on_psp_witness :
  let r0 := run Psp.kernel pte_osInit initial_memory (Psp.boot 8 4096) in
  let m := memory_of r0 in
  let w := kernel_of r0 in
  psp_registered w m 1 0x08900080 2 /\
  Psp.semas w !! 2 = Some (Psp.mkSema 0 255) /\
  outcome_of (run Psp.kernel (pte_osThreadCheckCancel 1) m w) = Returned PTE_OS_OK /\
  outcome_of (run Psp.kernel (pte_osThreadCancel 1) m w) = Returned PTE_OS_OK.
Proof.
  set (r0 := run Psp.kernel pte_osInit initial_memory (Psp.boot 8 4096)).
  cbv zeta.
  assert (Hreg : psp_registered (kernel_of r0) (memory_of r0) 1 0x08900080 2).
  { exists (Psp.mkThread "user_main" PSP_THREAD_READY), {[ 0 := 0x08900080 ]}.
    split; [vm_compute; reflexivity|]. split; [vm_compute; reflexivity|].
    split; [vm_compute; reflexivity|]. split; [discriminate|].
    vm_compute; reflexivity. }
  assert (Hsm : Psp.semas (kernel_of r0) !! 2 = Some (Psp.mkSema 0 255))
    by (vm_compute; reflexivity).
  split; [exact Hreg|]. split; [exact Hsm|].
  pose proof (cancel_then_check_on_psp (kernel_of r0) (memory_of r0) 1 0x08900080
                2 0 255 Hreg Hsm ltac:(lia)) as H.
  cbv zeta in H. destruct H as ((Ho & _) & Hcancel & _).
  split; [exact Ho|].
  destruct Hcancel as (Hc & _); [lia | exact Hc].
Defined.

(** X13: on the reference kernel, with addresses of 32 bits, a
    [pte_osThreadCreate] that returns [PTE_OS_OK] has made the new thread
    known to the library: the handle it returned resolves, through the
    thread's name, to the table just allocated, and through the table to
    the control block just allocated, which holds the caller's entry
    point, its argument and a new cancellation semaphore with count 0 of
    at most 255.  So a cancellation check of the new thread returns
    [PTE_OS_OK]. *)
Theorem created_thread_is_registered :
  forall (w : Psp.world) (m : memory) (entry stackSize prio arg handle : Z),
    0 <= threadNum m <= MAX_PSP_UID + 1 ->
    0 <= Psp.next_addr w < 2 ^ 32 ->
    let r := run Psp.kernel (pte_osThreadCreate entry stackSize prio arg) m w in
    outcome_of r = Returned (PTE_OS_OK, Some handle) ->
    exists pTls p sem,
      outcome_of (run Psp.kernel (getTlsStructFromThread handle)
                    (memory_of r) (kernel_of r)) = Returned pTls /\
      Psp.tables (kernel_of r) !! pTls = Some {[ threadDataKey m := p ]} /\
      outcome_of (run Psp.kernel (getThreadData handle)
                    (memory_of r) (kernel_of r)) = Returned p /\
      heap (memory_of r) !! p
      = Some (mkThreadData (Some entry) (Some arg) (Some sem)) /\
      Psp.semas (kernel_of r) !! sem = Some (Psp.mkSema 0 255) /\
      psp_registered (kernel_of r) (memory_of r) handle p sem /\
      outcome_of (run Psp.kernel (pte_osThreadCheckCancel handle)
                    (memory_of r) (kernel_of r)) = Returned PTE_OS_OK.
Proof.
  intros w m entry stackSize prio arg handle Hnum Haddr r Hok.
  destruct (psp_create_ok entry stackSize prio arg m w handle Hok)
    as (Hh & Hpos & Ht & Hp & Hheap & Hkey & Hglobal & Hsemas & Hthreads
        & Htables & Hblocks & Hcur).
  fold r in Hheap, Hkey, Hglobal, Hsemas, Hthreads, Htables, Hblocks, Hcur.
  set (pTls := Psp.next_addr w) in *.
  set (p := Psp.next_addr w + Psp.sizeof_table w) in *.
  set (sem := Psp.next_uid w) in *.
  set (num := next_counter (threadNum m)) in *.
  assert (Hrange : 0 <= num <= 9999).
  { destruct (next_counter_cycle (threadNum m) Hnum) as [Hr _].
    unfold MAX_PSP_UID in Hr. fold num in Hr. lia. }
  assert (Hth : Psp.threads (kernel_of r) !! handle
                = Some (Psp.mkThread (thread_name num pTls) PSP_THREAD_STOPPED)).
  { rewrite Hthreads. apply lookup_insert_eq. }
  assert (Hscan : table_of (Psp.scan_pthread (thread_name num pTls)) (memory_of r)
                  = pTls).
  { rewrite scan_pthread_thread_name by assumption. reflexivity. }
  assert (Htab : Psp.tables (kernel_of r) !! pTls = Some {[ threadDataKey m := p ]}).
  { rewrite Htables. apply lookup_insert_eq. }
  assert (Hblock : heap (memory_of r) !! p
                   = Some (mkThreadData (Some entry) (Some arg) (Some sem))).
  { rewrite Hheap. apply lookup_insert_eq. }
  assert (Hsm : Psp.semas (kernel_of r) !! sem = Some (Psp.mkSema 0 255)).
  { rewrite Hsemas. apply lookup_insert_eq. }
  assert (Hreg : psp_registered (kernel_of r) (memory_of r) handle p sem).
  { eexists _, _. split; [exact Hth|]. simpl Psp.name. rewrite Hscan.
    split; [exact Htab|]. rewrite Hkey.
    split; [apply lookup_insert_eq|]. split; [assumption|].
    unfold cancelSem_at. rewrite Hblock. reflexivity. }
  exists pTls, p, sem.
  split.
  { destruct (psp_getTlsStructFromThread (kernel_of r) (memory_of r) handle _ Hth)
      as (Ho & _). rewrite Ho. simpl Psp.name. rewrite Hscan. reflexivity. }
  split; [exact Htab|].
  split.
  { apply (psp_getThreadData _ _ _ _ _ Hreg). }
  split; [exact Hblock|]. split; [exact Hsm|]. split; [exact Hreg|].
  destruct (psp_CheckCancel _ _ handle p sem _ Hreg Hsm) as (Ho & _).
  exact Ho.
Qed.

Lemma created_thread_is_registered_witness :
  let w := Psp.set_keys ∅ 32 (Psp.boot 4 4096) in
  let r := run Psp.kernel (pte_osThreadCreate 77 8192 20 0) initial_memory w in
  0 <= threadNum initial_memory <= MAX_PSP_UID + 1 /\
  0 <= Psp.next_addr w < 2 ^ 32 /\
  outcome_of r = Returned (PTE_OS_OK, Some 3) /\
  exists pTls p sem,
    outcome_of (run Psp.kernel (getTlsStructFromThread 3)
                  (memory_of r) (kernel_of r)) = Returned pTls /\
    Psp.tables (kernel_of r) !! pTls = Some {[ threadDataKey initial_memory := p ]} /\
    outcome_of (run Psp.kernel (getThreadData 3)
                  (memory_of r) (kernel_of r)) = Returned p /\
    heap (memory_of r) !! p
    = Some (mkThreadData (Some 77) (Some 0) (Some sem)) /\
    Psp.semas (kernel_of r) !! sem = Some (Psp.mkSema 0 255) /\
    psp_registered (kernel_of r) (memory_of r) 3 p sem /\
    outcome_of (run Psp.kernel (pte_osThreadCheckCancel 3)
                  (memory_of r) (kernel_of r)) = Returned PTE_OS_OK.
Proof.
  split; [simpl; unfold MAX_PSP_UID; lia |].
  split; [simpl; lia |].
  split; [vm_compute; reflexivity |].
  apply (created_thread_is_registered (Psp.set_keys ∅ 32 (Psp.boot 4 4096))
           initial_memory 77 8192 20 0 3).
  - simpl; unfold MAX_PSP_UID; lia.
  - simpl; lia.
  - vm_compute; reflexivity.
Defined.

Lemma gset_add_remove (p : Z) (B : gset Z) :
  p ∉ B -> ({[p]} ∪ B) ∖ {[p]} = B.
Proof.
  intros Hp. apply set_eq. intros x.
  rewrite elem_of_difference, elem_of_union, !elem_of_singleton. split.
  - intros [[->|H] Hne]; [contradiction Hne; reflexivity | exact H].
  - intros H. split; [right; exact H | intros ->; contradiction].
Qed.

(** [pte_osThreadDelete] of a thread known to the library, on the
    reference kernel. *)
Lemma psp_Delete w m thid p sem th :
  psp_registered w m thid p sem ->
  Psp.threads w !! thid = Some th ->
  let r := run Psp.kernel (pte_osThreadDelete thid) m w in
  outcome_of r = Returned PTE_OS_OK /\
  memory_of r = set_heap (delete p) m /\
  Psp.semas (kernel_of r) = delete sem (Psp.semas w) /\
  Psp.blocks (kernel_of r) = Psp.blocks w ∖ {[p]} /\
  Psp.tables (kernel_of r)
  = delete (table_of (Psp.scan_pthread (Psp.name th)) m) (Psp.tables w) /\
  Psp.threads (kernel_of r) = delete thid (Psp.threads w).
Proof.
  intros Hreg Hth. unfold pte_osThreadDelete. rewrite run_bind.
  destruct (psp_getTlsStructFromThread w m thid th Hth) as (Ho1 & Hm1 & Hk1).
  cbv zeta in *. rewrite Ho1, Hm1, Hk1.
  cbn [outcome_of memory_of kernel_of trace_of].
  match goal with
  | |- context [bind (getThreadData thid) ?k] =>
      destruct (psp_getThreadData_bind w m thid p sem k Hreg) as (Ho & Hm & Hk)
  end.
  cbv zeta in *. rewrite Ho, Hm, Hk. clear Ho Hm Hk Ho1 Hm1 Hk1.
  destruct Hreg as (th' & t & _ & _ & _ & Hp & Hsem).
  unfold load_cancelSem, free_pspThreadData. unfold cancelSem_at in Hsem. simpl.
  destruct (heap m !! p) as [d|]; [|discriminate Hsem]. simpl.
  rewrite Hsem. simpl.
  destruct (Psp.semas w !! sem) as [sm|] eqn:Hsm; simpl; rewrite Hth; simpl;
    repeat split.
  symmetry. apply delete_id. assumption.
Qed.

(** X14: on the reference kernel, deleting a thread right after it was
    created gives back everything the creation took: when the
    identifiers and addresses handed out were not in use, a successful
    [pte_osThreadCreate] followed by [pte_osThreadDelete] of the handle
    returns [PTE_OS_OK] and leaves the kernel's semaphores, threads, TLS
    tables and heap blocks, and the file's control blocks, as they were
    before the creation. *)
Theorem create_then_delete_restores :
  forall (w : Psp.world) (m : memory) (entry stackSize prio arg handle : Z),
    0 <= threadNum m <= MAX_PSP_UID + 1 ->
    0 <= Psp.next_addr w < 2 ^ 32 ->
    psp_fresh w m ->
    let r := run Psp.kernel (pte_osThreadCreate entry stackSize prio arg) m w in
    outcome_of r = Returned (PTE_OS_OK, Some handle) ->
    let r' := run Psp.kernel (pte_osThreadDelete handle) (memory_of r) (kernel_of r) in
    outcome_of r' = Returned PTE_OS_OK /\
    heap (memory_of r') = heap m /\
    Psp.semas (kernel_of r') = Psp.semas w /\
    Psp.threads (kernel_of r') = Psp.threads w /\
    Psp.tables (kernel_of r') = Psp.tables w /\
    Psp.blocks (kernel_of r') = Psp.blocks w.
Proof.
  intros w m entry stackSize prio arg handle Hnum Haddr
    (Fsem & Fth & Ftab & Fblk & Fheap) r Hok r'.
  destruct (psp_create_ok entry stackSize prio arg m w handle Hok)
    as (Hh & Hpos & Ht & Hp & Hheap & Hkey & Hglobal & Hsemas & Hthreads
        & Htables & Hblocks & Hcur).
  fold r in Hheap, Hkey, Hglobal, Hsemas, Hthreads, Htables, Hblocks, Hcur.
  set (pTls := Psp.next_addr w) in *.
  set (p := Psp.next_addr w + Psp.sizeof_table w) in *.
  set (sem := Psp.next_uid w) in *.
  set (num := next_counter (threadNum m)) in *.
  assert (Hrange : 0 <= num <= 9999).
  { destruct (next_counter_cycle (threadNum m) Hnum) as [Hr _].
    unfold MAX_PSP_UID in Hr. fold num in Hr. lia. }
  assert (Hth : Psp.threads (kernel_of r) !! handle
                = Some (Psp.mkThread (thread_name num pTls) PSP_THREAD_STOPPED)).
  { rewrite Hthreads. apply lookup_insert_eq. }
  assert (Hscan : table_of (Psp.scan_pthread (thread_name num pTls)) (memory_of r)
                  = pTls).
  { rewrite scan_pthread_thread_name by assumption. reflexivity. }
  assert (Hreg : psp_registered (kernel_of r) (memory_of r) handle p sem).
  { eexists _, _. split; [exact Hth|]. simpl Psp.name. rewrite Hscan.
    split; [rewrite Htables; apply lookup_insert_eq|]. rewrite Hkey.
    split; [apply lookup_insert_eq|]. split; [assumption|].
    unfold cancelSem_at. rewrite Hheap, lookup_insert_eq. reflexivity. }
  destruct (psp_Delete _ _ handle p sem _ Hreg Hth)
    as (Ho & Hm & Hs & Hb & Hta & Hthr).
  fold r' in Ho, Hm, Hs, Hb, Hta, Hthr. simpl Psp.name in Hta.
  rewrite Hscan in Hta.
  split; [exact Ho|].
  split; [rewrite Hm; unfold set_heap; cbn [heap]; rewrite Hheap;
          apply delete_insert_id; assumption|].
  split; [rewrite Hs, Hsemas; apply delete_insert_id; assumption|].
  split; [rewrite Hthr, Hthreads, Hh; apply delete_insert_id; assumption|].
  split; [rewrite Hta, Htables; apply delete_insert_id; assumption|].
  rewrite Hb, Hblocks. apply gset_add_remove. assumption.
Qed.

Lemma create_then_delete_restores_witness :
  let w := Psp.set_keys ∅ 32 (Psp.boot 4 4096) in
  let r := run Psp.kernel (pte_osThreadCreate 77 8192 20 0) initial_memory w in
  let r' := run Psp.kernel (pte_osThreadDelete 3) (memory_of r) (kernel_of r) in
  psp_fresh w initial_memory /\
  outcome_of r = Returned (PTE_OS_OK, Some 3) /\
  outcome_of r' = Returned PTE_OS_OK /\
  heap (memory_of r') = heap initial_memory /\
  Psp.semas (kernel_of r') = Psp.semas w /\
  Psp.threads (kernel_of r') = Psp.threads w /\
  Psp.tables (kernel_of r') = Psp.tables w /\
  Psp.blocks (kernel_of r') = Psp.blocks w.
Proof.
  assert (Hfresh : psp_fresh (Psp.set_keys ∅ 32 (Psp.boot 4 4096)) initial_memory).
  { repeat split; try (vm_compute; reflexivity). simpl. apply not_elem_of_empty. }
  split; [exact Hfresh |].
  split; [vm_compute; reflexivity |].
  apply (create_then_delete_restores (Psp.set_keys ∅ 32 (Psp.boot 4 4096))
           initial_memory 77 8192 20 0 3).
  - simpl; unfold MAX_PSP_UID; lia.
  - simpl; lia.
  - exact Hfresh.
  - vm_compute; reflexivity.
Defined.

(** ** Thread-local values of the calling thread *)

(** X15: on the reference kernel, for a calling thread whose name
    resolves to an existing table, [pte_osTlsSetValue] returns
    [PTE_OS_OK]; from then on [pte_osTlsGetValue] of the same thread gives
    the value just stored under that key and, under any other key, what
    the table held before; the tables of threads that resolve elsewhere
    are untouched.  Both functions find the table through the caller's
    thread name, and agree on it. *)
Theorem tls_set_then_get_on_psp :
  forall (w : Psp.world) (m : memory) (key value : Z) (th : Psp.thread)
         (t : gmap Z Z),
    Psp.threads w !! Psp.current w = Some th ->
    Psp.tables w !! table_of (Psp.scan_pthread (Psp.name th)) m = Some t ->
    let set := run Psp.kernel (pte_osTlsSetValue key value) m w in
    outcome_of set = Returned PTE_OS_OK /\
    memory_of set = m /\
    (forall key',
        outcome_of (run Psp.kernel (pte_osTlsGetValue key') m (kernel_of set))
        = Returned (if key' =? key then value else default NULL (t !! key'))) /\
    (forall other,
        other <> table_of (Psp.scan_pthread (Psp.name th)) m ->
        Psp.tables (kernel_of set) !! other = Psp.tables w !! other) /\
    Psp.threads (kernel_of set) = Psp.threads w.
Proof.
  intros w m key value th t Hth Htab set. subst set.
  unfold pte_osTlsSetValue, pte_osTlsGetValue, getTlsStructFromThread.
  simpl. rewrite Hth. simpl.
  assert (Hset : Psp.tls_set_value (table_of (Psp.scan_pthread (Psp.name th)) m)
                   key value w
                 = (PTE_OS_OK,
                    Psp.set_tables
                      (insert (table_of (Psp.scan_pthread (Psp.name th)) m)
                         (<[key := value]> t)) w)).
  { unfold Psp.tls_set_value. rewrite Htab. reflexivity. }
  destruct (Psp.scan_pthread (Psp.name th)) eqn:Hscan; simpl in *;
    rewrite Hset; simpl; rewrite ?Hth; simpl; rewrite ?Hscan; simpl;
    unfold Psp.tls_get_value; simpl;
    (split; [reflexivity|]); (split; [reflexivity|]);
    (split; [|split; [|reflexivity]]);
    try (intros other Hne; apply lookup_insert_ne; congruence);
    intros key'; rewrite lookup_insert_eq; simpl;
    (destruct (key' =? key) eqn:E;
     [apply Z.eqb_eq in E; subst key'; rewrite lookup_insert_eq; reflexivity
     |apply Z.eqb_neq in E; rewrite lookup_insert_ne by congruence; reflexivity]).
Qed.

Lemma tls_set_then_get_on_psp_witness :
  let r0 := run Psp.kernel pte_osInit initial_memory (Psp.boot 8 4096) in
  let m := memory_of r0 in
  let w := kernel_of r0 in
  let set := run Psp.kernel (pte_osTlsSetValue 5 99) m w in
  Psp.threads w !! Psp.current w = Some (Psp.mkThread "user_main" PSP_THREAD_READY) /\
  Psp.tables w !! table_of (Psp.scan_pthread "user_main") m
  = Some {[ 0 := 0x08900080 ]} /\
  outcome_of set = Returned PTE_OS_OK /\
  outcome_of (run Psp.kernel (pte_osTlsGetValue 5) m (kernel_of set)) = Returned 99.
Proof.
  set (r0 := run Psp.kernel pte_osInit initial_memory (Psp.boot 8 4096)).
  cbv zeta.
  assert (Hth : Psp.threads (kernel_of r0) !! Psp.current (kernel_of r0)
                = Some (Psp.mkThread "user_main" PSP_THREAD_READY))
    by (vm_compute; reflexivity).
  assert (Htab : Psp.tables (kernel_of r0)
                 !! table_of (Psp.scan_pthread "user_main") (memory_of r0)
                 = Some {[ 0 := 0x08900080 ]}) by (vm_compute; reflexivity).
  split; [exact Hth |]. split; [exact Htab |].
  pose proof (tls_set_then_get_on_psp (kernel_of r0) (memory_of r0) 5 99 _ _
                Hth Htab) as H.
  cbv zeta in H. destruct H as (Ho & _ & Hget & _).
  split; [exact Ho |]. exact (Hget 5).
Defined.

(** ** Initialization, end to end *)

Lemma first_free_empty (n : nat) (k : Z) :
  Psp.first_free (Datatypes.S n) k ∅ = Some k.
Proof.
  simpl. destruct (decide (k ∈ (∅ : gset Z))) as [Hin|_]; [|reflexivity].
  apply not_elem_of_empty in Hin. contradiction.
Qed.

Section InitChain.
Context {S : Type} (h : handler S).

(** [pte_osInit] when every step succeeds, by the kernel's answers. *)
Lemma pte_osInit_chain m s s1 s2 s3 s4 s5 s6 key table p sv sem :
  h (pteTlsGlobalInit PSP_MAX_TLS) s = (PTE_OS_OK, s1) ->
  h pteTlsAlloc s1 = ((PTE_OS_OK, Some key), s2) ->
  h pteTlsThreadInit s2 = (table, s3) ->
  h malloc s3 = (p, s4) ->
  p <> NULL ->
  h (pteTlsSetValue table key p) s4 = (sv, s5) ->
  h (sceKernelCreateSema (snprintf 64 "pthread_cancelSemGlobal") 0 0 255 0) s5
  = (sem, s6) ->
  let r := run h pte_osInit m s in
  outcome_of r = Returned PTE_OS_OK /\
  memory_of r
  = set_heap (insert p (mkThreadData None None (Some sem)))
      (set_globalTls table (set_threadDataKey key m)) /\
  kernel_of r = s6.
Proof.
  intros H0 H1 H2 H3 Hp H4 H5.
  unfold pte_osInit, malloc_pspThreadData, store_field. simpl.
  rewrite H0. simpl. rewrite H1. simpl. rewrite H2. simpl. rewrite H3. simpl.
  apply Z.eqb_neq in Hp. rewrite Hp. simpl. rewrite Hp. simpl.
  rewrite H4. simpl. rewrite H5. simpl.
  rewrite lookup_insert_eq. simpl.
  split; [reflexivity|]. split; [|reflexivity].
  unfold set_heap. simpl. f_equal. apply insert_insert_eq.
Qed.

End InitChain.

Lemma psp_init_ok w m :
  0 <= Psp.next_addr w ->
  4 * PSP_MAX_TLS + Psp.sizeof_pspThreadData <= Psp.heap_free w ->
  (1 <= Psp.kernel_free w)%nat ->
  let r := run Psp.kernel pte_osInit m w in
  let table := Psp.next_addr w in
  let p := Psp.next_addr w + 4 * PSP_MAX_TLS in
  let sem := Psp.next_uid w in
  outcome_of r = Returned PTE_OS_OK /\
  globalTls (memory_of r) = table /\
  threadDataKey (memory_of r) = 0 /\
  heap (memory_of r) = <[p := mkThreadData None None (Some sem)]> (heap m) /\
  Psp.semas (kernel_of r) = <[sem := Psp.mkSema 0 255]> (Psp.semas w) /\
  Psp.threads (kernel_of r) = Psp.threads w /\
  Psp.tables (kernel_of r) = <[table := {[ 0 := p ]}]> (Psp.tables w) /\
  Psp.current (kernel_of r) = Psp.current w.
Proof.
  intros Haddr Hheap Hk r table p sem.
  set (w1 := Psp.set_keys ∅ PSP_MAX_TLS w).
  set (w2 := Psp.set_keys ({[0]} ∪ ∅) PSP_MAX_TLS w1).
  set (w3 := Psp.take_addr (4 * PSP_MAX_TLS) (Psp.set_tables (insert table ∅) w2)).
  set (w4 := Psp.take_addr Psp.sizeof_pspThreadData
               (Psp.set_blocks (union {[p]}) w3)).
  set (w5 := Psp.set_tables (insert table {[ 0 := p ]}) w4).
  set (w6 := Psp.take_uid (Psp.set_semas (insert sem (Psp.mkSema 0 255)) w5)).
  assert (H0 : Psp.kernel (pteTlsGlobalInit PSP_MAX_TLS) w = (PTE_OS_OK, w1))
    by reflexivity.
  assert (H1 : Psp.kernel pteTlsAlloc w1 = ((PTE_OS_OK, Some 0), w2)).
  { unfold Psp.kernel, Psp.tls_alloc. unfold w1 at 1 2. cbn [Psp.maxKeys Psp.keys Psp.set_keys].
    change (Z.to_nat PSP_MAX_TLS) with 32%nat. rewrite first_free_empty. reflexivity. }
  assert (H2 : Psp.kernel pteTlsThreadInit w2 = (table, w3)).
  { unfold Psp.kernel, Psp.tls_thread_init, Psp.sizeof_table.
    change (Psp.heap_free w2) with (Psp.heap_free w).
    change (Psp.maxKeys w2) with PSP_MAX_TLS.
    destruct (Psp.heap_free w <? 4 * PSP_MAX_TLS) eqn:E; [|reflexivity].
    apply Z.ltb_lt in E. unfold Psp.sizeof_pspThreadData in Hheap. lia. }
  assert (H3 : Psp.kernel malloc w3 = (p, w4)).
  { unfold Psp.kernel.
    change (Psp.heap_free w3) with (Psp.heap_free w - 4 * PSP_MAX_TLS).
    destruct (Psp.heap_free w - 4 * PSP_MAX_TLS <? Psp.sizeof_pspThreadData) eqn:E;
      [|reflexivity].
    apply Z.ltb_lt in E. lia. }
  assert (Hp : p <> NULL).
  { unfold p, NULL, PSP_MAX_TLS. lia. }
  assert (H4 : Psp.kernel (pteTlsSetValue table 0 p) w4 = (PTE_OS_OK, w5)).
  { unfold Psp.kernel, Psp.tls_set_value.
    change (Psp.tables w4) with (<[table := ∅]> (Psp.tables w)).
    rewrite lookup_insert_eq. unfold w5. rewrite insert_empty.
    unfold Psp.set_tables at 1.
    change (Psp.tables w4) with (<[table := ∅]> (Psp.tables w)).
    reflexivity. }
  assert (H5 : Psp.kernel (sceKernelCreateSema
                              (snprintf 64 "pthread_cancelSemGlobal") 0 0 255 0) w5
               = (sem, w6)).
  { unfold Psp.kernel. change (Psp.kernel_free w5) with (Psp.kernel_free w).
    destruct (Psp.kernel_free w) as [|k] eqn:Ek; [lia|]. reflexivity. }
  destruct (pte_osInit_chain Psp.kernel m w w1 w2 w3 w4 w5 w6 0 table p PTE_OS_OK
              sem H0 H1 H2 H3 Hp H4 H5) as (Ho & Hm & Hw).
  fold r in Ho, Hm, Hw. rewrite Ho, Hm, Hw.
  split; [reflexivity|]. split; [reflexivity|]. split; [reflexivity|].
  split; [reflexivity|]. split; [reflexivity|]. split; [reflexivity|].
  split; [|reflexivity].
  unfold w6, w5, w4, w3, w2, w1.
  cbn [Psp.tables Psp.take_uid Psp.set_semas Psp.set_tables Psp.take_addr
         Psp.set_blocks Psp.set_keys].
  apply insert_insert_eq.
Qed.


(** X16: on the reference kernel, with room for one table, one control
    block and one semaphore, [pte_osInit] returns [PTE_OS_OK] and makes
    the calling thread, which this library did not create, known to the
    library: its name does not scan as a library thread's, so it resolves
    to [globalTls], where the key allocated by [pte_osInit] leads to a
    control block with a new cancellation semaphore of count 0.  A
    cancellation check of the caller then returns [PTE_OS_OK]. *)
Theorem init_registers_the_caller :
  forall (w : Psp.world) (m : memory) (th : Psp.thread),
    Psp.threads w !! Psp.current w = Some th ->
    numMatches (Psp.scan_pthread (Psp.name th)) <> 2 ->
    0 <= Psp.next_addr w ->
    4 * PSP_MAX_TLS + Psp.sizeof_pspThreadData <= Psp.heap_free w ->
    (1 <= Psp.kernel_free w)%nat ->
    let r := run Psp.kernel pte_osInit m w in
    outcome_of r = Returned PTE_OS_OK /\
    exists p sem,
      Psp.tables (kernel_of r) !! globalTls (memory_of r)
      = Some {[ threadDataKey (memory_of r) := p ]} /\
      psp_registered (kernel_of r) (memory_of r) (Psp.current w) p sem /\
      Psp.semas (kernel_of r) !! sem = Some (Psp.mkSema 0 255) /\
      outcome_of (run Psp.kernel (pte_osThreadCheckCancel (Psp.current w))
                    (memory_of r) (kernel_of r)) = Returned PTE_OS_OK.
Proof.
  intros w m th Hth Hscan Haddr Hheap Hk r.
  destruct (psp_init_ok w m Haddr Hheap Hk)
    as (Ho & Hglobal & Hkey & Hh & Hsemas & Hthreads & Htables & Hcur).
  fold r in Ho, Hglobal, Hkey, Hh, Hsemas, Hthreads, Htables, Hcur.
  set (p := Psp.next_addr w + 4 * PSP_MAX_TLS) in *.
  set (sem := Psp.next_uid w) in *.
  split; [exact Ho|].
  assert (Htab : Psp.tables (kernel_of r) !! globalTls (memory_of r)
                 = Some {[ threadDataKey (memory_of r) := p ]}).
  { rewrite Htables, Hglobal, Hkey. apply lookup_insert_eq. }
  assert (Hp : p <> NULL).
  { unfold p, NULL, PSP_MAX_TLS. lia. }
  assert (Hreg : psp_registered (kernel_of r) (memory_of r) (Psp.current w) p sem).
  { exists th, {[ threadDataKey (memory_of r) := p ]}.
    rewrite Hthreads. split; [exact Hth|].
    assert (Htable : table_of (Psp.scan_pthread (Psp.name th)) (memory_of r)
                     = globalTls (memory_of r)).
    { destruct (Psp.scan_pthread (Psp.name th)); try reflexivity.
      contradiction Hscan. reflexivity. }
    rewrite Htable. split; [exact Htab|].
    split; [apply lookup_singleton_eq|]. split; [exact Hp|].
    unfold cancelSem_at. rewrite Hh, lookup_insert_eq. reflexivity. }
  assert (Hsm : Psp.semas (kernel_of r) !! sem = Some (Psp.mkSema 0 255)).
  { rewrite Hsemas. apply lookup_insert_eq. }
  exists p, sem. split; [exact Htab|]. split; [exact Hreg|]. split; [exact Hsm|].
  destruct (psp_CheckCancel _ _ (Psp.current w) p sem _ Hreg Hsm) as (Ho' & _).
  exact Ho'.
Qed.

Lemma init_registers_the_caller_witness :
  let w := Psp.boot 8 4096 in
  let r := run Psp.kernel pte_osInit initial_memory w in
  Psp.threads w !! Psp.current w = Some (Psp.mkThread "user_main" PSP_THREAD_READY) /\
  numMatches (Psp.scan_pthread "user_main") <> 2 /\
  outcome_of r = Returned PTE_OS_OK /\
  exists p sem,
    Psp.tables (kernel_of r) !! globalTls (memory_of r)
    = Some {[ threadDataKey (memory_of r) := p ]} /\
    psp_registered (kernel_of r) (memory_of r) (Psp.current w) p sem /\
    Psp.semas (kernel_of r) !! sem = Some (Psp.mkSema 0 255) /\
    outcome_of (run Psp.kernel (pte_osThreadCheckCancel (Psp.current w))
                  (memory_of r) (kernel_of r)) = Returned PTE_OS_OK.
Proof.
  split; [reflexivity |]. split; [vm_compute; discriminate |].
  apply (init_registers_the_caller (Psp.boot 8 4096) initial_memory
           (Psp.mkThread "user_main" PSP_THREAD_READY)).
  - reflexivity.
  - vm_compute; discriminate.
  - simpl; lia.
  - vm_compute; discriminate.
  - simpl; lia.
Defined.

(** ** Mutexes and semaphores on the reference kernel *)

Lemma psp_status_codes :
  (to_uint32 SCE_KERNEL_ERROR_OK =? SCE_KERNEL_ERROR_OK) = true /\
  (to_uint32 (to_int32 SCE_KERNEL_ERROR_WAIT_TIMEOUT) =? SCE_KERNEL_ERROR_OK)
  = false /\
  (to_uint32 (to_int32 SCE_KERNEL_ERROR_WAIT_TIMEOUT)
   =? SCE_KERNEL_ERROR_WAIT_TIMEOUT) = true /\
  (to_uint32 (to_int32 SCE_KERNEL_ERROR_UNKNOWN_SEMID) =? SCE_KERNEL_ERROR_OK)
  = false /\
  (to_uint32 (to_int32 SCE_KERNEL_ERROR_UNKNOWN_SEMID)
   =? SCE_KERNEL_ERROR_WAIT_TIMEOUT) = false /\
  (to_int32 SCE_KERNEL_ERROR_WAIT_TIMEOUT <? 0) = true.
Proof. repeat split. Qed.

(** X17: a mutex of this file is a kernel semaphore that counts 1 when
    free and 0 when held, with maximum 1.  On the reference kernel:
    [pte_osMutexCreate] makes it free; locking a free mutex, timed or
    not, returns [PTE_OS_OK] and leaves it held; a timed lock of a held
    mutex that nobody releases returns [PTE_OS_TIMEOUT] after the time
    asked for and leaves it held; unlocking returns [PTE_OS_OK] and
    leaves the mutex free, whether it was held or free already: the
    kernel's refusal to count beyond 1 is not reported. *)
Theorem mutex_is_a_binary_semaphore_on_psp :
  forall (w : Psp.world) (m : memory) (handle c ms : Z),
    Psp.semas w !! handle = Some (Psp.mkSema c 1) ->
    0 <= c <= 1 ->
    let lock := run Psp.kernel (pte_osMutexLock handle) m w in
    let timed := run Psp.kernel (pte_osMutexTimedLock handle ms) m w in
    let unlock := run Psp.kernel (pte_osMutexUnlock handle) m w in
    (forall w0 m0,
        (1 <= Psp.kernel_free w0)%nat ->
        let r := run Psp.kernel pte_osMutexCreate m0 w0 in
        outcome_of r = Returned (PTE_OS_OK, Psp.next_uid w0) /\
        Psp.semas (kernel_of r)
        = <[Psp.next_uid w0 := Psp.mkSema 1 1]> (Psp.semas w0)) /\
    (c = 1 ->
     outcome_of lock = Returned PTE_OS_OK /\
     Psp.semas (kernel_of lock) = <[handle := Psp.mkSema 0 1]> (Psp.semas w) /\
     outcome_of timed = Returned PTE_OS_OK /\
     Psp.semas (kernel_of timed) = <[handle := Psp.mkSema 0 1]> (Psp.semas w)) /\
    (c = 0 -> Psp.script w = [] ->
     outcome_of timed = Returned PTE_OS_TIMEOUT /\
     Psp.semas (kernel_of timed) = Psp.semas w /\
     Psp.now (kernel_of timed) = Psp.now w + to_uint32 (ms * 1000)) /\
    (outcome_of unlock = Returned PTE_OS_OK /\
     Psp.semas (kernel_of unlock) = <[handle := Psp.mkSema 1 1]> (Psp.semas w)).
Proof.
  intros w m handle c ms Hsm Hc lock timed unlock.
  destruct psp_status_codes as (_ & _ & _ & _ & _ & Hneg).
  split; [|split; [|split]].
  - intros w0 m0 Hk r. subst r. unfold pte_osMutexCreate. simpl.
    destruct (Psp.kernel_free w0); [lia|]. split; reflexivity.
  - intros ->. subst lock timed.
    unfold pte_osMutexLock, pte_osMutexTimedLock. simpl.
    rewrite Hsm. unfold Psp.acquire. rewrite Hsm. simpl.
    repeat split.
  - intros -> Hquiet. subst timed.
    unfold pte_osMutexTimedLock. simpl.
    rewrite Hsm. unfold Psp.acquire. rewrite Hsm. simpl.
    rewrite (psp_advance_quiet _ w Hquiet). simpl. rewrite Hsm. simpl.
    rewrite ?Hneg. repeat split.
  - subst unlock. unfold pte_osMutexUnlock. simpl. rewrite Hsm. simpl.
    destruct (c + 1 <=? 1) eqn:E; simpl.
    + apply Z.leb_le in E. assert (c = 0) by lia. subst c. split; reflexivity.
    + apply Z.leb_gt in E. assert (c = 1) by lia. subst c.
      split; [reflexivity|]. symmetry. apply insert_id. exact Hsm.
Qed.

Lemma mutex_is_a_binary_semaphore_on_psp_witness :
  let r0 := run Psp.kernel pte_osMutexCreate initial_memory (Psp.boot 4 64) in
  let r1 := run Psp.kernel (pte_osMutexLock 2) (memory_of r0) (kernel_of r0) in
  Psp.semas (kernel_of r1) !! 2 = Some (Psp.mkSema 0 1) /\ 0 <= 0 <= 1 /\
  Psp.script (kernel_of r1) = [] /\
  outcome_of (run Psp.kernel (pte_osMutexTimedLock 2 5) (memory_of r1) (kernel_of r1))
  = Returned PTE_OS_TIMEOUT.
Proof.
  set (r0 := run Psp.kernel pte_osMutexCreate initial_memory (Psp.boot 4 64)).
  set (r1 := run Psp.kernel (pte_osMutexLock 2) (memory_of r0) (kernel_of r0)).
  cbv zeta.
  assert (Hsm : Psp.semas (kernel_of r1) !! 2 = Some (Psp.mkSema 0 1))
    by (vm_compute; reflexivity).
  split; [exact Hsm |]. split; [lia |]. split; [reflexivity |].
  pose proof (mutex_is_a_binary_semaphore_on_psp (kernel_of r1) (memory_of r1)
                2 0 5 Hsm ltac:(lia)) as H.
  cbv zeta in H. destruct H as (_ & _ & Hheld & _).
  destruct Hheld as (Ho & _); [reflexivity | reflexivity | exact Ho].
Defined.

(** X18: on the reference kernel, for a semaphore that counts [c] of at
    most [mx]: [pte_osSemaphorePost] of [k] returns [PTE_OS_OK] and adds
    [k] when the maximum allows it, and returns [PTE_OS_OK] having changed
    nothing when it does not; [pte_osSemaphorePend] takes one and returns
    [PTE_OS_OK] when [c >= 1], with or without timeout; with [c < 1], a
    timeout and nobody to post, it returns [PTE_OS_TIMEOUT] with the
    count unchanged.  On an identifier that is no semaphore, the pend
    returns [PTE_OS_GENERAL_FAILURE], but the post and the delete return
    [PTE_OS_OK]. *)
Theorem semaphore_counts_on_psp :
  forall (w : Psp.world) (m : memory) (handle c mx k : Z) (pTimeout : option Z),
    Psp.semas w !! handle = Some (Psp.mkSema c mx) ->
    let post := run Psp.kernel (pte_osSemaphorePost handle k) m w in
    let pend := run Psp.kernel (pte_osSemaphorePend handle pTimeout) m w in
    (outcome_of post = Returned PTE_OS_OK /\
     (c + k <= mx ->
      Psp.semas (kernel_of post) = <[handle := Psp.mkSema (c + k) mx]> (Psp.semas w)) /\
     (mx < c + k -> kernel_of post = w)) /\
    (1 <= c ->
     outcome_of pend = Returned PTE_OS_OK /\
     Psp.semas (kernel_of pend) = <[handle := Psp.mkSema (c - 1) mx]> (Psp.semas w)) /\
    (c < 1 -> Psp.script w = [] -> is_Some pTimeout ->
     outcome_of pend = Returned PTE_OS_TIMEOUT /\
     Psp.semas (kernel_of pend) = Psp.semas w) /\
    (forall other,
        Psp.semas w !! other = None ->
        outcome_of (run Psp.kernel (pte_osSemaphorePend other pTimeout) m w)
        = Returned PTE_OS_GENERAL_FAILURE /\
        outcome_of (run Psp.kernel (pte_osSemaphorePost other k) m w)
        = Returned PTE_OS_OK /\
        outcome_of (run Psp.kernel (pte_osSemaphoreDelete other) m w)
        = Returned PTE_OS_OK).
Proof.
  intros w m handle c mx k pTimeout Hsm post pend.
  destruct psp_status_codes as (Hok & Ht1 & Ht2 & Hu1 & Hu2 & _).
  split; [|split; [|split]].
  - subst post. unfold pte_osSemaphorePost. simpl. rewrite Hsm. simpl.
    split; [reflexivity|].
    destruct (c + k <=? mx) eqn:E; simpl.
    + split; [reflexivity|]. apply Z.leb_le in E. lia.
    + apply Z.leb_gt in E. split; [lia|reflexivity].
  - intros Hc. subst pend. unfold pte_osSemaphorePend. simpl.
    rewrite Hsm. unfold Psp.acquire. rewrite Hsm. simpl.
    assert (E : (1 <=? c) = true) by (apply Z.leb_le; assumption).
    rewrite E. simpl. rewrite ?Hok. split; reflexivity.
  - intros Hc Hquiet [ms ->]. subst pend. unfold pte_osSemaphorePend. simpl.
    rewrite Hsm. unfold Psp.acquire. rewrite Hsm. simpl.
    assert (E : (1 <=? c) = false) by (apply Z.leb_gt; assumption).
    rewrite E. simpl.
    rewrite (psp_advance_quiet _ w Hquiet). simpl. rewrite Hsm. simpl.
    rewrite E. simpl. rewrite ?Ht1, ?Ht2. split; reflexivity.
  - intros other Hnone.
    unfold pte_osSemaphorePend, pte_osSemaphorePost, pte_osSemaphoreDelete.
    simpl. rewrite Hnone. simpl. rewrite ?Hu1, ?Hu2. repeat split.
Qed.

Lemma semaphore_counts_on_psp_witness :
  let r0 := run Psp.kernel (pte_osSemaphoreCreate 0) initial_memory (Psp.boot 4 64) in
  Psp.semas (kernel_of r0) !! 2 = Some (Psp.mkSema 0 SEM_VALUE_MAX) /\
  0 < 1 /\ Psp.script (kernel_of r0) = [] /\ is_Some (Some 5) /\
  outcome_of (run Psp.kernel (pte_osSemaphorePend 2 (Some 5))
                (memory_of r0) (kernel_of r0)) = Returned PTE_OS_TIMEOUT.
Proof.
  set (r0 := run Psp.kernel (pte_osSemaphoreCreate 0) initial_memory (Psp.boot 4 64)).
  cbv zeta.
  assert (Hsm : Psp.semas (kernel_of r0) !! 2 = Some (Psp.mkSema 0 SEM_VALUE_MAX))
    by (vm_compute; reflexivity).
  split; [exact Hsm |]. split; [lia |]. split; [reflexivity |].
  split; [eexists; reflexivity |].
  pose proof (semaphore_counts_on_psp (kernel_of r0) (memory_of r0) 2 0
                SEM_VALUE_MAX 1 (Some 5) Hsm) as H.
  cbv zeta in H. destruct H as (_ & _ & Hempty & _).
  destruct Hempty as (Ho & _); [lia | reflexivity | eexists; reflexivity | exact Ho].
Defined.

(** ** A timed pend that nothing ends *)








(** ** Allocating a TLS key *)

Lemma first_free_spec (n : nat) :
  forall (k0 : Z) (ks : gset Z) (k : Z),
    Psp.first_free n k0 ks = Some k ->
    (k ∉ ks) /\ k0 <= k < k0 + Z.of_nat n.
Proof.
  induction n as [|n IH]; intros k0 ks k H; simpl in H; [discriminate H|].
  destruct (decide (k0 ∈ ks)) as [Hin|Hout].
  - destruct (IH _ _ _ H) as [Hk Hr]. split; [exact Hk|lia].
  - injection H as <-. split; [exact Hout|lia].
Qed.

Lemma psp_getTlsStructFromThread_pure w m thid :
  let r := run Psp.kernel (getTlsStructFromThread thid) m w in
  (exists pTls, outcome_of r = Returned pTls) /\ memory_of r = m /\ kernel_of r = w.
Proof.
  unfold getTlsStructFromThread. simpl.
  destruct (Psp.threads w !! thid) as [th|]; simpl.
  - destruct (Psp.scan_pthread (Psp.name th)); simpl; eauto.
  - destruct (Psp.scan_pthread ""); simpl; eauto.
Qed.

(** X20: on the reference kernel, [pte_osTlsAlloc] hands out a key that
    was not in use, within the range fixed at initialisation, and marks
    it used; when no key is left it returns [PTE_OS_NO_RESOURCES] and no
    key.  As [pte_osInit] has taken the key of the control blocks,
    [threadDataKey], from the same pool, a key handed out afterwards is
    never [threadDataKey]: values stored under it cannot replace a
    control block.  The table it looks up first is not used: threads,
    tables and the file's variables are unchanged. *)
Theorem pte_osTlsAlloc_fresh_key_on_psp :
  forall (w : Psp.world) (m : memory),
    let r := run Psp.kernel pte_osTlsAlloc m w in
    ((exists key,
         outcome_of r = Returned (PTE_OS_OK, Some key) /\
         (key ∉ Psp.keys w) /\
         0 <= key < Z.max 0 (Psp.maxKeys w) /\
         Psp.keys (kernel_of r) = {[key]} ∪ Psp.keys w /\
         (threadDataKey m ∈ Psp.keys w -> key <> threadDataKey m)) \/
     (outcome_of r = Returned (PTE_OS_NO_RESOURCES, None) /\
      Psp.keys (kernel_of r) = Psp.keys w)) /\
    memory_of r = m /\
    Psp.tables (kernel_of r) = Psp.tables w /\
    Psp.threads (kernel_of r) = Psp.threads w /\
    Psp.semas (kernel_of r) = Psp.semas w.
Proof.
  intros w m r. subst r. unfold pte_osTlsAlloc. rewrite run_call_bind.
  change (Psp.kernel sceKernelGetThreadId w) with (Psp.current w, w).
  cbn [fst snd log outcome_of memory_of kernel_of trace_of].
  rewrite run_bind.
  destruct (psp_getTlsStructFromThread_pure w m (Psp.current w))
    as ((pTls & Ho) & Hm & Hk).
  cbv zeta in *. rewrite Ho, Hm, Hk.
  cbn [outcome_of memory_of kernel_of trace_of].
  unfold call. cbn [run log outcome_of memory_of kernel_of trace_of].
  change (Psp.kernel pteTlsAlloc w) with (Psp.tls_alloc w).
  unfold Psp.tls_alloc.
  destruct (Psp.first_free (Z.to_nat (Psp.maxKeys w)) 0 (Psp.keys w)) as [key|] eqn:E;
    cbn [fst snd].
  - destruct (first_free_spec _ _ _ _ E) as [Hnew Hrange].
    split; [|repeat split]. left. exists key.
    split; [reflexivity|]. split; [exact Hnew|]. split; [lia|].
    split; [reflexivity|]. intros Hin ->. contradiction.
  - split; [|repeat split]. right. split; reflexivity.
Qed.
